(** * pubsubclient: a JSON-over-HTTP client for a publish/subscribe service

    Shallow embedding of [client.go] (package [pubsubclient]) and of the
    parts of the Go libraries it calls ([unicode/utf8], [encoding/json],
    [net/http], [net/url], [ozzo-validation]), followed by the properties
    of the client's operations.

    Conventions:
    - a Go [string] is a sequence of bytes: it is a [string] here, whose
      characters are the 8-bit [ascii]; [len(s)] is [String.length s];
    - a Go [int], [rune] or [byte] used as a number is a [Z];
    - a Go [error] is a value of the inductive type [error]; [nil] is the
      [Ok] side of a [result];
    - the HTTP transport (the [*http.Client] held by the [Client]) is an
      instance of the class [http.Environment]: a state and a function that
      answers one request. *)

From Stdlib Require Import ZArith Ascii String List Lia Bool DecimalString.
From stdpp Require Import base strings gmap list.

Local Open Scope string_scope.
Local Open Scope Z_scope.

(** ** Bytes *)

Definition b2z (c : ascii) : Z := Z.of_N (N_of_ascii c).

(** [byte(z)]: conversion of an integer to a byte keeps the low 8 bits. *)
Definition z2b (z : Z) : ascii := ascii_of_N (Z.to_N (z mod 256)).

(** [s[i]], read as a number; only used below [len(s)]. *)
Definition at_ (s : string) (i : nat) : Z :=
  match String.get i s with
  | Some c => b2z c
  | None => 0
  end.

(** [s[n:]] *)
Fixpoint drop_s (n : nat) (s : string) : string :=
  match n, s with
  | O, _ => s
  | S n', String _ r => drop_s n' r
  | S _, EmptyString => EmptyString
  end.

(** [s[:n]] *)
Fixpoint take_s (n : nat) (s : string) : string :=
  match n, s with
  | O, _ => EmptyString
  | S n', String c r => String c (take_s n' r)
  | S _, EmptyString => EmptyString
  end.

Definition dquote : ascii := "034"%char.
Definition backslash : ascii := "\"%char.

(** The text [s] between double quotes. *)
Definition quoted (s : string) : string :=
  String dquote (s ++ String dquote EmptyString).

(** ** unicode/utf8 *)

Module utf8.

Definition RuneError : Z := 0xFFFD.
Definition RuneSelf : Z := 0x80.
Definition MaxRune : Z := 0x10FFFF.
Definition UTFMax : nat := 4.

Definition surrogateMin : Z := 0xD800.
Definition surrogateMax : Z := 0xDFFF.

Definition tx : Z := 0x80.
Definition t2 : Z := 0xC0.
Definition t3 : Z := 0xE0.
Definition t4 : Z := 0xF0.

Definition maskx : Z := 0x3F.
Definition mask2 : Z := 0x1F.
Definition mask3 : Z := 0x0F.
Definition mask4 : Z := 0x07.

Definition rune1Max : Z := 0x7F.
Definition rune2Max : Z := 0x7FF.
Definition rune3Max : Z := 0xFFFF.

Definition locb : Z := 0x80.
Definition hicb : Z := 0xBF.

(** Entries of the table [first]: the low 3 bits are the length of the
    sequence, the high 4 bits index [acceptRanges]. *)
Definition xx : Z := 0xF1.
Definition as_ : Z := 0xF0.
Definition s1 : Z := 0x02.
Definition s2 : Z := 0x13.
Definition s3 : Z := 0x03.
Definition s4 : Z := 0x23.
Definition s5 : Z := 0x34.
Definition s6 : Z := 0x04.
Definition s7 : Z := 0x44.

(** [first[b]], the table given by ranges of the first byte. *)
Definition first (b : Z) : Z :=
  if b <? 0x80 then as_
  else if b <? 0xC2 then xx
  else if b <? 0xE0 then s1
  else if b =? 0xE0 then s2
  else if b <? 0xED then s3
  else if b =? 0xED then s4
  else if b <? 0xF0 then s3
  else if b =? 0xF0 then s5
  else if b <? 0xF4 then s6
  else if b =? 0xF4 then s7
  else xx.

(** [acceptRanges[i]] as [(lo, hi)]: the range of the second byte. *)
Definition acceptRanges (i : Z) : Z * Z :=
  if i =? 0 then (locb, hicb)
  else if i =? 1 then (0xA0, hicb)
  else if i =? 2 then (locb, 0x9F)
  else if i =? 3 then (0x90, hicb)
  else if i =? 4 then (locb, 0x8F)
  else (0, 0).

(** [utf8.DecodeRuneInString] (and [utf8.DecodeRune] on the same bytes):
    the first rune of [s] and its width in bytes; [(RuneError, 1)] on an
    encoding that is not valid, [(RuneError, 0)] on the empty string. *)
Definition DecodeRuneInString (s : string) : Z * nat :=
  let n := String.length s in
  if (n <? 1)%nat then (RuneError, 0%nat) else
  let s0 := at_ s 0 in
  let x := first s0 in
  if as_ <=? x then
    (* mask is all ones for xx and zero for as *)
    ((if Z.odd x then RuneError else s0), 1%nat)
  else
  let sz := Z.to_nat (Z.land x 7) in
  let '(lo, hi) := acceptRanges (Z.shiftr x 4) in
  if (n <? sz)%nat then (RuneError, 1%nat) else
  let c1 := at_ s 1 in
  if (c1 <? lo) || (hi <? c1) then (RuneError, 1%nat) else
  if (sz <=? 2)%nat then
    (Z.lor (Z.shiftl (Z.land s0 mask2) 6) (Z.land c1 maskx), 2%nat)
  else
  let c2 := at_ s 2 in
  if (c2 <? locb) || (hicb <? c2) then (RuneError, 1%nat) else
  if (sz <=? 3)%nat then
    (Z.lor (Z.lor (Z.shiftl (Z.land s0 mask3) 12)
                  (Z.shiftl (Z.land c1 maskx) 6))
           (Z.land c2 maskx), 3%nat)
  else
  let c3 := at_ s 3 in
  if (c3 <? locb) || (hicb <? c3) then (RuneError, 1%nat) else
  (Z.lor (Z.lor (Z.lor (Z.shiftl (Z.land s0 mask4) 18)
                       (Z.shiftl (Z.land c1 maskx) 12))
                (Z.shiftl (Z.land c2 maskx) 6))
         (Z.land c3 maskx), 4%nat).

(** The three-byte encoding, shared by the fall-through of [EncodeRune]. *)
Definition encode3 (r : Z) : string :=
  String (z2b (Z.lor t3 (Z.shiftr r 12)))
 (String (z2b (Z.lor tx (Z.land (Z.shiftr r 6) maskx)))
 (String (z2b (Z.lor tx (Z.land r maskx))) EmptyString)).

(** [utf8.EncodeRune] / [utf8.AppendRune]: the bytes written for [r]. *)
Definition EncodeRune (r : Z) : string :=
  let i := r mod 2 ^ 32 in
  if i <=? rune1Max then String (z2b r) EmptyString
  else if i <=? rune2Max then
    String (z2b (Z.lor t2 (Z.shiftr r 6)))
   (String (z2b (Z.lor tx (Z.land r maskx))) EmptyString)
  else if (MaxRune <? i) || ((surrogateMin <=? i) && (i <=? surrogateMax))
  then encode3 RuneError
  else if i <=? rune3Max then encode3 r
  else
    String (z2b (Z.lor t4 (Z.shiftr r 18)))
   (String (z2b (Z.lor tx (Z.land (Z.shiftr r 12) maskx)))
   (String (z2b (Z.lor tx (Z.land (Z.shiftr r 6) maskx)))
   (String (z2b (Z.lor tx (Z.land r maskx))) EmptyString))).

(** [utf8.ValidString]: no position of the walk over [s] decodes to
    [(RuneError, 1)]. The walk needs at most [len(s)] steps. *)
Fixpoint valid_loop (fuel : nat) (s : string) : bool :=
  match fuel with
  | O => match s with EmptyString => true | _ => false end
  | S fuel' =>
    match s with
    | EmptyString => true
    | String _ _ =>
      let '(r, size) := DecodeRuneInString s in
      if (r =? RuneError) && (size =? 1)%nat then false
      else valid_loop fuel' (drop_s size s)
    end
  end.

Definition ValidString (s : string) : bool :=
  valid_loop (String.length s) s.

End utf8.

(** ** Results *)

Inductive result (E A : Type) : Type :=
| Ok (a : A)
| Err (e : E).
Arguments Ok {E A} a.
Arguments Err {E A} e.

(** ** Go errors

    One constructor per way in which the code and its libraries build an
    [error]. [Errorf_d] and [Errorf_v] are [fmt.Errorf] with a format that
    ends in one [%d] or one [%v]: they carry the text before the verb. *)

Inductive error : Type :=
| SyntaxError                                  (* *json.SyntaxError *)
| UnmarshalTypeError (value type_ : string)    (* *json.UnmarshalTypeError *)
| io_EOF
| io_ErrUnexpectedEOF
| errors_New (msg : string)                    (* errors.New(msg) *)
| url_Error (op url : string)                  (* *url.Error, for the URL given to the parser *)
| http_invalidMethod (method : string)         (* net/http: invalid method *)
| TransportError (msg : string)                (* failure of the round trip or of reading the body *)
| Errorf_d (prefix : string) (n : Z)
| Errorf_v (prefix : string) (err : error).

(** [%d] of an [int] *)
Definition itoa (n : Z) : string := NilZero.string_of_int (Z.to_int n).

(** [err.Error()], for the errors whose text is decided by the code that
    is embedded here; the texts that [encoding/json] and [net/url] build
    for their own errors are not. *)
Fixpoint Error_ (err : error) : option string :=
  match err with
  | SyntaxError | UnmarshalTypeError _ _ | url_Error _ _ | http_invalidMethod _ => None
  | io_EOF => Some "EOF"
  | io_ErrUnexpectedEOF => Some "unexpected EOF"
  | errors_New msg => Some msg
  | TransportError msg => Some msg
  | Errorf_d prefix n => Some (prefix ++ itoa n)
  | Errorf_v prefix err' =>
    match Error_ err' with
    | Some text => Some (prefix ++ text)
    | None => None
    end
  end.

(** ** encoding/json *)

Module json.

(** *** Encoding of strings ([appendString] with [escapeHTML] set, as
    [json.Marshal] calls it) *)

(** [htmlSafeSet[b]] for [b < utf8.RuneSelf]: the printable ASCII bytes
    except the double quote, the backslash and [<], [>], [&]. *)
Definition htmlSafeSet (b : Z) : bool :=
  (0x20 <=? b) && (b <? 0x80) &&
  negb ((b =? 0x22) || (b =? 0x26) || (b =? 0x3C) || (b =? 0x3E) || (b =? 0x5C)).

(** [hex[i]] in "0123456789abcdef" *)
Definition hex (i : Z) : ascii :=
  if i <? 10 then z2b (0x30 + i) else z2b (0x61 + (i - 10)).

(** The escape written for an ASCII byte outside [htmlSafeSet]. *)
Definition escapeByte (c : ascii) : string :=
  let b := b2z c in
  if (b =? 0x5C) || (b =? 0x22) then String backslash (String c EmptyString)
  else if b =? 0x08 then String backslash "b"
  else if b =? 0x0C then String backslash "f"
  else if b =? 0x0A then String backslash "n"
  else if b =? 0x0D then String backslash "r"
  else if b =? 0x09 then String backslash "t"
  else String backslash "u00" ++ String (hex (Z.shiftr b 4)) (String (hex (Z.land b 0xF)) EmptyString).

(** The loop of [appendString] from index [i], on [src[i:]]; every turn
    advances by at least one byte, so [len(src)] turns suffice. *)
Fixpoint appendString_loop (fuel : nat) (src : string) : string :=
  match fuel with
  | O => EmptyString
  | S fuel' =>
    match src with
    | EmptyString => EmptyString
    | String c rest =>
      if b2z c <? utf8.RuneSelf then
        (if htmlSafeSet (b2z c) then String c EmptyString else escapeByte c)
          ++ appendString_loop fuel' rest
      else
        let '(r, size) := utf8.DecodeRuneInString src in
        if (r =? utf8.RuneError) && (size =? 1)%nat then
          String backslash "ufffd" ++ appendString_loop fuel' (drop_s size src)
        else if (r =? 0x2028) || (r =? 0x2029) then
          String backslash "u202" ++ String (hex (Z.land r 0xF)) EmptyString
            ++ appendString_loop fuel' (drop_s size src)
        else
          take_s size src ++ appendString_loop fuel' (drop_s size src)
    end
  end.

(** The text between the quotes that [appendString] writes for [src]. *)
Definition escape (src : string) : string :=
  appendString_loop (String.length src) src.

Definition appendString (src : string) : string := quoted (escape src).

(** *** The scanner: which byte sequences are JSON texts *)

Inductive scanres (A : Type) : Type :=
| Scanned (a : A)
| ScanError        (* a byte that cannot continue the text *)
| ScanEOF          (* the input ends inside a value *)
| ScanFuel.        (* the recursion bound ran out: never, see [value_fuel] *)
Arguments Scanned {A} a.
Arguments ScanError {A}.
Arguments ScanEOF {A}.
Arguments ScanFuel {A}.

Definition sbind {A B} (m : scanres A) (k : A -> scanres B) : scanres B :=
  match m with
  | Scanned a => k a
  | ScanError => ScanError
  | ScanEOF => ScanEOF
  | ScanFuel => ScanFuel
  end.

(** Put the byte just read in front of the text scanned after it. *)
Definition consumed (c : ascii) (m : scanres (string * string))
  : scanres (string * string) :=
  sbind m (fun '(lit, rest) => Scanned (String c lit, rest)).

Definition isSpace (c : ascii) : bool :=
  let b := b2z c in
  (b <=? 0x20) && ((b =? 0x20) || (b =? 0x09) || (b =? 0x0D) || (b =? 0x0A)).

Fixpoint skipSpace (s : string) : string :=
  match s with
  | String c r => if isSpace c then skipSpace r else s
  | EmptyString => EmptyString
  end.

Definition isDigit (c : ascii) : bool := (0x30 <=? b2z c) && (b2z c <=? 0x39).
Definition isDigit19 (c : ascii) : bool := (0x31 <=? b2z c) && (b2z c <=? 0x39).

Definition isHex (c : ascii) : bool :=
  let b := b2z c in
  ((0x30 <=? b) && (b <=? 0x39)) || ((0x61 <=? b) && (b <=? 0x66))
  || ((0x41 <=? b) && (b <=? 0x46)).

(** The scanner's states inside a string literal. *)
Inductive stringState : Type :=
| stateInString | stateInStringEsc | stateInStringEscU
| stateInStringEscU1 | stateInStringEscU12 | stateInStringEscU123.

(** After the opening quote: the literal's text up to its closing quote
    (escapes still in place) and the input after that quote. *)
Fixpoint scanString (st : stringState) (s : string)
  : scanres (string * string) :=
  match s with
  | EmptyString => ScanEOF
  | String c r =>
    match st with
    | stateInString =>
      if Ascii.eqb c dquote then Scanned (EmptyString, r)
      else if Ascii.eqb c backslash then consumed c (scanString stateInStringEsc r)
      else if b2z c <? 0x20 then ScanError
      else consumed c (scanString stateInString r)
    | stateInStringEsc =>
      if existsb (Ascii.eqb c)
           ["b"; "f"; "n"; "r"; "t"; backslash; "/"; dquote]%char
      then consumed c (scanString stateInString r)
      else if Ascii.eqb c "u" then consumed c (scanString stateInStringEscU r)
      else ScanError
    | stateInStringEscU =>
      if isHex c then consumed c (scanString stateInStringEscU1 r) else ScanError
    | stateInStringEscU1 =>
      if isHex c then consumed c (scanString stateInStringEscU12 r) else ScanError
    | stateInStringEscU12 =>
      if isHex c then consumed c (scanString stateInStringEscU123 r) else ScanError
    | stateInStringEscU123 =>
      if isHex c then consumed c (scanString stateInString r) else ScanError
    end
  end.

(** The scanner's states inside a number. *)
Inductive numberState : Type :=
| stateNeg | state1 | state0 | stateDot | stateDot0
| stateE | stateESign | stateE0.

(** After the first byte of a number: the rest of its text and the input
    from the first byte that does not belong to it. *)
Fixpoint scanNumber (st : numberState) (s : string)
  : scanres (string * string) :=
  match s with
  | EmptyString =>
    match st with
    | state1 | state0 | stateDot0 | stateE0 => Scanned (EmptyString, EmptyString)
    | _ => ScanEOF
    end
  | String c r =>
    match st with
    | stateNeg =>
      if Ascii.eqb c "0" then consumed c (scanNumber state0 r)
      else if isDigit19 c then consumed c (scanNumber state1 r)
      else ScanError
    | state1 =>
      if isDigit c then consumed c (scanNumber state1 r)
      else if Ascii.eqb c "." then consumed c (scanNumber stateDot r)
      else if Ascii.eqb c "e" || Ascii.eqb c "E" then consumed c (scanNumber stateE r)
      else Scanned (EmptyString, s)
    | state0 =>
      if Ascii.eqb c "." then consumed c (scanNumber stateDot r)
      else if Ascii.eqb c "e" || Ascii.eqb c "E" then consumed c (scanNumber stateE r)
      else Scanned (EmptyString, s)
    | stateDot =>
      if isDigit c then consumed c (scanNumber stateDot0 r) else ScanError
    | stateDot0 =>
      if isDigit c then consumed c (scanNumber stateDot0 r)
      else if Ascii.eqb c "e" || Ascii.eqb c "E" then consumed c (scanNumber stateE r)
      else Scanned (EmptyString, s)
    | stateE =>
      if Ascii.eqb c "+" || Ascii.eqb c "-" then consumed c (scanNumber stateESign r)
      else if isDigit c then consumed c (scanNumber stateE0 r)
      else ScanError
    | stateESign =>
      if isDigit c then consumed c (scanNumber stateE0 r) else ScanError
    | stateE0 =>
      if isDigit c then consumed c (scanNumber stateE0 r)
      else Scanned (EmptyString, s)
    end
  end.

(** The remaining letters [lit] of [true], [false] or [null]. *)
Fixpoint scanLiteral (lit : string) (s : string) : scanres string :=
  match lit with
  | EmptyString => Scanned s
  | String l lit' =>
    match s with
    | EmptyString => ScanEOF
    | String c r => if Ascii.eqb c l then scanLiteral lit' r else ScanError
    end
  end.

(** *** Unquoting ([unquoteBytes], on the text between the quotes) *)

Definition hexval (c : ascii) : Z :=
  let b := b2z c in
  if (0x30 <=? b) && (b <=? 0x39) then b - 0x30
  else if (0x61 <=? b) && (b <=? 0x66) then b - 0x61 + 10
  else if (0x41 <=? b) && (b <=? 0x46) then b - 0x41 + 10
  else -1.

(** [getu4]: the rune of a [\uXXXX] at the start of [s], or [-1]. *)
Definition getu4 (s : string) : Z :=
  match s with
  | String e0 (String e1 (String h1 (String h2 (String h3 (String h4 _))))) =>
    if negb (Ascii.eqb e0 backslash) || negb (Ascii.eqb e1 "u") then -1
    else if isHex h1 && isHex h2 && isHex h3 && isHex h4 then
      ((hexval h1 * 16 + hexval h2) * 16 + hexval h3) * 16 + hexval h4
    else -1
  | _ => -1
  end.

(** [utf16.IsSurrogate] *)
Definition IsSurrogate (r : Z) : bool := (0xD800 <=? r) && (r <? 0xE000).

(** [utf16.DecodeRune] *)
Definition utf16_DecodeRune (r1 r2 : Z) : Z :=
  if (0xD800 <=? r1) && (r1 <? 0xDC00) && (0xDC00 <=? r2) && (r2 <? 0xE000)
  then Z.lor (Z.shiftl (r1 - 0xD800) 10) (r2 - 0xDC00) + 0x10000
  else 0xFFFD.

Definition cons_s (c : ascii) (o : option string) : option string :=
  match o with Some t => Some (String c t) | None => None end.

Definition app_s (p : string) (o : option string) : option string :=
  match o with Some t => Some (p ++ t) | None => None end.

(** The main loop of [unquoteBytes] from index [r], on [s[r:]]; [None]
    is its [ok = false]. Every turn advances by at least one byte. *)
Fixpoint unquote_loop (fuel : nat) (s : string) : option string :=
  match fuel with
  | O => match s with EmptyString => Some EmptyString | _ => None end
  | S fuel' =>
    match s with
    | EmptyString => Some EmptyString
    | String c r =>
      if Ascii.eqb c backslash then
        match r with
        | EmptyString => None
        | String e r' =>
          if existsb (Ascii.eqb e) [dquote; backslash; "/"; "'"]%char
          then cons_s e (unquote_loop fuel' r')
          else if Ascii.eqb e "b" then cons_s "008" (unquote_loop fuel' r')
          else if Ascii.eqb e "f" then cons_s "012" (unquote_loop fuel' r')
          else if Ascii.eqb e "n" then cons_s "010" (unquote_loop fuel' r')
          else if Ascii.eqb e "r" then cons_s "013" (unquote_loop fuel' r')
          else if Ascii.eqb e "t" then cons_s "009" (unquote_loop fuel' r')
          else if Ascii.eqb e "u" then
            let rr := getu4 s in
            if rr <? 0 then None
            else if IsSurrogate rr then
              let rr1 := getu4 (drop_s 6 s) in
              let dec := utf16_DecodeRune rr rr1 in
              if negb (dec =? 0xFFFD) then
                app_s (utf8.EncodeRune dec) (unquote_loop fuel' (drop_s 12 s))
              else
                app_s (utf8.EncodeRune 0xFFFD) (unquote_loop fuel' (drop_s 6 s))
            else app_s (utf8.EncodeRune rr) (unquote_loop fuel' (drop_s 6 s))
          else None
        end
      else if Ascii.eqb c dquote || (b2z c <? 0x20) then None
      else if b2z c <? utf8.RuneSelf then cons_s c (unquote_loop fuel' r)
      else
        let '(rr, size) := utf8.DecodeRuneInString s in
        app_s (utf8.EncodeRune rr) (unquote_loop fuel' (drop_s size s))
    end
  end.

Definition unquote (s : string) : option string :=
  unquote_loop (String.length s) s.

(** *** JSON texts as trees *)

#[local] Unset Elimination Schemes.
Inductive Value : Type :=
| Null
| Bool (b : bool)
| Number (lit : string)
| Str (s : string)
| Array (elems : list Value)
| Object (members : list (string * Value)).
#[local] Set Elimination Schemes.

Definition maxNestingDepth : N := 10000.

(** One JSON value at the start of [s] (after white space) and the input
    after it. [depth] is the number of arrays and objects open around it.
    Object keys and strings are unquoted as they are read. *)
Fixpoint value (fuel : nat) (depth : N) (s : string) {struct fuel}
  : scanres (Value * string) :=
  match fuel with
  | O => ScanFuel
  | S fuel' =>
    match skipSpace s with
    | EmptyString => ScanEOF
    | String c r =>
      if Ascii.eqb c "{" then
        if (maxNestingDepth <=? depth)%N then ScanError
        else
          match skipSpace r with
          | EmptyString => ScanEOF
          | String c' r' =>
            if Ascii.eqb c' "}" then Scanned (Object [], r')
            else sbind (members fuel' (depth + 1)%N r)
                       (fun '(kvs, rest) => Scanned (Object kvs, rest))
          end
      else if Ascii.eqb c "[" then
        if (maxNestingDepth <=? depth)%N then ScanError
        else
          match skipSpace r with
          | EmptyString => ScanEOF
          | String c' r' =>
            if Ascii.eqb c' "]" then Scanned (Array [], r')
            else sbind (elements fuel' (depth + 1)%N r)
                       (fun '(vs, rest) => Scanned (Array vs, rest))
          end
      else if Ascii.eqb c dquote then
        sbind (scanString stateInString r) (fun '(raw, rest) =>
          match unquote raw with
          | Some t => Scanned (Str t, rest)
          | None => ScanError
          end)
      else if Ascii.eqb c "-" then
        sbind (scanNumber stateNeg r)
              (fun '(lit, rest) => Scanned (Number (String c lit), rest))
      else if Ascii.eqb c "0" then
        sbind (scanNumber state0 r)
              (fun '(lit, rest) => Scanned (Number (String c lit), rest))
      else if isDigit19 c then
        sbind (scanNumber state1 r)
              (fun '(lit, rest) => Scanned (Number (String c lit), rest))
      else if Ascii.eqb c "t" then
        sbind (scanLiteral "rue" r) (fun rest => Scanned (Bool true, rest))
      else if Ascii.eqb c "f" then
        sbind (scanLiteral "alse" r) (fun rest => Scanned (Bool false, rest))
      else if Ascii.eqb c "n" then
        sbind (scanLiteral "ull" r) (fun rest => Scanned (Null, rest))
      else ScanError
    end
  end

(** The members of an object from a key on, through the closing brace. *)
with members (fuel : nat) (depth : N) (s : string) {struct fuel}
  : scanres (list (string * Value) * string) :=
  match fuel with
  | O => ScanFuel
  | S fuel' =>
    match skipSpace s with
    | EmptyString => ScanEOF
    | String c r =>
      if Ascii.eqb c dquote then
        sbind (scanString stateInString r) (fun '(raw, r1) =>
          match unquote raw with
          | None => ScanError
          | Some key =>
            match skipSpace r1 with
            | EmptyString => ScanEOF
            | String c1 r2 =>
              if Ascii.eqb c1 ":" then
                sbind (value fuel' depth r2) (fun '(v, r3) =>
                  match skipSpace r3 with
                  | EmptyString => ScanEOF
                  | String c3 r4 =>
                    if Ascii.eqb c3 "," then
                      sbind (members fuel' depth r4)
                            (fun '(kvs, r5) => Scanned ((key, v) :: kvs, r5))
                    else if Ascii.eqb c3 "}" then Scanned ([(key, v)], r4)
                    else ScanError
                  end)
              else ScanError
            end
          end)
      else ScanError
    end
  end

(** The elements of an array from a value on, through the closing
    bracket. *)
with elements (fuel : nat) (depth : N) (s : string) {struct fuel}
  : scanres (list Value * string) :=
  match fuel with
  | O => ScanFuel
  | S fuel' =>
    sbind (value fuel' depth s) (fun '(v, r1) =>
      match skipSpace r1 with
      | EmptyString => ScanEOF
      | String c r2 =>
        if Ascii.eqb c "," then
          sbind (elements fuel' depth r2)
                (fun '(vs, r3) => Scanned (v :: vs, r3))
        else if Ascii.eqb c "]" then Scanned ([v], r2)
        else ScanError
      end)
  end.

(** A bound on the recursion of [value] that no input reaches: going down
    takes two steps for an array and one byte at least (see
    [value_fuel]). *)
Definition fuelFor (data : string) : nat := S (2 * String.length data).

(** [checkValid]: the whole of [data] is one JSON value between white
    space. *)
Definition checkValid (data : string) : scanres Value :=
  sbind (value (fuelFor data) 0%N data) (fun '(v, rest) =>
    match skipSpace rest with
    | EmptyString => Scanned v
    | String _ _ => ScanError
    end).

(** *** Decoding into Go values

    A decoder for a Go type [T] takes the JSON value and the current
    content of the target and gives the new content and the error it
    saved, if any ([d.saveError] keeps the first one and decoding goes
    on). *)

Definition decoder (T : Type) : Type := Value -> T -> T * option error.

Definition saveError (saved e : option error) : option error :=
  match saved with
  | Some _ => saved
  | None => e
  end.

(** [foldRune]: the smallest rune of the [unicode.SimpleFold] orbit of
    [r], called on runes outside ASCII. Only the two orbits that reach
    ASCII are tabulated (the long s and the Kelvin sign); every other
    rune is left as it is, which like its true fold is outside ASCII, so
    that comparing folded names with the fold of an ASCII field name
    gives the same answer. *)
Definition foldRune (r : Z) : Z :=
  if r =? 0x17F then 0x53
  else if r =? 0x212A then 0x4B
  else r.

(** [appendFoldedName], from index [i] on [in[i:]]. *)
Fixpoint foldName_loop (fuel : nat) (s : string) : string :=
  match fuel with
  | O => EmptyString
  | S fuel' =>
    match s with
    | EmptyString => EmptyString
    | String c r =>
      if b2z c <? utf8.RuneSelf then
        String (if (0x61 <=? b2z c) && (b2z c <=? 0x7A)
                then z2b (b2z c - (0x61 - 0x41)) else c)
               (foldName_loop fuel' r)
      else
        let '(rr, n) := utf8.DecodeRuneInString s in
        utf8.EncodeRune (foldRune rr) ++ foldName_loop fuel' (drop_s n s)
    end
  end.

Definition foldName (s : string) : string :=
  foldName_loop (String.length s) s.

(** A field of a struct type [S] as the decoder sees it: its JSON name
    and the decoding of a value into that field of the struct. *)
Record field (S : Type) : Type := Field {
  name : string;
  store : decoder S
}.
Arguments Field {S} name store.
Arguments name {S} f.
Arguments store {S} f.

(** The field for a key: the one with exactly that name, else the first
    one whose name equals the key up to case folding. *)
Definition lookupField {S} (fields : list (field S)) (key : string)
  : option (field S) :=
  match List.find (fun f => String.eqb (name f) key) fields with
  | Some f => Some f
  | None =>
    List.find (fun f => String.eqb (foldName (name f)) (foldName key)) fields
  end.

(** [d.object] on a struct: the members in order; a key without a field
    is skipped. *)
Fixpoint objectInto {S} (fields : list (field S))
    (kvs : list (string * Value)) (v : S) (saved : option error)
  : S * option error :=
  match kvs with
  | [] => (v, saved)
  | (key, jv) :: rest =>
    match lookupField fields key with
    | Some f =>
      let '(v', e) := store f jv v in
      objectInto fields rest v' (saveError saved e)
    | None => objectInto fields rest v saved
    end
  end.

(** [d.value] on a target of a struct type named [type_]. *)
Definition storeStruct {S} (type_ : string) (fields : list (field S))
  : decoder S :=
  fun jv v =>
    match jv with
    | Object kvs => objectInto fields kvs v None
    | Array _ => (v, Some (UnmarshalTypeError "array" type_))
    | Null => (v, None)
    | Bool _ => (v, Some (UnmarshalTypeError "bool" type_))
    | Str _ => (v, Some (UnmarshalTypeError "string" type_))
    | Number _ => (v, Some (UnmarshalTypeError "number" type_))
    end.

(** [d.value] on a target of type [string]. *)
Definition storeString : decoder string :=
  fun jv v =>
    match jv with
    | Str s => (s, None)
    | Null => (v, None)
    | Bool _ => (v, Some (UnmarshalTypeError "bool" "string"))
    | Number _ => (v, Some (UnmarshalTypeError "number" "string"))
    | Array _ => (v, Some (UnmarshalTypeError "array" "string"))
    | Object _ => (v, Some (UnmarshalTypeError "object" "string"))
    end.

(** A Go slice: the cells of its backing array that were ever in use and
    its length. Cells of the capacity never used are zero, so they are
    not kept. [nil] and the empty slice both have no cell. *)
Record slice (A : Type) : Type := Slice {
  array : list A;
  len : nat
}.
Arguments Slice {A} array len.
Arguments array {A} s.
Arguments len {A} s.

Definition nilSlice {A} : slice A := Slice [] 0.

(** The elements of the slice, [v[0], ..., v[len-1]]. *)
Definition elems {A} (v : slice A) : list A := take (len v) (array v).

(** The loop of [d.array] on a slice, at element [i]. *)
Fixpoint arrayLoop {A} (zero : A) (storeElem : decoder A)
    (vals : list Value) (i : nat) (v : slice A) (saved : option error)
  : slice A * option error :=
  match vals with
  | [] => (v, saved)
  | jv :: rest =>
    (* if i >= v.Cap() { v.Grow(1) } *)
    let arr := if (List.length (array v) <=? i)%nat then (array v ++ [zero])%list else array v in
    (* if i >= v.Len() { v.SetLen(i + 1) } *)
    let n := if (len v <=? i)%nat then S i else len v in
    let '(x, e) := storeElem jv (nth i arr zero) in
    arrayLoop zero storeElem rest (S i) (Slice (<[i := x]> arr) n) (saveError saved e)
  end.

(** [d.value] on a target of a slice type named [type_] whose elements
    are not bytes. *)
Definition storeSlice {A} (type_ : string) (zero : A) (storeElem : decoder A)
  : decoder (slice A) :=
  fun jv v =>
    match jv with
    | Array vals =>
      let '(v1, e) := arrayLoop zero storeElem vals 0 v None in
      let i := List.length vals in
      (* if i < v.Len() { v.SetLen(i) } *)
      let v2 := if (i <? len v1)%nat then Slice (array v1) i else v1 in
      (* if i == 0 { v.Set(reflect.MakeSlice(v.Type(), 0, 0)) } *)
      if (i =? 0)%nat then (Slice [] 0, e) else (v2, e)
    | Null => (nilSlice, None)
    | Bool _ => (v, Some (UnmarshalTypeError "bool" type_))
    | Number _ => (v, Some (UnmarshalTypeError "number" type_))
    | Str _ => (v, Some (UnmarshalTypeError "string" type_))
    | Object _ => (v, Some (UnmarshalTypeError "object" type_))
    end.

(** [json.Unmarshal(data, &v)] *)
Definition Unmarshal {T} (dec : decoder T) (data : string) (v : T)
  : T * option error :=
  match checkValid data with
  | Scanned jv => dec jv v
  | _ => (v, Some SyntaxError)
  end.

Definition nonSpace (b : string) : bool :=
  match skipSpace b with
  | EmptyString => false
  | String _ _ => true
  end.

(** Arrays and objects end at their closing byte; the end of any other
    value shows at the byte after it or at the end of the input. *)
Definition endsItself (jv : Value) : bool :=
  match jv with
  | Array _ | Object _ => true
  | _ => false
  end.

(** [json.NewDecoder(r).Decode(&v)] on a reader that delivers [data]
    and then fails with [readErr], or ends if there is none: the first
    value of the stream is decoded, what follows it is left unread. *)
Definition Decode {T} (dec : decoder T) (data : string)
    (readErr : option error) (v : T) : T * option error :=
  match value (fuelFor data) 0%N data with
  | Scanned (jv, rest) =>
    match rest, readErr with
    | EmptyString, Some e => if endsItself jv then dec jv v else (v, Some e)
    | _, _ => dec jv v
    end
  | ScanEOF =>
    match readErr with
    | Some e => (v, Some e)
    | None => (v, Some (if nonSpace data then io_ErrUnexpectedEOF else io_EOF))
    end
  | ScanError | ScanFuel => (v, Some SyntaxError)
  end.

(** *** Encoding of structs: [{"name":value,...}], fields in the order of
    their declaration. *)
Fixpoint encodeFields (fs : list (string * string)) : string :=
  match fs with
  | [] => EmptyString
  | [(n, enc)] => quoted n ++ ":" ++ enc
  | (n, enc) :: rest => quoted n ++ ":" ++ enc ++ "," ++ encodeFields rest
  end.

Definition encodeStruct (fs : list (string * string)) : string :=
  "{" ++ encodeFields fs ++ "}".

End json.

(** ** ozzo-validation, on string values *)

Module validation.

(** The two rules in use. A [LengthRule] holds the bounds and the message
    that its constructor built from them. *)
Inductive Rule : Type :=
| Required
| LengthRule (min max : Z) (message : string).

(** [validation.Length(1, 255)] *)
Definition Length_1_255 : Rule :=
  LengthRule 1 255 "the length must be between 1 and 255".

(** [IsEmpty] of a string: [len(value) == 0] *)
Definition IsEmpty (value : string) : bool :=
  (String.length value =? 0)%nat.

(** [rule.Validate(value)]. The length rule counts bytes ([len]); it
    accepts the empty value, which is [Required]'s to refuse. *)
Definition validateRule (rule : Rule) (value : string) : option error :=
  match rule with
  | Required =>
    if IsEmpty value then Some (errors_New "cannot be blank") else None
  | LengthRule min max message =>
    if IsEmpty value then None
    else
      let l := Z.of_nat (String.length value) in
      if ((0 <? min) && (l <? min)) || ((0 <? max) && (max <? l))
      then Some (errors_New message)
      else None
  end.

(** [validation.Validate(value, rules...)]: the error of the first rule
    that fails. *)
Fixpoint Validate (value : string) (rules : list Rule) : option error :=
  match rules with
  | [] => None
  | rule :: rest =>
    match validateRule rule value with
    | Some err => Some err
    | None => Validate value rest
    end
  end.

End validation.

(** ** net/http and net/url *)

Module http.

Definition StatusOK : Z := 200.
Definition StatusCreated : Z := 201.
Definition MethodGet : string := "GET".

(** [validHeaderFieldByte]: the bytes of an HTTP token. *)
Definition validHeaderFieldByte (c : ascii) : bool :=
  let b := b2z c in
  ((0x30 <=? b) && (b <=? 0x39)) || ((0x61 <=? b) && (b <=? 0x7A))
  || ((0x41 <=? b) && (b <=? 0x5A))
  || existsb (Ascii.eqb c)
       ["!"; "#"; "$"; "%"; "&"; "'"; "*"; "+"; "-"; "."; "^"; "_"; "`"; "|"; "~"]%char.

Definition isLower (c : ascii) : bool := (0x61 <=? b2z c) && (b2z c <=? 0x7A).
Definition isUpper (c : ascii) : bool := (0x41 <=? b2z c) && (b2z c <=? 0x5A).
Definition toLower : Z := 0x61 - 0x41.

(** The second loop of [canonicalMIMEHeaderKey]: upper case for the first
    letter and after each dash, lower case elsewhere. *)
Fixpoint canonicalize (upper : bool) (a : string) : string :=
  match a with
  | EmptyString => EmptyString
  | String c r =>
    let c' := if upper && isLower c then z2b (b2z c - toLower)
              else if negb upper && isUpper c then z2b (b2z c + toLower)
              else c in
    String c' (canonicalize (Ascii.eqb c' "-") r)
  end.

(** The first loop of [canonicalMIMEHeaderKey]: [None] when a byte is
    neither a token byte nor a space, else whether a space was seen. *)
Fixpoint looksLikeKey (noCanon : bool) (a : string) : option bool :=
  match a with
  | EmptyString => Some noCanon
  | String c r =>
    if validHeaderFieldByte c then looksLikeKey noCanon r
    else if Ascii.eqb c " " then looksLikeKey true r
    else None
  end.

Definition canonicalMIMEHeaderKey (a : string) : string :=
  match looksLikeKey false a with
  | None => a
  | Some true => a
  | Some false => canonicalize true a
  end.

(** The quick check of [CanonicalMIMEHeaderKey] on [s[i:]]: [true] when
    the loop returns [s] as it is, [false] when it finds a letter in the
    wrong case and calls [canonicalMIMEHeaderKey]. *)
Fixpoint alreadyCanonical (upper : bool) (s : string) : bool :=
  match s with
  | EmptyString => true
  | String c r =>
    if negb (validHeaderFieldByte c) then true
    else if upper && isLower c then false
    else if negb upper && isUpper c then false
    else alreadyCanonical (Ascii.eqb c "-") r
  end.

Definition CanonicalMIMEHeaderKey (s : string) : string :=
  if alreadyCanonical true s then s else canonicalMIMEHeaderKey s.

(** [http.Header], a [map[string][]string] *)
Abbreviation Header := (gmap string (list string)).

(** [h.Set(key, value)] *)
Definition Header_Set (key value : string) (h : Header) : Header :=
  <[CanonicalMIMEHeaderKey key := [value]]> h.

(** [h.Get(key)] *)
Definition Header_Get (key : string) (h : Header) : string :=
  match h !! CanonicalMIMEHeaderKey key with
  | Some (v :: _) => v
  | _ => EmptyString
  end.

Record Request : Type := mkRequest {
  Method : string;
  URL : string;
  Hdr : Header;
  Body : option string
}.

(** [req.Header.Set(key, value)] *)
Definition Set_Header (key value : string) (req : Request) : Request :=
  mkRequest (Method req) (URL req) (Header_Set key value (Hdr req)) (Body req).

(** A response as the client reads it: the status code, the bytes that
    the body delivers, and the error that ends the body if it does not
    end at EOF. *)
Record Response : Type := mkResponse {
  StatusCode : Z;
  RespBody : string;
  RespBodyErr : option error
}.

(** [io.ReadAll(resp.Body)] *)
Definition ReadAll (resp : Response) : result error string :=
  match RespBodyErr resp with
  | Some err => Err err
  | None => Ok (RespBody resp)
  end.

(** [validMethod]: a non-empty token. *)
Definition validMethod (method : string) : bool :=
  negb (String.eqb method EmptyString)
  && forallb validHeaderFieldByte (list_ascii_of_string method).

(** [stringContainsCTLByte] of net/url *)
Definition stringContainsCTLByte (s : string) : bool :=
  existsb (fun c => (b2z c <? 0x20) || (b2z c =? 0x7F)) (list_ascii_of_string s).

(** [strings.Cut(s, "#")], its first result *)
Fixpoint beforeHash (s : string) : string :=
  match s with
  | EmptyString => EmptyString
  | String c r => if Ascii.eqb c "#" then EmptyString else String c (beforeHash r)
  end.

(** *** The environment of the client

    [url_parse_rest] stands for the checks of [url.Parse] that come after
    its first one (the scheme, the escapes, the host and the port), which
    are not interpreted here. [World] is the state of everything behind
    the client's [*http.Client] (connections and server) and [RoundTrip]
    is what [HttpClient.Do] gets for one request: a response or an error,
    and the state after it. *)

Class Environment : Type := {
  url_parse_rest : string -> bool;
  World : Type;
  RoundTrip : Request -> World -> result error Response * World
}.

(** [url.Parse(rawURL)], as far as it succeeds or not: the part before the
    fragment must have no control byte. *)
Definition url_Parse `{Environment} (rawURL : string) : bool :=
  let u := beforeHash rawURL in
  if stringContainsCTLByte u then false else url_parse_rest rawURL.

(** [http.NewRequest(method, url, body)]; the empty method means GET. *)
Definition NewRequest `{Environment} (method url : string) (body : option string)
  : result error Request :=
  let method := if String.eqb method EmptyString then "GET" else method in
  if negb (validMethod method) then Err (http_invalidMethod method)
  else if negb (url_Parse url) then Err (url_Error "parse" url)
  else Ok (mkRequest method url ∅ body).

(** The state that a call of the client runs in: the world and the
    requests handed to [HttpClient.Do] so far, oldest first. *)
Record State `{Environment} : Type := mkState {
  world : World;
  sent : list Request
}.

(** Computations of the client: functions of the state. *)
Definition M `{Environment} (A : Type) : Type := State -> A * State.

Definition ret `{Environment} {A} (a : A) : M A := fun st => (a, st).

Definition bind `{Environment} {A B} (m : M A) (k : A -> M B) : M B :=
  fun st => let '(a, st') := m st in k a st'.

(** [c.Do(req)] *)
Definition Do `{Environment} (req : Request) : M (result error Response) :=
  fun st =>
    let '(r, w) := RoundTrip req (world st) in
    (r, mkState _ w (sent st ++ [req])%list).

(** [c.Get(url)] *)
Definition Get `{Environment} (url : string) : M (result error Response) :=
  match NewRequest "GET" url None with
  | Err err => ret (Err err)
  | Ok req => Do req
  end.

(** [c.Post(url, contentType, body)] *)
Definition Post `{Environment} (url contentType body : string)
  : M (result error Response) :=
  match NewRequest "POST" url (Some body) with
  | Err err => ret (Err err)
  | Ok req => Do (Set_Header "Content-Type" contentType req)
  end.

End http.

Notation "'let*' x ':=' m 'in' k" := (http.bind m (fun x => k))
  (at level 10, x name, m at level 100, k at level 200).

(** *** Types of the wire protocol *)

Record Message : Type := mkMessage { Data : string }.
Record PullResponse : Type := mkPullResponse { Message_ : Message }.
Record ListTopicsResponse : Type := mkListTopicsResponse { Topics : json.slice string }.
Record GetMessagesResponse : Type := mkGetMessagesResponse { Messages : json.slice Message }.
Record Topic : Type := mkTopic { Name : string; Type_ : string }.
Record Subscription : Type := mkSubscription { SubName : string; SubType : string }.

(** The client; its [HttpClient] is the [Environment]. *)
Record Client : Type := mkClient { BaseURL : string }.

(** [NewClient(baseURL, httpClient...)] of the first file and
    [New(baseURL)] of the second: the client for a base URL. The HTTP client
    they store, the one given or one with a timeout of 10 seconds, is the
    [Environment]. *)
Definition NewClient (baseURL : string) : Client := mkClient baseURL.

(** Zero values *)
Definition zeroMessage : Message := mkMessage EmptyString.
Definition zeroPullResponse : PullResponse := mkPullResponse zeroMessage.
Definition zeroListTopicsResponse : ListTopicsResponse := mkListTopicsResponse json.nilSlice.
Definition zeroGetMessagesResponse : GetMessagesResponse := mkGetMessagesResponse json.nilSlice.

(** *** The JSON form of the types (their struct tags) *)

Definition decodeMessage : json.decoder Message :=
  json.storeStruct "pubsubclient.Message"
    [json.Field "data" (fun jv m =>
       let '(s, e) := json.storeString jv (Data m) in (mkMessage s, e))].

Definition decodePullResponse : json.decoder PullResponse :=
  json.storeStruct "pubsubclient.PullResponse"
    [json.Field "message" (fun jv p =>
       let '(m, e) := decodeMessage jv (Message_ p) in (mkPullResponse m, e))].

Definition decodeListTopicsResponse : json.decoder ListTopicsResponse :=
  json.storeStruct "pubsubclient.ListTopicsResponse"
    [json.Field "topics" (fun jv l =>
       let '(t, e) := json.storeSlice "[]string" EmptyString json.storeString jv (Topics l)
       in (mkListTopicsResponse t, e))].

Definition decodeGetMessagesResponse : json.decoder GetMessagesResponse :=
  json.storeStruct "pubsubclient.GetMessagesResponse"
    [json.Field "messages" (fun jv g =>
       let '(ms, e) := json.storeSlice "[]pubsubclient.Message" zeroMessage decodeMessage jv (Messages g)
       in (mkGetMessagesResponse ms, e))].

(** [json.Marshal] of the three types that are sent. Strings always encode,
    so the error result is never used. *)
Definition Marshal_Topic (topic : Topic) : result error string :=
  Ok (json.encodeStruct [("name", json.appendString (Name topic));
                         ("type", json.appendString (Type_ topic))]).

Definition Marshal_Subscription (subscription : Subscription) : result error string :=
  Ok (json.encodeStruct [("name", json.appendString (SubName subscription));
                         ("type", json.appendString (SubType subscription))]).

Definition Marshal_Message (message : Message) : result error string :=
  Ok (json.encodeStruct [("data", json.appendString (Data message))]).

(** ** The client ([client.go])

    The two files of the package declare the same operations; they differ
    in the name of the constructor and of the field that holds the HTTP
    client, and in [PublishMessage], which takes headers in the first file
    ([PublishMessage]) and none in the second ([PublishMessage_plain]). *)

Section Client.

Context `{http.Environment}.

Definition CreateTopic (cli : Client) (topic : Topic) : http.M (option error) :=
  match Marshal_Topic topic with
  | Err err => http.ret (Some err)
  | Ok topicJson =>
    let* resp := http.Post (BaseURL cli ++ "/topics") "application/json" topicJson in
    match resp with
    | Err err => http.ret (Some err)
    | Ok resp =>
      if negb (http.StatusCode resp =? http.StatusCreated) then
        http.ret (Some (Errorf_d "error creating topic: expected status code 201, got "
                                 (http.StatusCode resp)))
      else http.ret None
    end
  end.

Definition CreateSubscription (cli : Client) (topicName : string)
    (subscription : Subscription) : http.M (option error) :=
  match Marshal_Subscription subscription with
  | Err err => http.ret (Some err)
  | Ok subscriptionJson =>
    let* resp := http.Post (BaseURL cli ++ "/topics/" ++ topicName ++ "/subscriptions")
                           "application/json" subscriptionJson in
    match resp with
    | Err err => http.ret (Some err)
    | Ok resp =>
      if negb (http.StatusCode resp =? http.StatusCreated) then
        http.ret (Some (Errorf_d "error creating subscription: expected status code 201, got "
                                 (http.StatusCode resp)))
      else http.ret None
    end
  end.

(** [for key, value := range headers { req.Header.Set(key, value) }].
    [headers] lists the entries of the Go map in the order in which this
    run of the loop visits them: each key once, in an order that Go leaves
    open. *)
Definition setHeaders (headers : list (string * string)) (req : http.Request)
  : http.Request :=
  fold_left (fun req '(key, value) => http.Set_Header key value req) headers req.

Definition PublishMessage (cli : Client) (topicName : string) (message : Message)
    (headers : list (string * string)) : http.M (option error) :=
  match Marshal_Message message with
  | Err err => http.ret (Some err)
  | Ok messageJson =>
    match http.NewRequest "POST" (BaseURL cli ++ "/topics/" ++ topicName ++ "/publish")
                          (Some messageJson) with
    | Err err => http.ret (Some err)
    | Ok req =>
      let req := setHeaders headers req in
      let* resp := http.Do req in
      match resp with
      | Err err => http.ret (Some err)
      | Ok resp =>
        if negb (http.StatusCode resp =? http.StatusCreated) then
          http.ret (Some (Errorf_d "error publishing message: expected status code 201, got "
                                   (http.StatusCode resp)))
        else http.ret None
      end
    end
  end.

Definition PublishMessage_plain (cli : Client) (topicName : string)
    (message : Message) : http.M (option error) :=
  match Marshal_Message message with
  | Err err => http.ret (Some err)
  | Ok messageJson =>
    let* resp := http.Post (BaseURL cli ++ "/topics/" ++ topicName ++ "/publish")
                           "application/json" messageJson in
    match resp with
    | Err err => http.ret (Some err)
    | Ok resp =>
      if negb (http.StatusCode resp =? http.StatusCreated) then
        http.ret (Some (Errorf_d "error publishing message: expected status code 201, got "
                                 (http.StatusCode resp)))
      else http.ret None
    end
  end.

Definition PullMessage (cli : Client) (subscriptionName : string)
  : http.M (result error Message) :=
  let* resp := http.Get (BaseURL cli ++ "/subscriptions/" ++ subscriptionName ++ "/pull") in
  match resp with
  | Err err => http.ret (Err err)
  | Ok resp =>
    match http.ReadAll resp with
    | Err err => http.ret (Err err)
    | Ok body =>
      let '(pullResponse, err) := json.Unmarshal decodePullResponse body zeroPullResponse in
      match err with
      | Some err => http.ret (Err err)
      | None => http.ret (Ok (Message_ pullResponse))
      end
    end
  end.

Definition ListTopics (cli : Client) : http.M (result error (json.slice string)) :=
  let* resp := http.Get (BaseURL cli ++ "/topics") in
  match resp with
  | Err err => http.ret (Err err)
  | Ok resp =>
    match http.ReadAll resp with
    | Err err => http.ret (Err err)
    | Ok body =>
      if negb (http.StatusCode resp =? http.StatusOK) then
        http.ret (Err (Errorf_d "failed to list topics, status code: " (http.StatusCode resp)))
      else
        let '(listTopicsResponse, err) :=
          json.Unmarshal decodeListTopicsResponse body zeroListTopicsResponse in
        match err with
        | Some err => http.ret (Err err)
        | None => http.ret (Ok (Topics listTopicsResponse))
        end
    end
  end.

Definition topicRules : list validation.Rule :=
  [validation.Required; validation.Length_1_255].

(** [for _, t := range topics { if t == topic { return true, nil } }] and
    the [return false, nil] after it. *)
Fixpoint rangeTopics (topics : list string) (topic : string) : bool :=
  match topics with
  | [] => false
  | t :: rest => if String.eqb t topic then true else rangeTopics rest topic
  end.

Definition TopicExists (cli : Client) (topic : string) : http.M (result error bool) :=
  match validation.Validate topic topicRules with
  | Some err => http.ret (Err (Errorf_v "invalid topic: " err))
  | None =>
    let* r := ListTopics cli in
    match r with
    | Err err => http.ret (Err (Errorf_v "failed to list topics: " err))
    | Ok topics => http.ret (Ok (rangeTopics (json.elems topics) topic))
    end
  end.

Definition EnsureTopicExists (cli : Client) (topic : string) : http.M (option error) :=
  match validation.Validate topic topicRules with
  | Some err => http.ret (Some (Errorf_v "invalid topic: " err))
  | None =>
    let* r := TopicExists cli topic in
    match r with
    | Err err => http.ret (Some err)
    | Ok exists_ =>
      if negb exists_ then
        let* err := CreateTopic cli (mkTopic topic EmptyString) in
        match err with
        | Some err => http.ret (Some (Errorf_v "failed to create topic: " err))
        | None => http.ret None
        end
      else http.ret None
    end
  end.

Definition GetMessages (cli : Client) (topic : string)
  : http.M (result error (json.slice Message)) :=
  match validation.Validate topic topicRules with
  | Some err => http.ret (Err (Errorf_v "invalid topic: " err))
  | None =>
    match http.NewRequest http.MethodGet
            (BaseURL cli ++ "/topics/" ++ topic ++ "/messages") None with
    | Err err => http.ret (Err (Errorf_v "failed to create request: " err))
    | Ok req =>
      let req := http.Set_Header "Content-Type" "application/json" req in
      let* resp := http.Do req in
      match resp with
      | Err err => http.ret (Err (Errorf_v "failed to send request: " err))
      | Ok resp =>
        if negb (http.StatusCode resp =? http.StatusOK) then
          http.ret (Err (Errorf_d "failed to get messages, status code: "
                                  (http.StatusCode resp)))
        else
          let '(getMessagesResponse, err) :=
            json.Decode decodeGetMessagesResponse (http.RespBody resp)
                        (http.RespBodyErr resp) zeroGetMessagesResponse in
          match err with
          | Some err => http.ret (Err (Errorf_v "failed to decode response: " err))
          | None => http.ret (Ok (Messages getMessagesResponse))
          end
      end
    end
  end.

End Client.

(** ** A scripted environment, for running the client on examples

    Every URL without a control byte parses; the world is the list of the
    answers still to come, one per request, and the connection fails once
    the list is used up. *)

Definition scripted : http.Environment := {|
  http.url_parse_rest := fun _ => true;
  http.World := list (result error http.Response);
  http.RoundTrip := fun _ w =>
    match w with
    | r :: w' => (r, w')
    | [] => (Err (TransportError "connection refused"), [])
    end
|}.

(** The state before any request, with the answers [script] to come. *)
Definition start (script : list (result error http.Response)) : @http.State scripted :=
  @http.mkState scripted script [].

(** An answer with a status code and a body that reads to its end. *)
Definition reply (code : Z) (body : string) : result error http.Response :=
  Ok (http.mkResponse code body None).

Definition localhost : Client := mkClient "http://localhost:8080".

(** ** Requests that the operations build *)

(** The request of ListTopics. *)
Definition listRequest (cli : Client) : http.Request :=
  http.mkRequest "GET" (BaseURL cli ++ "/topics") ∅ None.

(** The request of CreateTopic for a topic whose JSON is [body]. *)
Definition createRequest (cli : Client) (body : string) : http.Request :=
  http.Set_Header "Content-Type" "application/json"
    (http.mkRequest "POST" (BaseURL cli ++ "/topics") ∅ (Some body)).

(** The request of GetMessages for [topic]. *)
Definition messagesRequest (cli : Client) (topic : string) : http.Request :=
  http.Set_Header "Content-Type" "application/json"
    (http.mkRequest "GET" (BaseURL cli ++ "/topics/" ++ topic ++ "/messages") ∅ None).

(** The request of PullMessage for a subscription. *)
Definition pullURL (cli : Client) (subscriptionName : string) : string :=
  BaseURL cli ++ "/subscriptions/" ++ subscriptionName ++ "/pull".

(** The URL and the first form of the request of PublishMessage. *)
Definition publishURL (cli : Client) (topicName : string) : string :=
  BaseURL cli ++ "/topics/" ++ topicName ++ "/publish".

(** The request of PublishMessage: the POST with the JSON of the message,
    after the loop over the headers. *)
Definition publishRequest (cli : Client) (topicName : string) (message : Message)
    (headers : list (string * string)) : http.Request :=
  setHeaders headers
    (http.mkRequest "POST" (publishURL cli topicName) ∅
       (Some (json.encodeStruct [("data", json.appendString (Data message))]))).

(** ** Bodies used in the examples *)

(** {"topics":["a","b"]} *)
Definition topicsBody_ab : string :=
  "{" ++ quoted "topics" ++ ":[" ++ quoted "a" ++ "," ++ quoted "b" ++ "]}".

(** {"messages":[{"data":"hi"}]} *)
Definition messagesBody_hi : string :=
  "{" ++ quoted "messages" ++ ":[{" ++ quoted "data" ++ ":" ++ quoted "hi" ++ "}]}".

(** {"MESSAGE":{"data":"x"}} *)
Definition upperCaseBody : string :=
  "{" ++ quoted "MESSAGE" ++ ":{" ++ quoted "data" ++ ":" ++ quoted "x" ++ "}}".

(** The one-byte string 0xFF, which is not UTF-8. *)
Definition byteFF : string := String (z2b 0xFF) EmptyString.

(** The one-byte string of a line feed. *)
Definition lineFeed : string := String "010"%char EmptyString.

(** ** Bodies that a Go server writes with the same types *)

(** The elements of a JSON array with the commas between them. *)
Fixpoint joinComma (items : list string) : string :=
  match items with
  | [] => EmptyString
  | [item] => item
  | item :: rest => item ++ "," ++ joinComma rest
  end.

(** The text that [json.Marshal] writes for a [Message]. *)
Definition messageJson (message : Message) : string :=
  json.encodeStruct [("data", json.appendString (Data message))].

(** The text that [json.Marshal] writes for a [ListTopicsResponse] whose
    slice is not nil and holds [topics]. *)
Definition topicsBody (topics : list string) : string :=
  "{" ++ quoted "topics" ++ ":[" ++ joinComma (map json.appendString topics) ++ "]}".

(** The text that [json.Marshal] writes for a [GetMessagesResponse] whose
    slice is not nil and holds [messages]. *)
Definition messagesBody (messages : list Message) : string :=
  "{" ++ quoted "messages" ++ ":[" ++ joinComma (map messageJson messages) ++ "]}".

(** The text that [json.Marshal] writes for a [PullResponse]. *)
Definition pullBody (message : Message) : string :=
  "{" ++ quoted "message" ++ ":" ++ messageJson message ++ "}".

(** ** More requests and bodies of the operations *)

(** The request of CreateSubscription for a subscription whose JSON is
    [body]. *)
Definition subscriptionRequest (cli : Client) (topicName body : string) : http.Request :=
  http.Set_Header "Content-Type" "application/json"
    (http.mkRequest "POST" (BaseURL cli ++ "/topics/" ++ topicName ++ "/subscriptions") ∅
       (Some body)).

(** The request of PublishMessage in the second file, which goes through
    [Post]. *)
Definition publishRequest_plain (cli : Client) (topicName : string) (message : Message)
  : http.Request :=
  http.Set_Header "Content-Type" "application/json"
    (http.mkRequest "POST" (publishURL cli topicName) ∅ (Some (messageJson message))).

(** The request of PullMessage for a subscription. *)
Definition pullRequest (cli : Client) (subscriptionName : string) : http.Request :=
  http.mkRequest "GET" (pullURL cli subscriptionName) ∅ None.

(** The text that [json.Marshal] writes for a [Topic] or a [Subscription]
    with the fields [name] and [type_]. *)
Definition nameTypeJson (name type_ : string) : string :=
  json.encodeStruct [("name", json.appendString name); ("type", json.appendString type_)].

(** ** Notions used in the proofs *)

(** The errors that [json.Unmarshal] can give. *)
Definition decodeError (e : error) : Prop :=
  e = SyntaxError \/ exists value type_, e = UnmarshalTypeError value type_.

Definition decodeErrors {T} (dec : json.decoder T) : Prop :=
  forall jv v e, snd (dec jv v) = Some e -> decodeError e.

(** [p] is text of a string literal that leaves the scanner where it
    was: inside the string, between two characters. *)
Definition scans (p : string) : Prop :=
  forall x lit rest,
    json.scanString json.stateInString x = json.Scanned (lit, rest) ->
    json.scanString json.stateInString (p ++ x) = json.Scanned (p ++ lit, rest).

(** [p] is text that one turn of the loop of [unquoteBytes] takes, giving
    the bytes [d]. *)
Definition unquotes (p d : string) : Prop :=
  (1 <= String.length p)%nat /\
  forall f x, json.unquote_loop (S f) (p ++ x) = json.app_s d (json.unquote_loop f x).

(** The scan [m] did not stop for want of fuel, and what it leaves of the
    input has at most [n] bytes. *)
Definition within {A} (len : A -> nat) (n : nat) (m : json.scanres A) : Prop :=
  m <> json.ScanFuel /\ forall a, m = json.Scanned a -> (len a <= n)%nat.

(** * Properties *)

(** ** Running the model on examples *)

Example DecodeRune_e_acute :
  utf8.DecodeRuneInString (String (z2b 0xC3) (String (z2b 0xA9) "x")) = (0xE9, 2%nat).
Proof. reflexivity. Qed.

Example DecodeRune_stray_byte :
  utf8.DecodeRuneInString (String (z2b 0xFF) "x") = (utf8.RuneError, 1%nat).
Proof. reflexivity. Qed.

Example appendString_html : json.appendString "a<b" = quoted (String "a" (String backslash "u003cb")).
Proof. reflexivity. Qed.

Example Marshal_Topic_example :
  Marshal_Topic (mkTopic "t" "") =
  Ok ("{" ++ quoted "name" ++ ":" ++ quoted "t" ++ "," ++ quoted "type" ++ ":" ++ quoted "" ++ "}").
Proof. reflexivity. Qed.

Example checkValid_trailing_comma :
  json.checkValid ("{" ++ quoted "a" ++ ":1,}") = json.ScanError.
Proof. reflexivity. Qed.

Example itoa_404 : itoa 404 = "404".
Proof. reflexivity. Qed.

Example Validate_256 :
  validation.Validate (string_of_list_ascii (repeat "a"%char 256)) topicRules
  = Some (errors_New "the length must be between 1 and 255").
Proof. reflexivity. Qed.

Example Canonical_content_type :
  http.CanonicalMIMEHeaderKey "content-type" = "Content-Type".
Proof. reflexivity. Qed.

(** ** Strings *)

#[local] Arguments String.append !s1 s2 : simpl nomatch.

Lemma append_assoc (a b c : string) : (a ++ b) ++ c = a ++ (b ++ c).
Proof. induction a as [|x a' IH]; simpl; [reflexivity | now rewrite IH]. Qed.

Lemma append_nil_r (a : string) : a ++ "" = a.
Proof. induction a as [|x a' IH]; simpl; [reflexivity | now rewrite IH]. Qed.

Lemma length_append (a b : string) :
  String.length (a ++ b) = (String.length a + String.length b)%nat.
Proof. induction a as [|x a' IH]; simpl; [reflexivity | now rewrite IH]. Qed.

(** ** Validation of topic names *)

Lemma Validate_topic_ok (topic : string) :
  (1 <= String.length topic <= 255)%nat ->
  validation.Validate topic topicRules = None.
Proof.
  intros [Hlo Hhi]. unfold topicRules, validation.Length_1_255, validation.Validate,
    validation.validateRule, validation.IsEmpty.
  destruct (Nat.eqb_spec (String.length topic) 0) as [E|_]; [lia|].
  replace (Z.of_nat (String.length topic) <? 1) with false by (symmetry; apply Z.ltb_ge; lia).
  replace (255 <? Z.of_nat (String.length topic)) with false by (symmetry; apply Z.ltb_ge; lia).
  reflexivity.
Qed.

Lemma Validate_topic_bad (topic : string) :
  String.length topic = 0%nat \/ (255 < String.length topic)%nat ->
  exists msg,
    validation.Validate topic topicRules = Some (errors_New msg) /\
    (msg = "cannot be blank" \/ msg = "the length must be between 1 and 255").
Proof.
  intros [H0|Hbig]; unfold topicRules, validation.Length_1_255, validation.Validate,
    validation.validateRule, validation.IsEmpty.
  - rewrite H0. simpl. eauto.
  - destruct (Nat.eqb_spec (String.length topic) 0) as [E|_]; [lia|].
    replace (255 <? Z.of_nat (String.length topic)) with true by (symmetry; apply Z.ltb_lt; lia).
    rewrite orb_true_r. eauto.
Qed.

(** ** CreateTopic *)

(** C1. CreateTopic hands the JSON of the topic to the HTTP client's Post
    and reports what comes back: an error of the Post is returned as it
    is; on a response, the result is nil exactly when the status code is
    201, and for any other code it is the error whose text is "error
    creating topic: expected status code 201, got " followed by the
    decimal form of the code. Encoding the topic never fails. *)
Theorem CreateTopic_success_iff_201 `{http.Environment}
    (cli : Client) (topic : Topic) (st : http.State) :
  exists topicJson, Marshal_Topic topic = Ok topicJson /\
  let '(r, st') := http.Post (BaseURL cli ++ "/topics") "application/json" topicJson st in
  snd (CreateTopic cli topic st) = st' /\
  match r with
  | Err err => fst (CreateTopic cli topic st) = Some err
  | Ok resp =>
    (fst (CreateTopic cli topic st) = None <-> http.StatusCode resp = 201) /\
    (http.StatusCode resp <> 201 ->
     exists err, fst (CreateTopic cli topic st) = Some err /\
       Error_ err = Some ("error creating topic: expected status code 201, got "
                          ++ itoa (http.StatusCode resp)))
  end.
Proof.
  eexists; split; [reflexivity|].
  unfold CreateTopic, Marshal_Topic, http.bind, http.ret.
  destruct (http.Post _ _ _ st) as [[resp|err] st']; simpl; [|auto].
  unfold http.StatusCreated.
  destruct (Z.eqb_spec (http.StatusCode resp) 201) as [E|NE]; simpl.
  - repeat split; auto. intros; contradiction.
  - repeat split; auto; try discriminate; try contradiction.
    intros _. eexists; split; reflexivity.
Qed.

(** ** TopicExists and EnsureTopicExists: validation comes first *)

(** C2. For a topic name of length 0 or of length above 255, TopicExists
    and EnsureTopicExists return the error "invalid topic: ..." that wraps
    the validation error ("cannot be blank" or "the length must be between
    1 and 255"), and the state is the one they started in: no request was
    handed to the HTTP client and the world was not touched. *)
Theorem invalid_topic_no_request `{http.Environment}
    (cli : Client) (topic : string) (st : http.State) :
  String.length topic = 0%nat \/ (255 < String.length topic)%nat ->
  exists msg,
    (msg = "cannot be blank" \/ msg = "the length must be between 1 and 255") /\
    TopicExists cli topic st = (Err (Errorf_v "invalid topic: " (errors_New msg)), st) /\
    EnsureTopicExists cli topic st = (Some (Errorf_v "invalid topic: " (errors_New msg)), st).
Proof.
  intros Hlen. destruct (Validate_topic_bad topic Hlen) as (msg & Hv & Hmsg).
  exists msg. unfold TopicExists, EnsureTopicExists. rewrite Hv. auto.
Qed.

Lemma invalid_topic_no_request_witness :
  (String.length "" = 0%nat \/ (255 < String.length "")%nat) /\
  exists msg,
    (msg = "cannot be blank" \/ msg = "the length must be between 1 and 255") /\
    @TopicExists scripted localhost "" (start [reply 200 "{}"])
      = (Err (Errorf_v "invalid topic: " (errors_New msg)), start [reply 200 "{}"]) /\
    @EnsureTopicExists scripted localhost "" (start [reply 200 "{}"])
      = (Some (Errorf_v "invalid topic: " (errors_New msg)), start [reply 200 "{}"]).
Proof.
  split; [left; reflexivity|].
  apply (@invalid_topic_no_request scripted localhost "" (start [reply 200 "{}"])).
  left; reflexivity.
Defined.

(** ** Requests and the log of what was sent *)

Lemma NewRequest_Ok `{http.Environment} (method url : string) (body : option string)
    (req : http.Request) :
  method <> EmptyString ->
  http.NewRequest method url body = Ok req ->
  req = http.mkRequest method url ∅ body /\ http.url_Parse url = true.
Proof.
  intros Hmethod. unfold http.NewRequest.
  destruct (String.eqb_spec method EmptyString) as [E|_]; [contradiction|].
  destruct (http.validMethod method); simpl; [|discriminate].
  destruct (http.url_Parse url); simpl; [|discriminate].
  intros [= <-]. auto.
Qed.

Lemma NewRequest_parse `{http.Environment} (method url : string) (body : option string) :
  http.validMethod method = true -> http.url_Parse url = true ->
  http.NewRequest method url body = Ok (http.mkRequest method url ∅ body).
Proof.
  unfold http.NewRequest. intros Hvalid Hparse.
  destruct (String.eqb_spec method EmptyString) as [->|_]; [discriminate Hvalid|].
  rewrite Hvalid, Hparse. reflexivity.
Qed.

Lemma Do_sent `{http.Environment} (req : http.Request) (st : http.State) :
  http.sent (snd (http.Do req st)) = (http.sent st ++ [req])%list.
Proof. unfold http.Do. destruct (http.RoundTrip req (http.world st)). reflexivity. Qed.

Lemma rangeTopics_In (topics : list string) (topic : string) :
  rangeTopics topics topic = true <-> In topic topics.
Proof.
  induction topics as [|t rest IH]; simpl.
  - split; [discriminate | contradiction].
  - destruct (String.eqb_spec t topic) as [E|NE].
    + split; auto.
    + rewrite IH. split; [auto | intros [E|HIn]; [contradiction | assumption]].
Qed.

(** When ListTopics returns a list, it sent its one request, and the URL
    of that request parses. *)
Lemma ListTopics_Ok `{http.Environment} (cli : Client) (st st' : http.State)
    (topics : json.slice string) :
  ListTopics cli st = (Ok topics, st') ->
  http.url_Parse (BaseURL cli ++ "/topics") = true /\
  http.sent st' = (http.sent st ++ [listRequest cli])%list.
Proof.
  unfold ListTopics, http.bind, http.Get.
  destruct (http.NewRequest "GET" _ None) as [req|err] eqn:Hreq.
  - apply NewRequest_Ok in Hreq as [-> Hparse]; [|discriminate].
    pose proof (Do_sent (http.mkRequest "GET" (BaseURL cli ++ "/topics") ∅ None) st) as Hsent.
    destruct (http.Do _ st) as [[resp|err] st1]; simpl in Hsent.
    + destruct (http.ReadAll resp) as [body|err];
        [destruct (negb _); [|destruct (json.Unmarshal _ _ _) as [l [err|]]]|];
        unfold http.ret; intros Heq; inversion Heq; subst; auto.
    + unfold http.ret. discriminate.
  - unfold http.ret. discriminate.
Qed.

(** CreateTopic sends its one request when the URL parses. *)
Lemma CreateTopic_sent `{http.Environment} (cli : Client) (topic : Topic)
    (st : http.State) (body : string) :
  http.url_Parse (BaseURL cli ++ "/topics") = true ->
  Marshal_Topic topic = Ok body ->
  http.sent (snd (CreateTopic cli topic st))
  = (http.sent st ++ [createRequest cli body])%list.
Proof.
  intros Hparse Hbody. unfold CreateTopic, http.bind, http.Post.
  rewrite Hbody, (NewRequest_parse "POST" _ _ eq_refl Hparse).
  fold (createRequest cli body).
  pose proof (Do_sent (createRequest cli body) st) as Hd.
  destruct (http.Do (createRequest cli body) st) as [[resp|err] st2]; simpl in Hd.
  - destruct (negb _); exact Hd.
  - exact Hd.
Qed.

(** ** EnsureTopicExists *)

(** C3. For a topic name t of length 1 to 255: if ListTopics, run in the
    same state, returns a list that contains t, then EnsureTopicExists(t)
    returns nil and ends in the state ListTopics ends in; the only request
    it handed to the HTTP client is the GET of {base}/topics, so no create
    request was made. *)
Theorem EnsureTopicExists_present `{http.Environment}
    (cli : Client) (t : string) (st st' : http.State) (topics : json.slice string) :
  (1 <= String.length t <= 255)%nat ->
  ListTopics cli st = (Ok topics, st') ->
  In t (json.elems topics) ->
  EnsureTopicExists cli t st = (None, st') /\
  http.sent st' = (http.sent st ++ [listRequest cli])%list.
Proof.
  intros Hlen HList HIn.
  split; [|eapply ListTopics_Ok; eauto].
  unfold EnsureTopicExists, TopicExists, http.bind.
  rewrite (Validate_topic_ok t Hlen), HList. unfold http.ret.
  apply rangeTopics_In in HIn. rewrite HIn. reflexivity.
Qed.

(** C4. For a topic name t of length 1 to 255: if ListTopics, run in the
    same state, returns a list that does not contain t, then
    EnsureTopicExists(t) hands two requests to the HTTP client, in this
    order: the GET of {base}/topics and a POST to {base}/topics whose body
    is the JSON of Topic{Name: t}, that is {"name":<t as a JSON
    string>,"type":""}, with the type field at its zero value. *)
Theorem EnsureTopicExists_absent `{http.Environment}
    (cli : Client) (t : string) (st st1 : http.State) (topics : json.slice string) :
  (1 <= String.length t <= 255)%nat ->
  ListTopics cli st = (Ok topics, st1) ->
  ~ In t (json.elems topics) ->
  exists body,
    Marshal_Topic (mkTopic t EmptyString) = Ok body /\
    body = "{" ++ quoted "name" ++ ":" ++ json.appendString t ++ ","
               ++ quoted "type" ++ ":" ++ quoted "" ++ "}" /\
    http.sent (snd (EnsureTopicExists cli t st))
    = (http.sent st ++ [listRequest cli; createRequest cli body])%list.
Proof.
  intros Hlen HList HNotIn.
  eexists; split; [reflexivity|].
  split; [unfold json.encodeStruct; simpl; now rewrite !append_assoc|].
  destruct (ListTopics_Ok cli st st1 topics HList) as [Hparse Hsent].
  unfold EnsureTopicExists, TopicExists, http.bind.
  rewrite (Validate_topic_ok t Hlen), HList. unfold http.ret.
  destruct (rangeTopics (json.elems topics) t) eqn:Hr.
  { apply rangeTopics_In in Hr. contradiction. }
  change (negb false) with true. cbv beta iota.
  assert (Hc : http.sent (snd (CreateTopic cli (mkTopic t EmptyString) st1))
               = (http.sent st1 ++ [createRequest cli (json.encodeStruct
                    [("name", json.appendString t);
                     ("type", json.appendString EmptyString)])])%list)
    by (apply CreateTopic_sent; [exact Hparse | reflexivity]).
  destruct (CreateTopic cli (mkTopic t EmptyString) st1) as [[err|] st2];
    unfold http.ret; simpl in Hc |- *; rewrite Hc, Hsent, <- app_assoc; reflexivity.
Qed.

Lemma EnsureTopicExists_present_witness :
  (1 <= String.length "a" <= 255)%nat /\
  @ListTopics scripted localhost (start [reply 200 topicsBody_ab])
    = (Ok (json.Slice ["a"; "b"] 2), @http.mkState scripted [] [listRequest localhost]) /\
  In "a" (json.elems (json.Slice ["a"; "b"] 2)) /\
  @EnsureTopicExists scripted localhost "a" (start [reply 200 topicsBody_ab])
    = (None, @http.mkState scripted [] [listRequest localhost]) /\
  [listRequest localhost] = ([] ++ [listRequest localhost])%list.
Proof.
  assert (Hlen : (1 <= String.length "a" <= 255)%nat) by (simpl; lia).
  assert (HList : @ListTopics scripted localhost (start [reply 200 topicsBody_ab])
    = (Ok (json.Slice ["a"; "b"] 2), @http.mkState scripted [] [listRequest localhost]))
    by (vm_compute; reflexivity).
  assert (HIn : In "a" (json.elems (json.Slice ["a"; "b"] 2))) by (simpl; auto).
  split; [exact Hlen|]. split; [exact HList|]. split; [exact HIn|].
  exact (@EnsureTopicExists_present scripted localhost "a" _ _ _ Hlen HList HIn).
Defined.

Lemma EnsureTopicExists_absent_witness :
  (1 <= String.length "c" <= 255)%nat /\
  @ListTopics scripted localhost (start [reply 200 topicsBody_ab; reply 201 ""])
    = (Ok (json.Slice ["a"; "b"] 2),
       @http.mkState scripted [reply 201 ""] [listRequest localhost]) /\
  ~ In "c" (json.elems (json.Slice ["a"; "b"] 2)) /\
  exists body,
    Marshal_Topic (mkTopic "c" EmptyString) = Ok body /\
    body = "{" ++ quoted "name" ++ ":" ++ json.appendString "c" ++ ","
               ++ quoted "type" ++ ":" ++ quoted "" ++ "}" /\
    http.sent (snd (@EnsureTopicExists scripted localhost "c"
                      (start [reply 200 topicsBody_ab; reply 201 ""])))
    = ([] ++ [listRequest localhost; createRequest localhost body])%list.
Proof.
  assert (Hlen : (1 <= String.length "c" <= 255)%nat) by (simpl; lia).
  assert (HList : @ListTopics scripted localhost (start [reply 200 topicsBody_ab; reply 201 ""])
    = (Ok (json.Slice ["a"; "b"] 2),
       @http.mkState scripted [reply 201 ""] [listRequest localhost]))
    by (vm_compute; reflexivity).
  assert (HNotIn : ~ In "c" (json.elems (json.Slice ["a"; "b"] 2)))
    by (simpl; intros [E|[E|[]]]; discriminate).
  split; [exact Hlen|]. split; [exact HList|]. split; [exact HNotIn|].
  exact (@EnsureTopicExists_absent scripted localhost "c" _ _ _ Hlen HList HNotIn).
Defined.

(** ** ListTopics *)

Example checkValid_topicsBody_ab :
  json.checkValid topicsBody_ab
  = json.Scanned (json.Object [("topics", json.Array [json.Str "a"; json.Str "b"])]).
Proof. reflexivity. Qed.

(** ** Errors of the JSON decoders *)

Lemma saveError_decodeError (saved e : option error) (x : error) :
  (forall y, saved = Some y -> decodeError y) ->
  (forall y, e = Some y -> decodeError y) ->
  json.saveError saved e = Some x -> decodeError x.
Proof. destruct saved as [y|]; simpl; intros Hs He Hx; [apply Hs | apply He]; auto. Qed.

Lemma objectInto_decodeErrors {S} (fields : list (json.field S)) :
  Forall (fun f => decodeErrors (json.store f)) fields ->
  forall kvs v saved e,
    (forall y, saved = Some y -> decodeError y) ->
    snd (json.objectInto fields kvs v saved) = Some e -> decodeError e.
Proof.
  intros Hfields. induction kvs as [|[key jv] rest IH]; simpl; intros v saved e Hsaved He.
  - auto.
  - destruct (json.lookupField fields key) as [f|] eqn:Hf; [|eauto].
    assert (Hdec : decodeErrors (json.store f)).
    { unfold json.lookupField in Hf.
      rewrite List.Forall_forall in Hfields. apply Hfields.
      destruct (find _ fields) as [f'|] eqn:Hfind.
      - injection Hf as <-. apply find_some in Hfind. tauto.
      - apply find_some in Hf. tauto. }
    destruct (json.store f jv v) as [v' e'] eqn:Hstore.
    eapply IH; [|exact He].
    intros y Hy. eapply saveError_decodeError; [exact Hsaved | | exact Hy].
    intros z ->. apply (Hdec jv v). rewrite Hstore. reflexivity.
Qed.

Lemma storeStruct_decodeErrors {S} (type_ : string) (fields : list (json.field S)) :
  Forall (fun f => decodeErrors (json.store f)) fields ->
  decodeErrors (json.storeStruct type_ fields).
Proof.
  intros Hfields [| b | lit | s | vals | kvs] v e; simpl; try discriminate;
    try (intros [= <-]; right; eauto).
  apply objectInto_decodeErrors; [assumption | discriminate].
Qed.

Lemma storeString_decodeErrors : decodeErrors json.storeString.
Proof.
  intros [| b | lit | s | vals | kvs] v e; simpl; try discriminate;
    intros [= <-]; right; eauto.
Qed.

Lemma decodeMessage_decodeErrors : decodeErrors decodeMessage.
Proof.
  apply storeStruct_decodeErrors. constructor; [|constructor].
  intros jv m e. simpl.
  pose proof (storeString_decodeErrors jv (Data m) e) as Hs.
  destruct (json.storeString jv (Data m)). exact Hs.
Qed.

Lemma decodePullResponse_decodeErrors : decodeErrors decodePullResponse.
Proof.
  apply storeStruct_decodeErrors. constructor; [|constructor].
  intros jv p e. simpl.
  pose proof (decodeMessage_decodeErrors jv (Message_ p) e) as Hs.
  destruct (decodeMessage jv (Message_ p)). exact Hs.
Qed.

Lemma Unmarshal_decodeError {T} (dec : json.decoder T) (data : string) (v : T) (e : error) :
  decodeErrors dec ->
  snd (json.Unmarshal dec data v) = Some e -> decodeError e.
Proof.
  intros Hdec. unfold json.Unmarshal.
  destruct (json.checkValid data) as [jv| | |]; simpl;
    try (intros [= <-]; left; reflexivity).
  apply Hdec.
Qed.

(** ** PullMessage *)

(** C5. PullMessage does not look at the status code. Whatever response
    the GET brings, (a) a response with the same body and any other status
    code gives the same result, and (b) when the body was read and does
    not decode as a PullResponse, the result is the decoder's error (a
    syntax error or a type mismatch), for every status code, also outside
    2xx; no error is built from the status code. *)
Theorem PullMessage_status_unchecked `{http.Environment}
    (cli : Client) (subscriptionName : string) (st st' : http.State)
    (resp : http.Response) :
  http.Get (pullURL cli subscriptionName) st = (Ok resp, st') ->
  (forall st2 st2' resp2,
     http.Get (pullURL cli subscriptionName) st2 = (Ok resp2, st2') ->
     http.RespBody resp2 = http.RespBody resp ->
     http.RespBodyErr resp2 = http.RespBodyErr resp ->
     fst (PullMessage cli subscriptionName st2) = fst (PullMessage cli subscriptionName st)) /\
  (forall body e,
     http.ReadAll resp = Ok body ->
     snd (json.Unmarshal decodePullResponse body zeroPullResponse) = Some e ->
     PullMessage cli subscriptionName st = (Err e, st') /\ decodeError e).
Proof.
  intros HGet. split.
  - intros st2 st2' resp2 HGet2 Hbody Herr.
    unfold PullMessage, http.bind. fold (pullURL cli subscriptionName).
    rewrite HGet, HGet2. unfold http.ReadAll. rewrite Hbody, Herr.
    destruct (http.RespBodyErr resp); [reflexivity|].
    destruct (json.Unmarshal _ _ _) as [p [e|]]; reflexivity.
  - intros body e HRead He. split.
    + unfold PullMessage, http.bind. fold (pullURL cli subscriptionName).
      rewrite HGet, HRead.
      destruct (json.Unmarshal _ _ _) as [p [e'|]]; simpl in He; [|discriminate].
      injection He as ->. reflexivity.
    + eapply Unmarshal_decodeError; [apply decodePullResponse_decodeErrors | exact He].
Qed.

Lemma PullMessage_status_unchecked_witness :
  @http.Get scripted (pullURL localhost "s") (start [reply 500 "Internal Server Error"])
    = (reply 500 "Internal Server Error",
       @http.mkState scripted [] [http.mkRequest "GET" (pullURL localhost "s") ∅ None]) /\
  fst (@PullMessage scripted localhost "s" (start [reply 200 "Internal Server Error"]))
    = fst (@PullMessage scripted localhost "s" (start [reply 500 "Internal Server Error"])) /\
  @PullMessage scripted localhost "s" (start [reply 500 "Internal Server Error"])
    = (Err SyntaxError,
       @http.mkState scripted [] [http.mkRequest "GET" (pullURL localhost "s") ∅ None]) /\
  decodeError SyntaxError.
Proof.
  assert (HGet : @http.Get scripted (pullURL localhost "s")
                   (start [reply 500 "Internal Server Error"])
    = (reply 500 "Internal Server Error",
       @http.mkState scripted [] [http.mkRequest "GET" (pullURL localhost "s") ∅ None]))
    by (vm_compute; reflexivity).
  destruct (@PullMessage_status_unchecked scripted localhost "s" _ _ _ HGet) as [Ha Hb].
  split; [exact HGet|]. split.
  - apply (Ha (start [reply 200 "Internal Server Error"])
              (@http.mkState scripted [] [http.mkRequest "GET" (pullURL localhost "s") ∅ None])
              (http.mkResponse 200 "Internal Server Error" None));
      vm_compute; reflexivity.
  - apply (Hb "Internal Server Error" SyntaxError); vm_compute; reflexivity.
Defined.

(** A JSON key that the decoder takes for the field "message". *)
Lemma lookupField_message_None {S} (store : json.decoder S) (key : string) :
  json.foldName key <> "MESSAGE" ->
  json.lookupField [json.Field "message" store] key = None.
Proof.
  intros Hne. unfold json.lookupField. cbv [List.find json.name].
  destruct (String.eqb_spec "message" key) as [<-|_].
  - exfalso. apply Hne. reflexivity.
  - change (json.foldName "message") with "MESSAGE".
    destruct (String.eqb_spec "MESSAGE" (json.foldName key)) as [E|_]; [|reflexivity].
    exfalso. apply Hne. symmetry. exact E.
Qed.

Lemma objectInto_no_field {S} (fields : list (json.field S))
    (kvs : list (string * json.Value)) (v : S) (saved : option error) :
  (forall key jv, In (key, jv) kvs -> json.lookupField fields key = None) ->
  json.objectInto fields kvs v saved = (v, saved).
Proof.
  induction kvs as [|[key jv] rest IH]; simpl; intros Hnone; [reflexivity|].
  rewrite (Hnone key jv) by auto. apply IH. intros; eapply Hnone; eauto.
Qed.

(** ** GetMessages *)

Example checkValid_messagesBody_hi :
  json.checkValid messagesBody_hi
  = json.Scanned (json.Object
      [("messages", json.Array [json.Object [("data", json.Str "hi")]])]).
Proof. reflexivity. Qed.

(** ** PublishMessage with headers *)

Lemma setHeaders_fields (headers : list (string * string)) (req : http.Request) :
  http.Method (setHeaders headers req) = http.Method req /\
  http.URL (setHeaders headers req) = http.URL req /\
  http.Body (setHeaders headers req) = http.Body req.
Proof.
  revert req. induction headers as [|[key value] rest IH]; intros req; simpl; [auto|].
  destruct (IH (http.Set_Header key value req)) as (-> & -> & ->). auto.
Qed.

(** Keys visited later on that have another canonical form leave the
    entry alone. *)
Lemma setHeaders_other (headers : list (string * string)) (req : http.Request)
    (canon : string) :
  (forall key value, In (key, value) headers -> http.CanonicalMIMEHeaderKey key <> canon) ->
  http.Hdr (setHeaders headers req) !! canon = http.Hdr req !! canon.
Proof.
  revert req. induction headers as [|[key value] rest IH]; intros req Hne; simpl; [reflexivity|].
  rewrite IH by (intros; eapply Hne; right; eauto).
  simpl. unfold http.Header_Set. apply lookup_insert_ne. eapply Hne. left. reflexivity.
Qed.

(** The entry of a canonical key holds the value of the last pair visited
    whose key has that canonical form. *)
Lemma setHeaders_last (before after : list (string * string)) (key value : string)
    (req : http.Request) :
  (forall key' value', In (key', value') after ->
     http.CanonicalMIMEHeaderKey key' <> http.CanonicalMIMEHeaderKey key) ->
  http.Hdr (setHeaders (before ++ (key, value) :: after) req)
    !! http.CanonicalMIMEHeaderKey key = Some [value].
Proof.
  intros Hafter. unfold setHeaders. rewrite fold_left_app. simpl.
  fold (setHeaders before req).
  fold (setHeaders after (http.Set_Header key value (setHeaders before req))).
  rewrite setHeaders_other by exact Hafter.
  simpl. unfold http.Header_Set. apply lookup_insert_eq.
Qed.

Lemma Header_Get_lookup (h : http.Header) (key value : string) :
  h !! http.CanonicalMIMEHeaderKey key = Some [value] -> http.Header_Get key h = value.
Proof. unfold http.Header_Get. intros ->. reflexivity. Qed.

(** C8 as stated fails: of two keys of the map that differ only in case,
    the request carries one value, that of the key visited last; whatever
    the order of the visit, one pair of the map is not on the request. *)
Lemma PublishMessage_headers_counterexample :
  NoDup (map fst [("a", "1"); ("A", "2")]) /\
  (http.sent (snd (@PublishMessage scripted localhost "t" (mkMessage "m")
                     [("a", "1"); ("A", "2")] (start [reply 201 ""])))
   = [publishRequest localhost "t" (mkMessage "m") [("a", "1"); ("A", "2")]] /\
   http.Header_Get "a"
     (http.Hdr (publishRequest localhost "t" (mkMessage "m") [("a", "1"); ("A", "2")])) = "2" /\
   forall key,
     http.Hdr (publishRequest localhost "t" (mkMessage "m") [("a", "1"); ("A", "2")]) !! key
     <> Some ["1"]) /\
  (http.sent (snd (@PublishMessage scripted localhost "t" (mkMessage "m")
                     [("A", "2"); ("a", "1")] (start [reply 201 ""])))
   = [publishRequest localhost "t" (mkMessage "m") [("A", "2"); ("a", "1")]] /\
   http.Header_Get "A"
     (http.Hdr (publishRequest localhost "t" (mkMessage "m") [("A", "2"); ("a", "1")])) = "1" /\
   forall key,
     http.Hdr (publishRequest localhost "t" (mkMessage "m") [("A", "2"); ("a", "1")]) !! key
     <> Some ["2"]).
Proof.
  split.
  { apply NoDup_cons; split; [rewrite list_elem_of_In; simpl; intros [E|[]]; discriminate|].
    apply NoDup_cons; split; [rewrite list_elem_of_In; simpl; tauto | apply NoDup_nil; exact I]. }
  split; (split; [vm_compute; reflexivity|]); (split; [vm_compute; reflexivity|]);
    intros key; unfold publishRequest, setHeaders, fold_left, http.Set_Header, http.Hdr,
      http.Header_Set;
    change (http.CanonicalMIMEHeaderKey "a") with "A";
    change (http.CanonicalMIMEHeaderKey "A") with "A";
    rewrite insert_insert_eq;
    (destruct (decide ("A" = key)) as [<-|Hne];
     [rewrite lookup_insert_eq; discriminate
     |rewrite lookup_insert_ne by exact Hne; rewrite lookup_empty; discriminate]).
Qed.

(** C8, as amended. When the request of PublishMessage can be built, the
    request handed to the HTTP client is the POST to
    {base}/topics/{topicName}/publish with the JSON of the message, and
    for every pair of the header map whose key shares its canonical form
    with no other key of the map, the request carries that value under
    that key; headers are set before the request is handed over. *)
Theorem PublishMessage_headers `{http.Environment}
    (cli : Client) (topicName : string) (message : Message)
    (headers : list (string * string)) (st : http.State) :
  NoDup (map fst headers) ->
  http.url_Parse (publishURL cli topicName) = true ->
  exists body,
    Marshal_Message message = Ok body /\
    http.sent (snd (PublishMessage cli topicName message headers st))
      = (http.sent st ++ [publishRequest cli topicName message headers])%list /\
    http.Method (publishRequest cli topicName message headers) = "POST" /\
    http.URL (publishRequest cli topicName message headers) = publishURL cli topicName /\
    http.Body (publishRequest cli topicName message headers) = Some body /\
    forall key value,
      In (key, value) headers ->
      (forall key' value', In (key', value') headers ->
         http.CanonicalMIMEHeaderKey key' = http.CanonicalMIMEHeaderKey key -> key' = key) ->
      http.Hdr (publishRequest cli topicName message headers)
        !! http.CanonicalMIMEHeaderKey key = Some [value] /\
      http.Header_Get key (http.Hdr (publishRequest cli topicName message headers)) = value.
Proof.
  intros Hnodup Hparse.
  eexists. split; [reflexivity|].
  destruct (setHeaders_fields headers
              (http.mkRequest "POST" (publishURL cli topicName) ∅
                 (Some (json.encodeStruct [("data", json.appendString (Data message))]))))
    as (HM & HU & HB).
  split; [|split; [exact HM|split; [exact HU|split; [exact HB|]]]].
  - unfold PublishMessage, Marshal_Message, http.bind. fold (publishURL cli topicName).
    rewrite (NewRequest_parse "POST" _ _ eq_refl Hparse).
    fold (publishRequest cli topicName message headers).
    pose proof (Do_sent (publishRequest cli topicName message headers) st) as Hd.
    destruct (http.Do (publishRequest cli topicName message headers) st) as [[resp|err] st1];
      simpl in Hd; unfold http.ret.
    + destruct (negb _); exact Hd.
    + exact Hd.
  - intros key value HIn Hunique.
    assert (Hlookup : http.Hdr (publishRequest cli topicName message headers)
              !! http.CanonicalMIMEHeaderKey key = Some [value]).
    { apply in_split in HIn as (before & after & ->).
      apply setHeaders_last. intros key' value' HIn' Hcanon.
      assert (key' = key) as ->
        by (eapply Hunique; [|exact Hcanon]; apply in_or_app; right; right; exact HIn').
      rewrite map_app in Hnodup. simpl in Hnodup.
      apply NoDup_app in Hnodup as (_ & _ & Hnodup).
      apply NoDup_cons in Hnodup as [Hnotin _].
      apply Hnotin. apply list_elem_of_In. apply (in_map fst _ _ HIn'). }
    split; [exact Hlookup | apply Header_Get_lookup; exact Hlookup].
Qed.

Lemma PublishMessage_headers_witness :
  NoDup (map fst [("x-trace", "1")]) /\
  @http.url_Parse scripted (publishURL localhost "t") = true /\
  exists body,
    Marshal_Message (mkMessage "m") = Ok body /\
    http.sent (snd (@PublishMessage scripted localhost "t" (mkMessage "m")
                      [("x-trace", "1")] (start [reply 201 ""])))
      = ([] ++ [publishRequest localhost "t" (mkMessage "m") [("x-trace", "1")]])%list /\
    http.Method (publishRequest localhost "t" (mkMessage "m") [("x-trace", "1")]) = "POST" /\
    http.URL (publishRequest localhost "t" (mkMessage "m") [("x-trace", "1")])
      = publishURL localhost "t" /\
    http.Body (publishRequest localhost "t" (mkMessage "m") [("x-trace", "1")]) = Some body /\
    forall key value,
      In (key, value) [("x-trace", "1")] ->
      (forall key' value', In (key', value') [("x-trace", "1")] ->
         http.CanonicalMIMEHeaderKey key' = http.CanonicalMIMEHeaderKey key -> key' = key) ->
      http.Hdr (publishRequest localhost "t" (mkMessage "m") [("x-trace", "1")])
        !! http.CanonicalMIMEHeaderKey key = Some [value] /\
      http.Header_Get key
        (http.Hdr (publishRequest localhost "t" (mkMessage "m") [("x-trace", "1")])) = value.
Proof.
  assert (Hnodup : NoDup (map fst [("x-trace", "1")])).
  { apply NoDup_cons; split; [rewrite list_elem_of_In; simpl; tauto | apply NoDup_nil; exact I]. }
  assert (Hparse : @http.url_Parse scripted (publishURL localhost "t") = true) by reflexivity.
  split; [exact Hnodup|]. split; [exact Hparse|].
  exact (@PublishMessage_headers scripted localhost "t" (mkMessage "m") [("x-trace", "1")]
           (start [reply 201 ""]) Hnodup Hparse).
Defined.

(** ** Bytes and bit operations *)

Ltac Zify.zify_post_hook ::= Z.div_mod_to_equations.

Lemma b2z_range (c : ascii) : 0 <= b2z c < 256.
Proof. unfold b2z. pose proof (N_ascii_bounded c). lia. Qed.

Lemma z2b_b2z (c : ascii) : z2b (b2z c) = c.
Proof.
  unfold z2b. rewrite Z.mod_small by apply b2z_range.
  unfold b2z. rewrite N2Z.id. apply ascii_N_embedding.
Qed.

Lemma b2z_z2b (z : Z) : 0 <= z < 256 -> b2z (z2b z) = z.
Proof.
  intros Hz. unfold z2b, b2z. rewrite Z.mod_small by assumption.
  rewrite N_ascii_embedding by lia. lia.
Qed.

Lemma b2z_inj (c c' : ascii) : b2z c = b2z c' -> c = c'.
Proof. intros E. rewrite <- (z2b_b2z c), <- (z2b_b2z c'), E. reflexivity. Qed.

Lemma land_mul_pow2_small (x b n : Z) :
  0 <= n -> 0 <= b < 2 ^ n -> Z.land (x * 2 ^ n) b = 0.
Proof.
  intros Hn Hb. apply Z.bits_inj'. intros m Hm.
  rewrite Z.land_spec, Z.bits_0.
  destruct (Z.lt_ge_cases m n) as [Hlt|Hge].
  - rewrite Z.mul_pow2_bits_low by lia. reflexivity.
  - rewrite <- (Z.mod_small b (2 ^ n)) by lia.
    rewrite Z.mod_pow2_bits_high by lia. apply andb_false_r.
Qed.

(** [lor] of a multiple of [2^n] and a number below [2^n] is their sum. *)
Lemma lor_add (y b n : Z) :
  0 <= n -> 0 <= b < 2 ^ n -> y mod 2 ^ n = 0 -> Z.lor y b = y + b.
Proof.
  intros Hn Hb Hy.
  assert (y = (y / 2 ^ n) * 2 ^ n) as -> by (pose proof (Z.div_mod y (2 ^ n)); nia).
  pose proof (Z.add_lor_land (y / 2 ^ n * 2 ^ n) b) as H.
  rewrite land_mul_pow2_small in H by assumption. lia.
Qed.

Lemma land_7 (a : Z) : Z.land a 7 = a mod 8.
Proof. exact (Z.land_ones a 3 ltac:(lia)). Qed.
Lemma land_15 (a : Z) : Z.land a 15 = a mod 16.
Proof. exact (Z.land_ones a 4 ltac:(lia)). Qed.
Lemma land_31 (a : Z) : Z.land a 31 = a mod 32.
Proof. exact (Z.land_ones a 5 ltac:(lia)). Qed.
Lemma land_63 (a : Z) : Z.land a 63 = a mod 64.
Proof. exact (Z.land_ones a 6 ltac:(lia)). Qed.
Lemma shiftl_6 (a : Z) : Z.shiftl a 6 = a * 64.
Proof. exact (Z.shiftl_mul_pow2 a 6 ltac:(lia)). Qed.
Lemma shiftl_12 (a : Z) : Z.shiftl a 12 = a * 4096.
Proof. exact (Z.shiftl_mul_pow2 a 12 ltac:(lia)). Qed.
Lemma shiftl_18 (a : Z) : Z.shiftl a 18 = a * 262144.
Proof. exact (Z.shiftl_mul_pow2 a 18 ltac:(lia)). Qed.
Lemma shiftr_6 (a : Z) : Z.shiftr a 6 = a / 64.
Proof. exact (Z.shiftr_div_pow2 a 6 ltac:(lia)). Qed.
Lemma shiftr_12 (a : Z) : Z.shiftr a 12 = a / 4096.
Proof. exact (Z.shiftr_div_pow2 a 12 ltac:(lia)). Qed.
Lemma shiftr_18 (a : Z) : Z.shiftr a 18 = a / 262144.
Proof. exact (Z.shiftr_div_pow2 a 18 ltac:(lia)). Qed.

Ltac lor_to_add y n :=
  rewrite (lor_add y _ n)
    by (first [change (2 ^ n) with 64 | change (2 ^ n) with 4096
              | change (2 ^ n) with 262144]; lia).

(** ** Encoding a rune decodes to the bytes it came from *)

Lemma rune_2 (b0 b1 : Z) :
  0xC2 <= b0 <= 0xDF -> 0x80 <= b1 <= 0xBF ->
  Z.lor (Z.shiftl (Z.land b0 utf8.mask2) 6) (Z.land b1 utf8.maskx)
  = (b0 - 0xC0) * 64 + (b1 - 0x80).
Proof.
  intros H0 H1. unfold utf8.mask2, utf8.maskx.
  rewrite land_31, land_63, shiftl_6.
  lor_to_add (b0 mod 32 * 64) 6. lia.
Qed.

Lemma rune_3 (b0 b1 b2 : Z) :
  0xE0 <= b0 <= 0xEF -> 0x80 <= b1 <= 0xBF -> 0x80 <= b2 <= 0xBF ->
  Z.lor (Z.lor (Z.shiftl (Z.land b0 utf8.mask3) 12) (Z.shiftl (Z.land b1 utf8.maskx) 6))
        (Z.land b2 utf8.maskx)
  = (b0 - 0xE0) * 4096 + (b1 - 0x80) * 64 + (b2 - 0x80).
Proof.
  intros H0 H1 H2. unfold utf8.mask3, utf8.maskx.
  rewrite land_15, !land_63, shiftl_12, shiftl_6.
  lor_to_add (b0 mod 16 * 4096) 12.
  lor_to_add (b0 mod 16 * 4096 + b1 mod 64 * 64) 6. lia.
Qed.

Lemma rune_4 (b0 b1 b2 b3 : Z) :
  0xF0 <= b0 <= 0xF4 -> 0x80 <= b1 <= 0xBF -> 0x80 <= b2 <= 0xBF -> 0x80 <= b3 <= 0xBF ->
  Z.lor (Z.lor (Z.lor (Z.shiftl (Z.land b0 utf8.mask4) 18)
                      (Z.shiftl (Z.land b1 utf8.maskx) 12))
               (Z.shiftl (Z.land b2 utf8.maskx) 6))
        (Z.land b3 utf8.maskx)
  = (b0 - 0xF0) * 262144 + (b1 - 0x80) * 4096 + (b2 - 0x80) * 64 + (b3 - 0x80).
Proof.
  intros H0 H1 H2 H3. unfold utf8.mask4, utf8.maskx.
  rewrite land_7, !land_63, shiftl_18, shiftl_12, shiftl_6.
  lor_to_add (b0 mod 8 * 262144) 18.
  lor_to_add (b0 mod 8 * 262144 + b1 mod 64 * 4096) 12.
  lor_to_add (b0 mod 8 * 262144 + b1 mod 64 * 4096 + b2 mod 64 * 64) 6. lia.
Qed.

(** A lead byte over a multiple of 64, and a continuation byte. *)
Lemma lead_byte (t hi : Z) :
  t mod 64 = 0 -> 0 <= hi < 64 -> Z.lor t hi = t + hi.
Proof. intros Ht Hhi. apply (lor_add t hi 6); [lia | change (2 ^ 6) with 64; lia | exact Ht]. Qed.

Lemma EncodeRune_2 (b0 b1 : Z) :
  0xC2 <= b0 <= 0xDF -> 0x80 <= b1 <= 0xBF ->
  utf8.EncodeRune ((b0 - 0xC0) * 64 + (b1 - 0x80))
  = String (z2b b0) (String (z2b b1) EmptyString).
Proof.
  intros H0 H1. unfold utf8.EncodeRune.
  set (r := (b0 - 0xC0) * 64 + (b1 - 0x80)).
  assert (Hr : 0x80 <= r <= 0x7FF) by (subst r; lia).
  rewrite (Z.mod_small r) by lia.
  unfold utf8.rune1Max, utf8.rune2Max.
  destruct (Z.leb_spec r 0x7F); [lia|].
  destruct (Z.leb_spec r 0x7FF); [|lia].
  unfold utf8.t2, utf8.tx, utf8.maskx.
  rewrite shiftr_6, land_63, !lead_byte by lia.
  f_equal; [f_equal; subst r; lia | f_equal; f_equal; subst r; lia].
Qed.

Lemma EncodeRune_3 (b0 b1 b2 : Z) :
  (b0 = 0xE0 /\ 0xA0 <= b1 <= 0xBF) \/ (0xE1 <= b0 <= 0xEC /\ 0x80 <= b1 <= 0xBF) \/
  (b0 = 0xED /\ 0x80 <= b1 <= 0x9F) \/ (0xEE <= b0 <= 0xEF /\ 0x80 <= b1 <= 0xBF) ->
  0x80 <= b2 <= 0xBF ->
  utf8.EncodeRune ((b0 - 0xE0) * 4096 + (b1 - 0x80) * 64 + (b2 - 0x80))
  = String (z2b b0) (String (z2b b1) (String (z2b b2) EmptyString)).
Proof.
  intros H01 H2. unfold utf8.EncodeRune.
  set (r := (b0 - 0xE0) * 4096 + (b1 - 0x80) * 64 + (b2 - 0x80)).
  assert (Hr : 0x800 <= r <= 0xFFFF /\ ~ (0xD800 <= r <= 0xDFFF)) by (subst r; lia).
  rewrite (Z.mod_small r) by lia.
  unfold utf8.rune1Max, utf8.rune2Max, utf8.rune3Max, utf8.MaxRune,
    utf8.surrogateMin, utf8.surrogateMax.
  destruct (Z.leb_spec r 0x7F); [lia|].
  destruct (Z.leb_spec r 0x7FF); [lia|].
  destruct (Z.ltb_spec 0x10FFFF r); [lia|].
  replace ((0xD800 <=? r) && (r <=? 0xDFFF)) with false
    by (symmetry; apply andb_false_iff; rewrite Z.leb_gt, Z.leb_gt; lia).
  simpl orb. cbv iota.
  destruct (Z.leb_spec r 0xFFFF); [|lia].
  unfold utf8.encode3, utf8.t3, utf8.tx, utf8.maskx.
  rewrite shiftr_12, shiftr_6, !land_63.
  rewrite (lor_add 224 (r / 4096) 4) by (change (2 ^ 4) with 16; lia).
  rewrite !lead_byte by lia.
  f_equal; [f_equal; subst r; lia | f_equal; [f_equal; subst r; lia | f_equal; f_equal; subst r; lia]].
Qed.

Lemma EncodeRune_4 (b0 b1 b2 b3 : Z) :
  (b0 = 0xF0 /\ 0x90 <= b1 <= 0xBF) \/ (0xF1 <= b0 <= 0xF3 /\ 0x80 <= b1 <= 0xBF) \/
  (b0 = 0xF4 /\ 0x80 <= b1 <= 0x8F) ->
  0x80 <= b2 <= 0xBF -> 0x80 <= b3 <= 0xBF ->
  utf8.EncodeRune ((b0 - 0xF0) * 262144 + (b1 - 0x80) * 4096 + (b2 - 0x80) * 64 + (b3 - 0x80))
  = String (z2b b0) (String (z2b b1) (String (z2b b2) (String (z2b b3) EmptyString))).
Proof.
  intros H01 H2 H3. unfold utf8.EncodeRune.
  set (r := (b0 - 0xF0) * 262144 + (b1 - 0x80) * 4096 + (b2 - 0x80) * 64 + (b3 - 0x80)).
  assert (Hr : 0x10000 <= r <= 0x10FFFF) by (subst r; lia).
  rewrite (Z.mod_small r) by lia.
  unfold utf8.rune1Max, utf8.rune2Max, utf8.rune3Max, utf8.MaxRune,
    utf8.surrogateMin, utf8.surrogateMax.
  destruct (Z.leb_spec r 0x7F); [lia|].
  destruct (Z.leb_spec r 0x7FF); [lia|].
  destruct (Z.ltb_spec 0x10FFFF r); [lia|].
  replace ((0xD800 <=? r) && (r <=? 0xDFFF)) with false
    by (symmetry; apply andb_false_iff; rewrite Z.leb_gt, Z.leb_gt; lia).
  simpl orb. cbv iota.
  destruct (Z.leb_spec r 0xFFFF); [lia|].
  unfold utf8.t4, utf8.tx, utf8.maskx.
  rewrite shiftr_18, shiftr_12, shiftr_6, !land_63.
  rewrite (lor_add 240 (r / 262144) 3) by (change (2 ^ 3) with 8; lia).
  rewrite !lead_byte by lia.
  f_equal; [f_equal; subst r; lia|].
  f_equal; [f_equal; subst r; lia|].
  f_equal; [f_equal; subst r; lia | f_equal; f_equal; subst r; lia].
Qed.

(** ** Decoding the first rune *)

Lemma first_cases (b : Z) :
  0 <= b < 256 ->
  (b < 0x80 /\ utf8.first b = utf8.as_) \/
  ((0x80 <= b < 0xC2 \/ 0xF5 <= b) /\ utf8.first b = utf8.xx) \/
  (0xC2 <= b <= 0xDF /\ utf8.first b = utf8.s1) \/
  (b = 0xE0 /\ utf8.first b = utf8.s2) \/
  ((0xE1 <= b <= 0xEC \/ 0xEE <= b <= 0xEF) /\ utf8.first b = utf8.s3) \/
  (b = 0xED /\ utf8.first b = utf8.s4) \/
  (b = 0xF0 /\ utf8.first b = utf8.s5) \/
  (0xF1 <= b <= 0xF3 /\ utf8.first b = utf8.s6) \/
  (b = 0xF4 /\ utf8.first b = utf8.s7).
Proof.
  intros Hb. unfold utf8.first.
  repeat match goal with
  | |- context [?x <? ?y] => destruct (Z.ltb_spec x y)
  | |- context [?x =? ?y] => destruct (Z.eqb_spec x y)
  end; lia.
Qed.

Lemma DecodeRune_ascii (c : ascii) (r : string) :
  b2z c < 0x80 -> utf8.DecodeRuneInString (String c r) = (b2z c, 1%nat).
Proof.
  intros Hc. unfold utf8.DecodeRuneInString.
  change (String.length (String c r)) with (S (String.length r)).
  change (at_ (String c r) 0) with (b2z c).
  destruct (first_cases (b2z c) (b2z_range c)) as [[_ ->]|H]; [reflexivity|].
  lia.
Qed.

(** Evaluate [DecodeRuneInString] once the entry of [first] is known. *)
Ltac decode_first c r Hfirst sz lo hi :=
  unfold utf8.DecodeRuneInString;
  change (at_ (String c r) 0) with (b2z c);
  rewrite Hfirst;
  match goal with
  | |- context [utf8.as_ <=? ?x] =>
    change (utf8.as_ <=? x) with false;
    change (Z.to_nat (Z.land x 7)) with sz;
    change (utf8.acceptRanges (Z.shiftr x 4)) with (lo, hi)
  end;
  cbv beta iota zeta.

(** Decide the range checks on the bytes that follow; what is left are the
    cases in which all of them pass. *)
Ltac decode_conds :=
  cbn [at_ String.get String.length Nat.ltb Nat.leb];
  unfold utf8.locb, utf8.hicb;
  repeat match goal with
  | |- context [Z.ltb ?a ?b] => destruct (Z.ltb_spec a b)
  end;
  cbn [orb];
  try (left; reflexivity).

Lemma DecodeRune_2 (c c1 : ascii) (r : string) :
  0xC2 <= b2z c <= 0xDF -> 0x80 <= b2z c1 <= 0xBF ->
  utf8.DecodeRuneInString (String c (String c1 r))
  = ((b2z c - 0xC0) * 64 + (b2z c1 - 0x80), 2%nat).
Proof.
  intros H0 H1.
  destruct (first_cases (b2z c) (b2z_range c))
    as [H|[H|[[_ Hf]|[H|[H|[H|[H|[H|H]]]]]]]]; try lia.
  decode_first c (String c1 r) Hf 2%nat utf8.locb utf8.hicb.
  change (at_ (String c (String c1 r)) 1) with (b2z c1).
  cbn [String.length Nat.ltb Nat.leb].
  unfold utf8.locb, utf8.hicb.
  destruct (Z.ltb_spec (b2z c1) 0x80); [lia|].
  destruct (Z.ltb_spec 0xBF (b2z c1)); [lia|].
  cbn [orb]. rewrite rune_2 by lia. reflexivity.
Qed.

Lemma DecodeRune_3 (c c1 c2 : ascii) (r : string) :
  (b2z c = 0xE0 /\ 0xA0 <= b2z c1 <= 0xBF) \/ (0xE1 <= b2z c <= 0xEC /\ 0x80 <= b2z c1 <= 0xBF) \/
  (b2z c = 0xED /\ 0x80 <= b2z c1 <= 0x9F) \/ (0xEE <= b2z c <= 0xEF /\ 0x80 <= b2z c1 <= 0xBF) ->
  0x80 <= b2z c2 <= 0xBF ->
  utf8.DecodeRuneInString (String c (String c1 (String c2 r)))
  = ((b2z c - 0xE0) * 4096 + (b2z c1 - 0x80) * 64 + (b2z c2 - 0x80), 3%nat).
Proof.
  intros H01 H2.
  destruct (first_cases (b2z c) (b2z_range c))
    as [H|[H|[H|[[E Hf]|[[E Hf]|[[E Hf]|[H|[H|H]]]]]]]]; try lia.
  - decode_first c (String c1 (String c2 r)) Hf 3%nat 0xA0 utf8.hicb.
    change (at_ (String c (String c1 (String c2 r))) 1) with (b2z c1).
    change (at_ (String c (String c1 (String c2 r))) 2) with (b2z c2).
    cbn [String.length Nat.ltb Nat.leb].
    unfold utf8.locb, utf8.hicb.
    destruct (Z.ltb_spec (b2z c1) 0xA0); [lia|].
    destruct (Z.ltb_spec 0xBF (b2z c1)); [lia|].
    destruct (Z.ltb_spec (b2z c2) 0x80); [lia|].
    destruct (Z.ltb_spec 0xBF (b2z c2)); [lia|].
    cbn [orb]. rewrite rune_3 by lia. reflexivity.
  - decode_first c (String c1 (String c2 r)) Hf 3%nat utf8.locb utf8.hicb.
    change (at_ (String c (String c1 (String c2 r))) 1) with (b2z c1).
    change (at_ (String c (String c1 (String c2 r))) 2) with (b2z c2).
    cbn [String.length Nat.ltb Nat.leb].
    unfold utf8.locb, utf8.hicb.
    destruct (Z.ltb_spec (b2z c1) 0x80); [lia|].
    destruct (Z.ltb_spec 0xBF (b2z c1)); [lia|].
    destruct (Z.ltb_spec (b2z c2) 0x80); [lia|].
    destruct (Z.ltb_spec 0xBF (b2z c2)); [lia|].
    cbn [orb]. rewrite rune_3 by lia. reflexivity.
  - decode_first c (String c1 (String c2 r)) Hf 3%nat utf8.locb 0x9F.
    change (at_ (String c (String c1 (String c2 r))) 1) with (b2z c1).
    change (at_ (String c (String c1 (String c2 r))) 2) with (b2z c2).
    cbn [String.length Nat.ltb Nat.leb].
    unfold utf8.locb, utf8.hicb.
    destruct (Z.ltb_spec (b2z c1) 0x80); [lia|].
    destruct (Z.ltb_spec 0x9F (b2z c1)); [lia|].
    destruct (Z.ltb_spec (b2z c2) 0x80); [lia|].
    destruct (Z.ltb_spec 0xBF (b2z c2)); [lia|].
    cbn [orb]. rewrite rune_3 by lia. reflexivity.
Qed.

Lemma DecodeRune_4 (c c1 c2 c3 : ascii) (r : string) :
  (b2z c = 0xF0 /\ 0x90 <= b2z c1 <= 0xBF) \/ (0xF1 <= b2z c <= 0xF3 /\ 0x80 <= b2z c1 <= 0xBF) \/
  (b2z c = 0xF4 /\ 0x80 <= b2z c1 <= 0x8F) ->
  0x80 <= b2z c2 <= 0xBF -> 0x80 <= b2z c3 <= 0xBF ->
  utf8.DecodeRuneInString (String c (String c1 (String c2 (String c3 r))))
  = ((b2z c - 0xF0) * 262144 + (b2z c1 - 0x80) * 4096 + (b2z c2 - 0x80) * 64
     + (b2z c3 - 0x80), 4%nat).
Proof.
  intros H01 H2 H3.
  destruct (first_cases (b2z c) (b2z_range c))
    as [H|[H|[H|[H|[H|[H|[[E Hf]|[[E Hf]|[E Hf]]]]]]]]]; try lia.
  - decode_first c (String c1 (String c2 (String c3 r))) Hf 4%nat 0x90 utf8.hicb.
    change (at_ (String c (String c1 (String c2 (String c3 r)))) 1) with (b2z c1).
    change (at_ (String c (String c1 (String c2 (String c3 r)))) 2) with (b2z c2).
    change (at_ (String c (String c1 (String c2 (String c3 r)))) 3) with (b2z c3).
    cbn [String.length Nat.ltb Nat.leb].
    unfold utf8.locb, utf8.hicb.
    destruct (Z.ltb_spec (b2z c1) 0x90); [lia|].
    destruct (Z.ltb_spec 0xBF (b2z c1)); [lia|].
    destruct (Z.ltb_spec (b2z c2) 0x80); [lia|].
    destruct (Z.ltb_spec 0xBF (b2z c2)); [lia|].
    destruct (Z.ltb_spec (b2z c3) 0x80); [lia|].
    destruct (Z.ltb_spec 0xBF (b2z c3)); [lia|].
    cbn [orb]. rewrite rune_4 by lia. reflexivity.
  - decode_first c (String c1 (String c2 (String c3 r))) Hf 4%nat utf8.locb utf8.hicb.
    change (at_ (String c (String c1 (String c2 (String c3 r)))) 1) with (b2z c1).
    change (at_ (String c (String c1 (String c2 (String c3 r)))) 2) with (b2z c2).
    change (at_ (String c (String c1 (String c2 (String c3 r)))) 3) with (b2z c3).
    cbn [String.length Nat.ltb Nat.leb].
    unfold utf8.locb, utf8.hicb.
    destruct (Z.ltb_spec (b2z c1) 0x80); [lia|].
    destruct (Z.ltb_spec 0xBF (b2z c1)); [lia|].
    destruct (Z.ltb_spec (b2z c2) 0x80); [lia|].
    destruct (Z.ltb_spec 0xBF (b2z c2)); [lia|].
    destruct (Z.ltb_spec (b2z c3) 0x80); [lia|].
    destruct (Z.ltb_spec 0xBF (b2z c3)); [lia|].
    cbn [orb]. rewrite rune_4 by lia. reflexivity.
  - decode_first c (String c1 (String c2 (String c3 r))) Hf 4%nat utf8.locb 0x8F.
    change (at_ (String c (String c1 (String c2 (String c3 r)))) 1) with (b2z c1).
    change (at_ (String c (String c1 (String c2 (String c3 r)))) 2) with (b2z c2).
    change (at_ (String c (String c1 (String c2 (String c3 r)))) 3) with (b2z c3).
    cbn [String.length Nat.ltb Nat.leb].
    unfold utf8.locb, utf8.hicb.
    destruct (Z.ltb_spec (b2z c1) 0x80); [lia|].
    destruct (Z.ltb_spec 0x8F (b2z c1)); [lia|].
    destruct (Z.ltb_spec (b2z c2) 0x80); [lia|].
    destruct (Z.ltb_spec 0xBF (b2z c2)); [lia|].
    destruct (Z.ltb_spec (b2z c3) 0x80); [lia|].
    destruct (Z.ltb_spec 0xBF (b2z c3)); [lia|].
    cbn [orb]. rewrite rune_4 by lia. reflexivity.
Qed.

(** What [DecodeRuneInString] finds at a byte outside ASCII: no valid
    encoding, or one of two, three or four bytes. *)
Lemma DecodeRune_multi (c : ascii) (r : string) :
  0x80 <= b2z c ->
  utf8.DecodeRuneInString (String c r) = (utf8.RuneError, 1%nat) \/
  (exists c1 r2, r = String c1 r2 /\
     0xC2 <= b2z c <= 0xDF /\ 0x80 <= b2z c1 <= 0xBF) \/
  (exists c1 c2 r3, r = String c1 (String c2 r3) /\
     ((b2z c = 0xE0 /\ 0xA0 <= b2z c1 <= 0xBF) \/ (0xE1 <= b2z c <= 0xEC /\ 0x80 <= b2z c1 <= 0xBF) \/
      (b2z c = 0xED /\ 0x80 <= b2z c1 <= 0x9F) \/ (0xEE <= b2z c <= 0xEF /\ 0x80 <= b2z c1 <= 0xBF)) /\
     0x80 <= b2z c2 <= 0xBF) \/
  (exists c1 c2 c3 r4, r = String c1 (String c2 (String c3 r4)) /\
     ((b2z c = 0xF0 /\ 0x90 <= b2z c1 <= 0xBF) \/ (0xF1 <= b2z c <= 0xF3 /\ 0x80 <= b2z c1 <= 0xBF) \/
      (b2z c = 0xF4 /\ 0x80 <= b2z c1 <= 0x8F)) /\
     0x80 <= b2z c2 <= 0xBF /\ 0x80 <= b2z c3 <= 0xBF).
Proof.
  intros Hc.
  destruct (first_cases (b2z c) (b2z_range c))
    as [H|[[E Hf]|[[E Hf]|[[E Hf]|[[E Hf]|[[E Hf]|[[E Hf]|[[E Hf]|[E Hf]]]]]]]]]; [lia|..].
  - left. unfold utf8.DecodeRuneInString.
    change (at_ (String c r) 0) with (b2z c). rewrite Hf. reflexivity.
  - destruct r as [|c1 r2].
    { left. decode_first c EmptyString Hf 2%nat utf8.locb utf8.hicb. reflexivity. }
    decode_first c (String c1 r2) Hf 2%nat utf8.locb utf8.hicb.
    decode_conds. right; left. exists c1, r2. repeat split; lia.
  - destruct r as [|c1 [|c2 r3]].
    { left. decode_first c EmptyString Hf 3%nat 0xA0 utf8.hicb. reflexivity. }
    { left. decode_first c (String c1 EmptyString) Hf 3%nat 0xA0 utf8.hicb. reflexivity. }
    decode_first c (String c1 (String c2 r3)) Hf 3%nat 0xA0 utf8.hicb.
    decode_conds. right; right; left. exists c1, c2, r3. repeat split; lia.
  - destruct r as [|c1 [|c2 r3]].
    { left. decode_first c EmptyString Hf 3%nat utf8.locb utf8.hicb. reflexivity. }
    { left. decode_first c (String c1 EmptyString) Hf 3%nat utf8.locb utf8.hicb. reflexivity. }
    decode_first c (String c1 (String c2 r3)) Hf 3%nat utf8.locb utf8.hicb.
    decode_conds. right; right; left. exists c1, c2, r3. repeat split; lia.
  - destruct r as [|c1 [|c2 r3]].
    { left. decode_first c EmptyString Hf 3%nat utf8.locb 0x9F. reflexivity. }
    { left. decode_first c (String c1 EmptyString) Hf 3%nat utf8.locb 0x9F. reflexivity. }
    decode_first c (String c1 (String c2 r3)) Hf 3%nat utf8.locb 0x9F.
    decode_conds. right; right; left. exists c1, c2, r3. repeat split; lia.
  - destruct r as [|c1 [|c2 [|c3 r4]]].
    { left. decode_first c EmptyString Hf 4%nat 0x90 utf8.hicb. reflexivity. }
    { left. decode_first c (String c1 EmptyString) Hf 4%nat 0x90 utf8.hicb. reflexivity. }
    { left. decode_first c (String c1 (String c2 EmptyString)) Hf 4%nat 0x90 utf8.hicb.
      reflexivity. }
    decode_first c (String c1 (String c2 (String c3 r4))) Hf 4%nat 0x90 utf8.hicb.
    decode_conds. right; right; right. exists c1, c2, c3, r4. repeat split; lia.
  - destruct r as [|c1 [|c2 [|c3 r4]]].
    { left. decode_first c EmptyString Hf 4%nat utf8.locb utf8.hicb. reflexivity. }
    { left. decode_first c (String c1 EmptyString) Hf 4%nat utf8.locb utf8.hicb. reflexivity. }
    { left. decode_first c (String c1 (String c2 EmptyString)) Hf 4%nat utf8.locb utf8.hicb.
      reflexivity. }
    decode_first c (String c1 (String c2 (String c3 r4))) Hf 4%nat utf8.locb utf8.hicb.
    decode_conds. right; right; right. exists c1, c2, c3, r4. repeat split; lia.
  - destruct r as [|c1 [|c2 [|c3 r4]]].
    { left. decode_first c EmptyString Hf 4%nat utf8.locb 0x8F. reflexivity. }
    { left. decode_first c (String c1 EmptyString) Hf 4%nat utf8.locb 0x8F. reflexivity. }
    { left. decode_first c (String c1 (String c2 EmptyString)) Hf 4%nat utf8.locb 0x8F.
      reflexivity. }
    decode_first c (String c1 (String c2 (String c3 r4))) Hf 4%nat utf8.locb 0x8F.
    decode_conds. right; right; right. exists c1, c2, c3, r4. repeat split; lia.
Qed.

Lemma drop_s_app (p x : string) : drop_s (String.length p) (p ++ x) = x.
Proof. induction p as [|c p IH]; simpl; auto. Qed.

Lemma take_s_app (p x : string) : take_s (String.length p) (p ++ x) = p.
Proof. induction p as [|c p IH]; simpl; [reflexivity | now rewrite IH]. Qed.

Lemma eqb_b2z (c d : ascii) : Ascii.eqb c d = (b2z c =? b2z d).
Proof.
  destruct (Ascii.eqb_spec c d) as [->|Hne].
  - symmetry. apply Z.eqb_refl.
  - symmetry. apply Z.eqb_neq. intros E. apply Hne. apply b2z_inj. exact E.
Qed.

(** A valid encoding of two to four bytes at the start of a string: its
    bytes [pre], the rune [rr] they decode to whatever follows them, the
    encoding of that rune, which gives the bytes back. *)
Lemma DecodeRune_chunk (c : ascii) (r : string) :
  0x80 <= b2z c ->
  utf8.DecodeRuneInString (String c r) = (utf8.RuneError, 1%nat) \/
  exists pre rest rr,
    String c r = pre ++ rest /\
    (2 <= String.length pre)%nat /\
    (forall rest', utf8.DecodeRuneInString (pre ++ rest') = (rr, String.length pre)) /\
    utf8.EncodeRune rr = pre /\
    0x80 <= rr /\
    forallb (fun x => 0x80 <=? b2z x) (list_ascii_of_string pre) = true.
Proof.
  intros Hc.
  destruct (DecodeRune_multi c r Hc)
    as [H|[(c1 & r2 & -> & H0 & H1)|[(c1 & c2 & r3 & -> & H01 & H2)
       |(c1 & c2 & c3 & r4 & -> & H01 & H2 & H3)]]]; [left; exact H|right..].
  - exists (String c (String c1 EmptyString)), r2,
      ((b2z c - 0xC0) * 64 + (b2z c1 - 0x80)).
    split; [reflexivity|]. split; [simpl; lia|].
    split; [intros rest'; apply DecodeRune_2; assumption|].
    split; [rewrite EncodeRune_2, !z2b_b2z by assumption; reflexivity|].
    split; [lia|].
    simpl. rewrite !andb_true_iff, !Z.leb_le. lia.
  - exists (String c (String c1 (String c2 EmptyString))), r3,
      ((b2z c - 0xE0) * 4096 + (b2z c1 - 0x80) * 64 + (b2z c2 - 0x80)).
    split; [reflexivity|]. split; [simpl; lia|].
    split; [intros rest'; apply DecodeRune_3; assumption|].
    split; [rewrite EncodeRune_3, !z2b_b2z by assumption; reflexivity|].
    split; [lia|].
    simpl. rewrite !andb_true_iff, !Z.leb_le. lia.
  - exists (String c (String c1 (String c2 (String c3 EmptyString)))), r4,
      ((b2z c - 0xF0) * 262144 + (b2z c1 - 0x80) * 4096 + (b2z c2 - 0x80) * 64
       + (b2z c3 - 0x80)).
    split; [reflexivity|]. split; [simpl; lia|].
    split; [intros rest'; apply DecodeRune_4; assumption|].
    split; [rewrite EncodeRune_4, !z2b_b2z by assumption; reflexivity|].
    split; [lia|].
    simpl. rewrite !andb_true_iff, !Z.leb_le. lia.
Qed.

(** ** The scanner reads back what [appendString] writes *)

Lemma scans_nil : scans EmptyString.
Proof. intros x lit rest H. exact H. Qed.

Lemma scans_app (p q : string) : scans p -> scans q -> scans (p ++ q).
Proof.
  intros Hp Hq x lit rest H. rewrite !append_assoc. apply Hp, Hq, H.
Qed.

Lemma scanString_InString (c : ascii) (r : string) :
  json.scanString json.stateInString (String c r)
  = if Ascii.eqb c dquote then json.Scanned (EmptyString, r)
    else if Ascii.eqb c backslash
         then json.consumed c (json.scanString json.stateInStringEsc r)
    else if b2z c <? 0x20 then json.ScanError
    else json.consumed c (json.scanString json.stateInString r).
Proof. reflexivity. Qed.

(** A byte that stands for itself in a string literal. *)
Lemma scans_plain (c : ascii) :
  0x20 <= b2z c -> b2z c <> 0x22 -> b2z c <> 0x5C -> scans (String c EmptyString).
Proof.
  intros Hctl Hq Hb x lit rest H.
  change (String c EmptyString ++ x) with (String c x).
  rewrite scanString_InString, !eqb_b2z.
  change (b2z dquote) with 0x22. change (b2z backslash) with 0x5C.
  destruct (Z.eqb_spec (b2z c) 0x22); [contradiction|].
  destruct (Z.eqb_spec (b2z c) 0x5C); [contradiction|].
  destruct (Z.ltb_spec (b2z c) 0x20); [lia|].
  rewrite H. reflexivity.
Qed.

Lemma scans_high (p : string) :
  forallb (fun x => 0x80 <=? b2z x) (list_ascii_of_string p) = true -> scans p.
Proof.
  induction p as [|c p IH]; simpl; intros H.
  - apply scans_nil.
  - apply andb_true_iff in H as [Hc Hp]. apply Z.leb_le in Hc.
    apply (scans_app (String c EmptyString) p); [apply scans_plain; lia | apply IH, Hp].
Qed.

Lemma hex_range (i : Z) : 0 <= i < 16 -> json.isHex (json.hex i) = true /\ json.hexval (json.hex i) = i.
Proof.
  intros Hi.
  assert (Hcases : i = 0 \/ i = 1 \/ i = 2 \/ i = 3 \/ i = 4 \/ i = 5 \/ i = 6 \/ i = 7 \/
                   i = 8 \/ i = 9 \/ i = 10 \/ i = 11 \/ i = 12 \/ i = 13 \/ i = 14 \/ i = 15)
    by lia.
  repeat destruct Hcases as [->|Hcases]; try subst i; split; reflexivity.
Qed.

(** The escapes that [appendString] writes for ASCII bytes. *)
Lemma scans_escapeByte (c : ascii) :
  (b2z c <? 0x80) = true -> json.htmlSafeSet (b2z c) = false -> scans (json.escapeByte c).
Proof.
  destruct c as [[] [] [] [] [] [] [] []]; intros H1 H2; try discriminate H1;
    try discriminate H2; intros x lit rest H;
    match goal with |- context [json.escapeByte ?a] =>
      let e := eval vm_compute in (json.escapeByte a) in
      change (json.escapeByte a) with e
    end; cbn; rewrite H; reflexivity.
Qed.

Lemma appendString_loop_S (fuel : nat) (c : ascii) (rest : string) :
  json.appendString_loop (S fuel) (String c rest)
  = if b2z c <? utf8.RuneSelf then
      (if json.htmlSafeSet (b2z c) then String c EmptyString else json.escapeByte c)
        ++ json.appendString_loop fuel rest
    else
      let '(r, size) := utf8.DecodeRuneInString (String c rest) in
      if (r =? utf8.RuneError) && (size =? 1)%nat then
        String backslash "ufffd" ++ json.appendString_loop fuel (drop_s size (String c rest))
      else if (r =? 0x2028) || (r =? 0x2029) then
        String backslash "u202" ++ String (json.hex (Z.land r 0xF)) EmptyString
          ++ json.appendString_loop fuel (drop_s size (String c rest))
      else
        take_s size (String c rest)
          ++ json.appendString_loop fuel (drop_s size (String c rest)).
Proof. reflexivity. Qed.

Lemma htmlSafeSet_true (b : Z) :
  json.htmlSafeSet b = true -> 0x20 <= b < 0x80 /\ b <> 0x22 /\ b <> 0x5C.
Proof.
  unfold json.htmlSafeSet. rewrite !andb_true_iff, negb_true_iff, !orb_false_iff.
  rewrite Z.leb_le, Z.ltb_lt, !Z.eqb_neq. tauto.
Qed.

Lemma scans_replacement : scans (String backslash "ufffd").
Proof. intros x lit rest H. cbn. rewrite H. reflexivity. Qed.

Lemma scans_separator (rr : Z) :
  rr = 0x2028 \/ rr = 0x2029 ->
  scans (String backslash "u202" ++ String (json.hex (Z.land rr 0xF)) EmptyString).
Proof. intros [-> | ->] x lit rest H; cbn; rewrite H; reflexivity. Qed.

(** Whatever the string, what [appendString] writes between the quotes is
    the text of one string literal. *)
Lemma scans_appendString_loop (fuel : nat) (s : string) :
  scans (json.appendString_loop fuel s).
Proof.
  revert s. induction fuel as [|fuel IH]; intros s; [apply scans_nil|].
  destruct s as [|c r]; [apply scans_nil|].
  rewrite appendString_loop_S. unfold utf8.RuneSelf.
  destruct (Z.ltb_spec (b2z c) 0x80) as [Hascii|Hhigh].
  - apply scans_app; [|apply IH].
    destruct (json.htmlSafeSet (b2z c)) eqn:Hsafe.
    + apply htmlSafeSet_true in Hsafe. apply scans_plain; lia.
    + apply scans_escapeByte; [apply Z.ltb_lt; exact Hascii | exact Hsafe].
  - destruct (DecodeRune_chunk c r Hhigh)
      as [HE | (pre & rest & rr & Hs & Hlen & Hdec & Henc & Hrr & Hpre)].
    + rewrite HE. change ((utf8.RuneError =? utf8.RuneError) && (1 =? 1)%nat) with true.
      cbv iota. apply scans_app; [apply scans_replacement | apply IH].
    + rewrite Hs, Hdec.
      replace (String.length pre =? 1)%nat with false by (symmetry; apply Nat.eqb_neq; lia).
      rewrite andb_false_r.
      destruct ((rr =? 0x2028) || (rr =? 0x2029)) eqn:Hsep.
      * rewrite <- append_assoc. apply scans_app; [|apply IH].
        apply scans_separator. apply orb_true_iff in Hsep. rewrite !Z.eqb_eq in Hsep. exact Hsep.
      * rewrite take_s_app. apply scans_app; [apply scans_high; exact Hpre | apply IH].
Qed.

Lemma scanString_escape (s rest : string) :
  json.scanString json.stateInString (json.escape s ++ String dquote rest)
  = json.Scanned (json.escape s, rest).
Proof.
  pose proof (scans_appendString_loop (String.length s) s (String dquote rest)
                EmptyString rest eq_refl) as H.
  rewrite append_nil_r in H. exact H.
Qed.

(** ** Unquoting gives back a valid UTF-8 string *)

Lemma unquote_loop_S (fuel : nat) (c : ascii) (r : string) :
  json.unquote_loop (S fuel) (String c r)
  = if Ascii.eqb c backslash then
      match r with
      | EmptyString => None
      | String e r' =>
        if existsb (Ascii.eqb e) [dquote; backslash; "/"; "'"]%char
        then json.cons_s e (json.unquote_loop fuel r')
        else if Ascii.eqb e "b" then json.cons_s "008" (json.unquote_loop fuel r')
        else if Ascii.eqb e "f" then json.cons_s "012" (json.unquote_loop fuel r')
        else if Ascii.eqb e "n" then json.cons_s "010" (json.unquote_loop fuel r')
        else if Ascii.eqb e "r" then json.cons_s "013" (json.unquote_loop fuel r')
        else if Ascii.eqb e "t" then json.cons_s "009" (json.unquote_loop fuel r')
        else if Ascii.eqb e "u" then
          let rr := json.getu4 (String c r) in
          if rr <? 0 then None
          else if json.IsSurrogate rr then
            let rr1 := json.getu4 (drop_s 6 (String c r)) in
            let dec := json.utf16_DecodeRune rr rr1 in
            if negb (dec =? 0xFFFD) then
              json.app_s (utf8.EncodeRune dec) (json.unquote_loop fuel (drop_s 12 (String c r)))
            else
              json.app_s (utf8.EncodeRune 0xFFFD) (json.unquote_loop fuel (drop_s 6 (String c r)))
          else json.app_s (utf8.EncodeRune rr) (json.unquote_loop fuel (drop_s 6 (String c r)))
        else None
      end
    else if Ascii.eqb c dquote || (b2z c <? 0x20) then None
    else if b2z c <? utf8.RuneSelf then json.cons_s c (json.unquote_loop fuel r)
    else
      let '(rr, size) := utf8.DecodeRuneInString (String c r) in
      json.app_s (utf8.EncodeRune rr) (json.unquote_loop fuel (drop_s size (String c r))).
Proof. reflexivity. Qed.

Lemma app_s_cons (c : ascii) (o : option string) :
  json.app_s (String c EmptyString) o = json.cons_s c o.
Proof. destruct o; reflexivity. Qed.

Lemma unquotes_plain (c : ascii) :
  0x20 <= b2z c < 0x80 -> b2z c <> 0x22 -> b2z c <> 0x5C ->
  unquotes (String c EmptyString) (String c EmptyString).
Proof.
  intros Hc Hq Hb. split; [simpl; lia|]. intros f x.
  change (String c EmptyString ++ x) with (String c x).
  rewrite unquote_loop_S, !eqb_b2z.
  change (b2z dquote) with 0x22. change (b2z backslash) with 0x5C.
  unfold utf8.RuneSelf.
  destruct (Z.eqb_spec (b2z c) 0x5C); [contradiction|].
  destruct (Z.eqb_spec (b2z c) 0x22); [contradiction|].
  destruct (Z.ltb_spec (b2z c) 0x20); [lia|].
  destruct (Z.ltb_spec (b2z c) 0x80); [|lia].
  simpl. symmetry. apply app_s_cons.
Qed.

Lemma unquotes_escapeByte (c : ascii) :
  (b2z c <? 0x80) = true -> json.htmlSafeSet (b2z c) = false ->
  unquotes (json.escapeByte c) (String c EmptyString).
Proof.
  destruct c as [[] [] [] [] [] [] [] []]; intros H1 H2; try discriminate H1;
    try discriminate H2;
    (split; [vm_compute; lia|]); intros f x;
    match goal with |- context [json.escapeByte ?a] =>
      let e := eval vm_compute in (json.escapeByte a) in
      change (json.escapeByte a) with e
    end; rewrite app_s_cons; reflexivity.
Qed.

Lemma unquotes_separator (rr : Z) (pre : string) :
  rr = 0x2028 \/ rr = 0x2029 -> utf8.EncodeRune rr = pre ->
  unquotes (String backslash "u202" ++ String (json.hex (Z.land rr 0xF)) EmptyString) pre.
Proof.
  intros [-> | ->] <-; (split; [vm_compute; lia|]); intros f x; reflexivity.
Qed.

Lemma unquotes_high (pre : string) (rr : Z) :
  (2 <= String.length pre)%nat ->
  (forall rest', utf8.DecodeRuneInString (pre ++ rest') = (rr, String.length pre)) ->
  utf8.EncodeRune rr = pre ->
  forallb (fun x => 0x80 <=? b2z x) (list_ascii_of_string pre) = true ->
  unquotes pre pre.
Proof.
  intros Hlen Hdec Henc Hhigh. split; [lia|]. intros f x.
  pose proof (Hdec x) as Hd. pose proof (drop_s_app pre x) as Hdrop.
  destruct pre as [|c p]; [simpl in Hlen; lia|].
  simpl in Hhigh. apply andb_true_iff in Hhigh as [Hc _]. apply Z.leb_le in Hc.
  change (String c p ++ x) with (String c (p ++ x)) in *.
  rewrite unquote_loop_S, !eqb_b2z.
  change (b2z dquote) with 0x22. change (b2z backslash) with 0x5C.
  unfold utf8.RuneSelf.
  destruct (Z.eqb_spec (b2z c) 0x5C); [lia|].
  destruct (Z.eqb_spec (b2z c) 0x22); [lia|].
  destruct (Z.ltb_spec (b2z c) 0x20); [lia|].
  destruct (Z.ltb_spec (b2z c) 0x80); [lia|].
  cbn [orb]. rewrite Hd, Hdrop, Henc. reflexivity.
Qed.

Lemma valid_loop_S (fuel : nat) (c : ascii) (r : string) :
  utf8.valid_loop (S fuel) (String c r)
  = let '(rr, size) := utf8.DecodeRuneInString (String c r) in
    if (rr =? utf8.RuneError) && (size =? 1)%nat then false
    else utf8.valid_loop fuel (drop_s size (String c r)).
Proof. reflexivity. Qed.

Lemma unquote_loop_nil (f : nat) : json.unquote_loop f EmptyString = Some EmptyString.
Proof. destruct f; reflexivity. Qed.

(** One turn: the text [p ++ l] with enough fuel, where [l] unquotes
    to [rest]. *)
Lemma unquotes_step (p d l rest : string) (f : nat) :
  unquotes p d ->
  (forall f', (String.length l <= f')%nat -> json.unquote_loop f' l = Some rest) ->
  (String.length (p ++ l) <= f)%nat ->
  json.unquote_loop f (p ++ l) = Some (d ++ rest).
Proof.
  intros [Hlen Hp] Hl Hf. rewrite length_append in Hf.
  destruct f as [|f]; [lia|].
  rewrite Hp, Hl by lia. reflexivity.
Qed.

Lemma unquote_appendString_loop (n : nat) (s : string) :
  utf8.valid_loop n s = true ->
  forall f, (String.length (json.appendString_loop n s) <= f)%nat ->
    json.unquote_loop f (json.appendString_loop n s) = Some s.
Proof.
  revert s. induction n as [|n IH]; intros s Hvalid f Hf.
  - destruct s; [apply unquote_loop_nil | discriminate].
  - destruct s as [|c r]; [apply unquote_loop_nil|].
    rewrite valid_loop_S in Hvalid.
    rewrite appendString_loop_S in Hf |- *. unfold utf8.RuneSelf in *.
    destruct (Z.ltb_spec (b2z c) 0x80) as [Hascii|Hhigh].
    + rewrite DecodeRune_ascii in Hvalid by exact Hascii.
      pose proof (b2z_range c) as Hrange.
      replace (b2z c =? utf8.RuneError) with false in Hvalid
        by (symmetry; apply Z.eqb_neq; unfold utf8.RuneError; lia).
      cbn [andb drop_s] in Hvalid.
      change (Some (String c r)) with (Some (String c EmptyString ++ r)).
      apply unquotes_step; [|intros f'; apply IH; exact Hvalid | exact Hf].
      destruct (json.htmlSafeSet (b2z c)) eqn:Hsafe.
      * apply htmlSafeSet_true in Hsafe. apply unquotes_plain; lia.
      * apply unquotes_escapeByte; [apply Z.ltb_lt; exact Hascii | exact Hsafe].
    + destruct (DecodeRune_chunk c r Hhigh)
        as [HE | (pre & rest & rr & Hs & Hlen & Hdec & Henc & Hrr & Hpre)].
      * rewrite HE in Hvalid. discriminate Hvalid.
      * rewrite Hs in Hvalid, Hf |- *. rewrite Hdec in Hvalid, Hf |- *.
        replace (String.length pre =? 1)%nat with false in *
          by (symmetry; apply Nat.eqb_neq; lia).
        rewrite andb_false_r in *. rewrite drop_s_app in *.
        destruct ((rr =? 0x2028) || (rr =? 0x2029)) eqn:Hsep.
        -- rewrite <- append_assoc in Hf |- *.
           apply unquotes_step; [|intros f'; apply IH; exact Hvalid | exact Hf].
           apply unquotes_separator; [|exact Henc].
           apply orb_true_iff in Hsep. rewrite !Z.eqb_eq in Hsep. exact Hsep.
        -- rewrite take_s_app in Hf |- *.
           apply unquotes_step; [|intros f'; apply IH; exact Hvalid | exact Hf].
           apply (unquotes_high pre rr); assumption.
Qed.

Lemma unquote_escape (s : string) :
  utf8.ValidString s = true -> json.unquote (json.escape s) = Some s.
Proof.
  intros Hvalid. unfold json.unquote, json.escape.
  apply unquote_appendString_loop; [exact Hvalid | lia].
Qed.

(** ** Messages through JSON and back *)

(** The JSON text of a message. *)
Lemma Marshal_Message_text (s : string) :
  Marshal_Message (mkMessage s)
  = Ok ("{" ++ quoted "data" ++ ":" ++ String dquote (json.escape s ++ String dquote "}")).
Proof.
  unfold Marshal_Message, json.encodeStruct, json.encodeFields, json.appendString, quoted.
  simpl. rewrite !append_assoc. reflexivity.
Qed.

(** The text of a message is valid JSON: an object with the one key
    "data", whose value is the string that the escaped text unquotes to. *)
Lemma checkValid_message_text (e s : string) :
  (forall rest, json.scanString json.stateInString (e ++ String dquote rest)
                = json.Scanned (e, rest)) ->
  json.unquote e = Some s ->
  json.checkValid ("{" ++ quoted "data" ++ ":" ++ String dquote (e ++ String dquote "}"))
  = json.Scanned (json.Object [("data", json.Str s)]).
Proof.
  intros Hscan Hunquote. unfold json.checkValid.
  simpl. rewrite Hscan. simpl. rewrite Hunquote. reflexivity.
Qed.

(** C9 as stated fails: the one-byte string 0xFF is written as the escape
    of U+FFFD, and that is read back as the three bytes of U+FFFD. *)
Lemma Message_roundtrip_counterexample :
  Marshal_Message (mkMessage byteFF)
    = Ok ("{" ++ quoted "data" ++ ":" ++ quoted (String backslash "ufffd") ++ "}") /\
  json.Unmarshal decodeMessage
    ("{" ++ quoted "data" ++ ":" ++ quoted (String backslash "ufffd") ++ "}") zeroMessage
    = (mkMessage (utf8.EncodeRune 0xFFFD), None) /\
  mkMessage (utf8.EncodeRune 0xFFFD) <> mkMessage byteFF.
Proof.
  split; [reflexivity|]. split; [vm_compute; reflexivity|].
  vm_compute. discriminate.
Qed.

(** C9, as amended. For every string s that is valid UTF-8, the JSON that
    json.Marshal writes for Message{Data: s} is decoded by json.Unmarshal
    into a Message equal to the original, without error. *)
Theorem Message_roundtrip (s : string) :
  utf8.ValidString s = true ->
  exists text,
    Marshal_Message (mkMessage s) = Ok text /\
    json.Unmarshal decodeMessage text zeroMessage = (mkMessage s, None).
Proof.
  intros Hvalid. eexists. split; [apply Marshal_Message_text|].
  unfold json.Unmarshal.
  rewrite (checkValid_message_text (json.escape s) s
             (scanString_escape s) (unquote_escape s Hvalid)).
  reflexivity.
Qed.

Lemma Message_roundtrip_witness :
  utf8.ValidString "payload" = true /\
  exists text,
    Marshal_Message (mkMessage "payload") = Ok text /\
    json.Unmarshal decodeMessage text zeroMessage = (mkMessage "payload", None).
Proof.
  split; [reflexivity|]. apply (Message_roundtrip "payload"). reflexivity.
Defined.

(** ** The recursion bound of the scanner is never reached *)

Lemma skipSpace_length (s : string) :
  (String.length (json.skipSpace s) <= String.length s)%nat.
Proof.
  induction s as [|c r IH]; simpl; [lia|].
  destruct (json.isSpace c); simpl; lia.
Qed.

Lemma skipSpace_String (s : string) (c : ascii) (r : string) :
  json.skipSpace s = String c r -> (String.length r < String.length s)%nat.
Proof.
  intros H. pose proof (skipSpace_length s) as Hle. rewrite H in Hle. simpl in Hle. lia.
Qed.

Lemma within_consumed (c : ascii) (m : json.scanres (string * string)) (n : nat) :
  within (fun a => String.length (snd a)) n m ->
  within (fun a => String.length (snd a)) n (json.consumed c m).
Proof.
  intros [Hfuel Hlen]. destruct m as [[lit rest]| | |]; simpl;
    (split; [discriminate || (exfalso; apply Hfuel; reflexivity)|]);
    intros a; try discriminate.
  intros [= <-]. simpl. apply (Hlen (lit, rest)). reflexivity.
Qed.

Lemma within_le {A} (len : A -> nat) (n n' : nat) (m : json.scanres A) :
  (n <= n')%nat -> within len n m -> within len n' m.
Proof. intros Hle [Hfuel Hlen]. split; [exact Hfuel|]. intros a Ha. specialize (Hlen a Ha). lia. Qed.

Lemma scanString_within (st : json.stringState) (s : string) :
  within (fun a => String.length (snd a)) (pred (String.length s)) (json.scanString st s).
Proof.
  revert st. induction s as [|c r IH]; intros st.
  - split; [discriminate|]. intros a; discriminate.
  - assert (Hstep : forall st', within (fun a => String.length (snd a))
                                  (pred (String.length (String c r)))
                                  (json.consumed c (json.scanString st' r))).
    { intros st'. apply within_consumed. eapply within_le; [|apply IH]. simpl. lia. }
    assert (Herr : within (fun a : string * string => String.length (snd a))
                     (pred (String.length (String c r))) json.ScanError).
    { split; [discriminate|]. intros a; discriminate. }
    assert (Hend : within (fun a : string * string => String.length (snd a))
                     (pred (String.length (String c r))) (json.Scanned (EmptyString, r))).
    { split; [discriminate|]. intros a [= <-]. simpl. lia. }
    destruct st; simpl json.scanString;
      repeat match goal with
      | |- context [if ?b then _ else _] => destruct b
      end; auto.
Qed.

Lemma scanNumber_within (st : json.numberState) (s : string) :
  within (fun a => String.length (snd a)) (String.length s) (json.scanNumber st s).
Proof.
  revert st. induction s as [|c r IH]; intros st.
  - destruct st; simpl; (split; [discriminate|]); intros a; try discriminate;
      intros [= <-]; simpl; lia.
  - assert (Hstep : forall st', within (fun a => String.length (snd a))
                                  (String.length (String c r))
                                  (json.consumed c (json.scanNumber st' r))).
    { intros st'. apply within_consumed. eapply within_le; [|apply IH]. simpl. lia. }
    assert (Herr : within (fun a : string * string => String.length (snd a))
                     (String.length (String c r)) json.ScanError).
    { split; [discriminate|]. intros a; discriminate. }
    assert (Hend : within (fun a : string * string => String.length (snd a))
                     (String.length (String c r)) (json.Scanned (EmptyString, String c r))).
    { split; [discriminate|]. intros a [= <-]. simpl. lia. }
    destruct st; simpl json.scanNumber;
      repeat match goal with
      | |- context [if ?b then _ else _] => destruct b
      end; auto.
Qed.

Lemma scanLiteral_within (lit s : string) :
  within String.length (String.length s) (json.scanLiteral lit s).
Proof.
  revert s. induction lit as [|l lit IH]; intros s; simpl.
  - split; [discriminate|]. intros a [= <-]. lia.
  - destruct s as [|c r]; [split; [discriminate|]; intros a; discriminate|].
    destruct (Ascii.eqb c l).
    + eapply within_le; [|apply IH]. simpl. lia.
    + split; [discriminate|]. intros a; discriminate.
Qed.

Lemma within_sbind {A B} (lenA : A -> nat) (lenB : B -> nat) (n n' : nat)
    (m : json.scanres A) (k : A -> json.scanres B) :
  within lenA n m ->
  (forall a, (lenA a <= n)%nat -> within lenB n' (k a)) ->
  within lenB n' (json.sbind m k).
Proof.
  intros [Hfuel Hlen] Hk. destruct m as [a| | |]; simpl.
  - apply Hk. apply Hlen. reflexivity.
  - split; [discriminate|]. intros b; discriminate.
  - split; [discriminate|]. intros b; discriminate.
  - exfalso. apply Hfuel. reflexivity.
Qed.

Lemma within_stop {A} (len : A -> nat) (n : nat) (m : json.scanres A) :
  m = json.ScanError \/ m = json.ScanEOF -> within len n m.
Proof. intros [-> | ->]; (split; [discriminate|]); intros a; discriminate. Qed.

Lemma within_Scanned {A} (len : A -> nat) (n : nat) (a : A) :
  (len a <= n)%nat -> within len n (json.Scanned a).
Proof. intros H. split; [discriminate|]. intros a' [= <-]. exact H. Qed.

Ltac scan_stop := solve [apply within_stop; auto].

(** With more fuel than twice the bytes of the input, [value] and
    [members] never stop for want of fuel, and [elements] with one more;
    what they scan is not empty. *)
Lemma scan_fuel (fuel : nat) :
  (forall depth s, (2 * String.length s < fuel)%nat ->
     within (fun a => String.length (snd a)) (pred (String.length s))
       (json.value fuel depth s)) /\
  (forall depth s, (2 * String.length s < fuel)%nat ->
     within (fun a => String.length (snd a)) (pred (String.length s))
       (json.members fuel depth s)) /\
  (forall depth s, (2 * String.length s + 1 < fuel)%nat ->
     within (fun a => String.length (snd a)) (pred (String.length s))
       (json.elements fuel depth s)).
Proof.
  induction fuel as [|fuel (IHv & IHm & IHe)].
  { repeat split; intros; lia. }
  split; [|split]; intros depth s Hfuel.
  - (* value *)
    cbn [json.value].
    destruct (json.skipSpace s) as [|c r] eqn:Hs; [scan_stop|].
    apply skipSpace_String in Hs.
    destruct (Ascii.eqb c "{").
    { destruct (N.leb _ _); [scan_stop|].
      destruct (json.skipSpace r) as [|c' r'] eqn:Hr; [scan_stop|].
      apply skipSpace_String in Hr.
      destruct (Ascii.eqb c' "}"); [apply within_Scanned; simpl; lia|].
      eapply within_sbind; [apply IHm; lia|].
      intros [kvs rest] Hrest. simpl in Hrest. apply within_Scanned. simpl. lia. }
    destruct (Ascii.eqb c "[").
    { destruct (N.leb _ _); [scan_stop|].
      destruct (json.skipSpace r) as [|c' r'] eqn:Hr; [scan_stop|].
      apply skipSpace_String in Hr.
      destruct (Ascii.eqb c' "]"); [apply within_Scanned; simpl; lia|].
      eapply within_sbind; [apply IHe; lia|].
      intros [vs rest] Hrest. simpl in Hrest. apply within_Scanned. simpl. lia. }
    destruct (Ascii.eqb c dquote).
    { eapply within_sbind; [apply scanString_within|].
      intros [raw rest] Hrest. simpl in Hrest.
      destruct (json.unquote raw); [apply within_Scanned; simpl; lia | scan_stop]. }
    repeat match goal with
    | |- context [if ?b then _ else _] => destruct b
    end; try scan_stop.
    1-3: eapply within_sbind; [apply scanNumber_within|];
      intros [lit rest] Hrest; simpl in Hrest; apply within_Scanned; simpl; lia.
    all: eapply within_sbind; [apply scanLiteral_within|];
      intros rest Hrest; apply within_Scanned; simpl; lia.
  - (* members *)
    cbn [json.members].
    destruct (json.skipSpace s) as [|c r] eqn:Hs; [scan_stop|].
    apply skipSpace_String in Hs.
    destruct (Ascii.eqb c dquote); [|scan_stop].
    eapply within_sbind; [apply scanString_within|].
    intros [raw r1] Hr1. simpl in Hr1.
    destruct (json.unquote raw) as [key|]; [|scan_stop].
    destruct (json.skipSpace r1) as [|c1 r2] eqn:Hsk1; [scan_stop|].
    apply skipSpace_String in Hsk1.
    destruct (Ascii.eqb c1 ":"); [|scan_stop].
    eapply within_sbind; [apply IHv; lia|].
    intros [v r3] Hr3. simpl in Hr3.
    destruct (json.skipSpace r3) as [|c3 r4] eqn:Hsk3; [scan_stop|].
    apply skipSpace_String in Hsk3.
    destruct (Ascii.eqb c3 ",").
    { eapply within_sbind; [apply IHm; lia|].
      intros [kvs r5] Hr5. simpl in Hr5. apply within_Scanned. simpl. lia. }
    destruct (Ascii.eqb c3 "}"); [apply within_Scanned; simpl; lia | scan_stop].
  - (* elements *)
    cbn [json.elements].
    eapply within_sbind; [apply IHv; lia|].
    intros [v r1] Hr1. simpl in Hr1.
    destruct (json.skipSpace r1) as [|c r2] eqn:Hsk1; [scan_stop|].
    apply skipSpace_String in Hsk1.
    destruct (Ascii.eqb c ",").
    { eapply within_sbind; [apply IHe; lia|].
      intros [vs r3] Hr3. simpl in Hr3. apply within_Scanned. simpl. lia. }
    destruct (Ascii.eqb c "]"); [apply within_Scanned; simpl; lia | scan_stop].
Qed.

(** The scan of a whole input never stops for want of fuel. *)
Lemma value_fuel (data : string) (depth : N) :
  json.value (json.fuelFor data) depth data <> json.ScanFuel.
Proof.
  apply (proj1 (scan_fuel (json.fuelFor data))). unfold json.fuelFor. lia.
Qed.

Lemma checkValid_fuel (data : string) : json.checkValid data <> json.ScanFuel.
Proof.
  unfold json.checkValid. pose proof (value_fuel data 0%N) as H.
  destruct (json.value _ _ _) as [[v rest]| | |]; simpl; try discriminate; [|contradiction].
  destruct (json.skipSpace rest); discriminate.
Qed.

(** ** The loops over strings never run out of turns *)

Lemma drop_s_length (k : nat) (s : string) :
  (String.length (drop_s k s) <= String.length s)%nat.
Proof.
  revert s. induction k as [|k IH]; intros s; [simpl; lia|].
  destruct s as [|c r]; simpl; [lia|]. specialize (IH r). lia.
Qed.

(** A rune of a string that is not empty takes one byte at least. *)
Lemma DecodeRune_advances (c : ascii) (r : string) :
  (String.length (drop_s (snd (utf8.DecodeRuneInString (String c r))) (String c r))
   <= String.length r)%nat.
Proof.
  destruct (Z.lt_ge_cases (b2z c) 0x80) as [Hascii|Hhigh].
  - rewrite DecodeRune_ascii by exact Hascii. simpl. lia.
  - destruct (DecodeRune_chunk c r Hhigh)
      as [HE | (pre & rest & rr & Hs & Hlen & Hdec & _)].
    + rewrite HE. simpl. lia.
    + rewrite Hs, Hdec. simpl snd. rewrite drop_s_app.
      apply (f_equal String.length) in Hs. rewrite length_append in Hs. simpl in Hs. lia.
Qed.

Lemma appendString_loop_fuel (f1 f2 : nat) (s : string) :
  (String.length s <= f1)%nat -> (String.length s <= f2)%nat ->
  json.appendString_loop f1 s = json.appendString_loop f2 s.
Proof.
  revert f2 s. induction f1 as [|f1 IH]; intros f2 s H1 H2.
  - destruct s; [destruct f2; reflexivity | simpl in H1; lia].
  - destruct s as [|c r]; [destruct f2; reflexivity|].
    destruct f2 as [|f2]; [simpl in H2; lia|].
    rewrite !appendString_loop_S. simpl in H1, H2.
    destruct (b2z c <? utf8.RuneSelf); [rewrite (IH f2 r) by lia; reflexivity|].
    pose proof (DecodeRune_advances c r) as Hadv.
    destruct (utf8.DecodeRuneInString (String c r)) as [rr size]. simpl snd in Hadv.
    rewrite (IH f2 (drop_s size (String c r))) by lia. reflexivity.
Qed.

Lemma valid_loop_fuel (f1 f2 : nat) (s : string) :
  (String.length s <= f1)%nat -> (String.length s <= f2)%nat ->
  utf8.valid_loop f1 s = utf8.valid_loop f2 s.
Proof.
  revert f2 s. induction f1 as [|f1 IH]; intros f2 s H1 H2.
  - destruct s; [destruct f2; reflexivity | simpl in H1; lia].
  - destruct s as [|c r]; [destruct f2; reflexivity|].
    destruct f2 as [|f2]; [simpl in H2; lia|].
    rewrite !valid_loop_S. simpl in H1, H2.
    pose proof (DecodeRune_advances c r) as Hadv.
    destruct (utf8.DecodeRuneInString (String c r)) as [rr size]. simpl snd in Hadv.
    rewrite (IH f2 (drop_s size (String c r))) by lia. reflexivity.
Qed.

Lemma unquote_loop_fuel (f1 f2 : nat) (s : string) :
  (String.length s <= f1)%nat -> (String.length s <= f2)%nat ->
  json.unquote_loop f1 s = json.unquote_loop f2 s.
Proof.
  revert f2 s. induction f1 as [|f1 IH]; intros f2 s H1 H2.
  - destruct s; [destruct f2; reflexivity | simpl in H1; lia].
  - destruct s as [|c r]; [destruct f2; reflexivity|].
    destruct f2 as [|f2]; [simpl in H2; lia|].
    rewrite !unquote_loop_S. simpl in H1, H2.
    pose proof (DecodeRune_advances c r) as Hadv.
    pose proof (drop_s_length 5 r) as H6. pose proof (drop_s_length 11 r) as H12.
    change (drop_s 5 r) with (drop_s 6 (String c r)) in H6.
    change (drop_s 11 r) with (drop_s 12 (String c r)) in H12.
    destruct (Ascii.eqb c backslash).
    + destruct r as [|e r']; [reflexivity|]. simpl in H1, H2.
      rewrite (IH f2 r') by lia.
      rewrite (IH f2 (drop_s 12 (String c (String e r')))) by (simpl in *; lia).
      rewrite (IH f2 (drop_s 6 (String c (String e r')))) by (simpl in *; lia).
      reflexivity.
    + rewrite (IH f2 r) by lia.
      destruct (utf8.DecodeRuneInString (String c r)) as [rr size]. simpl snd in Hadv.
      rewrite (IH f2 (drop_s size (String c r))) by lia. reflexivity.
Qed.

Lemma foldName_loop_S (fuel : nat) (c : ascii) (r : string) :
  json.foldName_loop (S fuel) (String c r)
  = if b2z c <? utf8.RuneSelf then
      String (if (0x61 <=? b2z c) && (b2z c <=? 0x7A)
              then z2b (b2z c - (0x61 - 0x41)) else c)
             (json.foldName_loop fuel r)
    else
      let '(rr, n) := utf8.DecodeRuneInString (String c r) in
      utf8.EncodeRune (json.foldRune rr) ++ json.foldName_loop fuel (drop_s n (String c r)).
Proof. reflexivity. Qed.

Lemma foldName_loop_fuel (f1 f2 : nat) (s : string) :
  (String.length s <= f1)%nat -> (String.length s <= f2)%nat ->
  json.foldName_loop f1 s = json.foldName_loop f2 s.
Proof.
  revert f2 s. induction f1 as [|f1 IH]; intros f2 s H1 H2.
  - destruct s; [destruct f2; reflexivity | simpl in H1; lia].
  - destruct s as [|c r]; [destruct f2; reflexivity|].
    destruct f2 as [|f2]; [simpl in H2; lia|].
    rewrite !foldName_loop_S. simpl in H1, H2.
    destruct (b2z c <? utf8.RuneSelf); [rewrite (IH f2 r) by lia; reflexivity|].
    pose proof (DecodeRune_advances c r) as Hadv.
    destruct (utf8.DecodeRuneInString (String c r)) as [rr size]. simpl snd in Hadv.
    rewrite (IH f2 (drop_s size (String c r))) by lia. reflexivity.
Qed.

(** ** What the scanner accepts as a string literal can be unquoted *)

Lemma consumed_Scanned (c : ascii) (m : json.scanres (string * string))
    (raw rest : string) :
  json.consumed c m = json.Scanned (raw, rest) ->
  exists raw', raw = String c raw' /\ m = json.Scanned (raw', rest).
Proof.
  destruct m as [[lit r]| | |]; simpl; try discriminate.
  intros [= <- <-]. eauto.
Qed.

Lemma hexval_isHex (h : ascii) : json.isHex h = true -> 0 <= json.hexval h < 16.
Proof.
  unfold json.isHex, json.hexval. pose proof (b2z_range h).
  repeat match goal with
  | |- context [Z.leb ?a ?b] => destruct (Z.leb_spec a b)
  end; simpl; intros; try discriminate; lia.
Qed.

(** The scanner inside an escape: the text it goes through, by state. *)
Lemma scanString_escape_states (r raw rest : string) :
  json.scanString json.stateInStringEsc r = json.Scanned (raw, rest) ->
  (exists e r1 raw1,
     r = String e r1 /\ raw = String e raw1 /\
     existsb (Ascii.eqb e) ["b"; "f"; "n"; "r"; "t"; backslash; "/"; dquote]%char = true /\
     json.scanString json.stateInString r1 = json.Scanned (raw1, rest)) \/
  (exists h1 h2 h3 h4 r5 raw5,
     r = String "u" (String h1 (String h2 (String h3 (String h4 r5)))) /\
     raw = String "u" (String h1 (String h2 (String h3 (String h4 raw5)))) /\
     json.isHex h1 = true /\ json.isHex h2 = true /\
     json.isHex h3 = true /\ json.isHex h4 = true /\
     json.scanString json.stateInString r5 = json.Scanned (raw5, rest)).
Proof.
  destruct r as [|e r1]; [discriminate|]. cbn [json.scanString].
  match goal with |- context [if ?b then _ else _] => destruct b eqn:Hesc end.
  { intros H. apply consumed_Scanned in H as (raw1 & -> & H).
    left. exists e, r1, raw1. auto. }
  destruct (Ascii.eqb_spec e "u") as [->|_]; [|discriminate].
  intros H. apply consumed_Scanned in H as (raw1 & -> & H).
  destruct r1 as [|h1 r2]; [discriminate|]. simpl json.scanString in H.
  destruct (json.isHex h1) eqn:H1; [|discriminate].
  apply consumed_Scanned in H as (raw2 & -> & H).
  destruct r2 as [|h2 r3]; [discriminate|]. simpl json.scanString in H.
  destruct (json.isHex h2) eqn:H2; [|discriminate].
  apply consumed_Scanned in H as (raw3 & -> & H).
  destruct r3 as [|h3 r4]; [discriminate|]. simpl json.scanString in H.
  destruct (json.isHex h3) eqn:H3; [|discriminate].
  apply consumed_Scanned in H as (raw4 & -> & H).
  destruct r4 as [|h4 r5]; [discriminate|]. simpl json.scanString in H.
  destruct (json.isHex h4) eqn:H4; [|discriminate].
  apply consumed_Scanned in H as (raw5 & -> & H).
  right. exists h1, h2, h3, h4, r5, raw5. auto 10.
Qed.

(** The scanner goes through bytes outside ASCII one by one. *)
Lemma scanString_high (pre x raw rest : string) :
  forallb (fun c => 0x80 <=? b2z c) (list_ascii_of_string pre) = true ->
  json.scanString json.stateInString (pre ++ x) = json.Scanned (raw, rest) ->
  exists raw', raw = pre ++ raw' /\
    json.scanString json.stateInString x = json.Scanned (raw', rest).
Proof.
  revert raw. induction pre as [|c p IH]; intros raw Hhigh H.
  - exists raw. auto.
  - simpl in Hhigh. apply andb_true_iff in Hhigh as [Hc Hp]. apply Z.leb_le in Hc.
    change (String c p ++ x) with (String c (p ++ x)) in H.
    rewrite scanString_InString, !eqb_b2z in H.
    change (b2z dquote) with 0x22 in H. change (b2z backslash) with 0x5C in H.
    destruct (Z.eqb_spec (b2z c) 0x22); [lia|].
    destruct (Z.eqb_spec (b2z c) 0x5C); [lia|].
    destruct (Z.ltb_spec (b2z c) 0x20); [lia|].
    apply consumed_Scanned in H as (raw1 & -> & H).
    destruct (IH raw1 Hp H) as (raw' & -> & H'). exists raw'. auto.
Qed.

Lemma scanString_text (st : json.stringState) (s raw rest : string) :
  json.scanString st s = json.Scanned (raw, rest) -> s = raw ++ String dquote rest.
Proof.
  revert st raw. induction s as [|c r IH]; intros st raw H; [destruct st; discriminate|].
  assert (Hstep : forall st', json.consumed c (json.scanString st' r) = json.Scanned (raw, rest) ->
                              String c r = raw ++ String dquote rest).
  { intros st' H'. apply consumed_Scanned in H' as (raw' & -> & H').
    simpl. f_equal. eapply IH. exact H'. }
  destruct st; simpl json.scanString in H;
    repeat match type of H with
    | context [if ?b then _ else _] => destruct b eqn:?
    end; try discriminate; eauto.
  injection H as <- <-. simpl. f_equal.
  apply Ascii.eqb_eq. assumption.
Qed.

Lemma cons_s_Some (c : ascii) (o : option string) : o <> None -> json.cons_s c o <> None.
Proof. destruct o; [discriminate | contradiction]. Qed.

Lemma app_s_Some (p : string) (o : option string) : o <> None -> json.app_s p o <> None.
Proof. destruct o; [discriminate | contradiction]. Qed.

Lemma getu4_nonneg (s : string) :
  0 <= json.getu4 s ->
  exists h1 h2 h3 h4 s', s = String backslash (String "u" (String h1 (String h2 (String h3 (String h4 s'))))).
Proof.
  destruct s as [|e0 [|e1 [|h1 [|h2 [|h3 [|h4 s']]]]]]; simpl; try lia.
  destruct (Ascii.eqb_spec e0 backslash) as [->|]; simpl; [|lia].
  destruct (Ascii.eqb_spec e1 "u") as [->|]; simpl; [|lia].
  intros _. eauto 10.
Qed.

Lemma getu4_hex (h1 h2 h3 h4 : ascii) (s : string) :
  json.isHex h1 = true -> json.isHex h2 = true -> json.isHex h3 = true -> json.isHex h4 = true ->
  0 <= json.getu4 (String backslash (String "u" (String h1 (String h2 (String h3 (String h4 s)))))).
Proof.
  intros H1 H2 H3 H4. simpl. rewrite H1, H2, H3, H4. simpl.
  apply hexval_isHex in H1, H2, H3, H4. lia.
Qed.

(** Whatever the scanner accepts between two quotes, [unquoteBytes]
    unquotes. *)
Lemma scanned_unquotes (n : nat) :
  forall s raw rest,
    (String.length s <= n)%nat ->
    json.scanString json.stateInString s = json.Scanned (raw, rest) ->
    forall f, (String.length raw <= f)%nat -> json.unquote_loop f raw <> None.
Proof.
  induction n as [|n IH]; intros s raw rest Hn H f Hf.
  { destruct s; [discriminate | simpl in Hn; lia]. }
  destruct s as [|c r]; [discriminate|]. simpl in Hn.
  rewrite scanString_InString in H.
  destruct (Ascii.eqb_spec c dquote) as [->|Hq].
  { injection H as <- <-. rewrite unquote_loop_nil. discriminate. }
  destruct (Ascii.eqb_spec c backslash) as [->|Hb].
  - apply consumed_Scanned in H as (raw' & -> & H).
    destruct f as [|f]; [simpl in Hf; lia|]. simpl in Hf.
    apply scanString_escape_states in H
      as [(e & r1 & raw1 & -> & -> & Hesc & H)
         |(h1 & h2 & h3 & h4 & r5 & raw5 & -> & -> & H1 & H2 & H3 & H4 & H)].
    + simpl in Hn, Hf.
      assert (Hrec : json.unquote_loop f raw1 <> None) by (eapply IH; [|exact H|]; lia).
      simpl in Hesc. rewrite !orb_true_iff, !Ascii.eqb_eq in Hesc.
      destruct Hesc as [->|[->|[->|[->|[->|[->|[->|[->|Habs]]]]]]]];
        [..|discriminate Habs]; cbn; apply cons_s_Some; exact Hrec.
    + simpl in Hn, Hf.
      assert (Hrec : json.unquote_loop f raw5 <> None) by (eapply IH; [|exact H|]; lia).
      pose proof (getu4_hex h1 h2 h3 h4 raw5 H1 H2 H3 H4) as Hrr.
      rewrite unquote_loop_S.
      change (Ascii.eqb backslash backslash) with true. cbv iota.
      change (existsb (Ascii.eqb "u") [dquote; backslash; "/"; "'"]%char) with false.
      change (Ascii.eqb "u" "b") with false. change (Ascii.eqb "u" "f") with false.
      change (Ascii.eqb "u" "n") with false. change (Ascii.eqb "u" "r") with false.
      change (Ascii.eqb "u" "t") with false. change (Ascii.eqb "u" "u") with true.
      cbv iota zeta.
      destruct (Z.ltb_spec (json.getu4
        (String backslash (String "u" (String h1 (String h2 (String h3 (String h4 raw5))))))) 0);
        [lia|].
      change (drop_s 6 (String backslash (String "u" (String h1 (String h2 (String h3
                (String h4 raw5))))))) with raw5.
      change (drop_s 12 (String backslash (String "u" (String h1 (String h2 (String h3
                (String h4 raw5))))))) with (drop_s 6 raw5).
      destruct (json.IsSurrogate _); [|apply app_s_Some; exact Hrec].
      destruct (negb _) eqn:Hdec; [|apply app_s_Some; exact Hrec].
      apply app_s_Some.
      (* a pair of surrogates: the second escape was scanned too *)
      assert (Hrr1 : 0 <= json.getu4 raw5).
      { apply negb_true_iff, Z.eqb_neq in Hdec. unfold json.utf16_DecodeRune in Hdec.
        destruct (_ && _) eqn:Hpair in Hdec; [|contradiction].
        rewrite !andb_true_iff, !Z.leb_le in Hpair. lia. }
      apply getu4_nonneg in Hrr1 as (g1 & g2 & g3 & g4 & raw6 & ->).
      pose proof (scanString_text _ _ _ _ H) as Htext. simpl in Htext. subst r5.
      rewrite scanString_InString in H.
      change (Ascii.eqb backslash dquote) with false in H.
      change (Ascii.eqb backslash backslash) with true in H. cbv iota in H.
      apply consumed_Scanned in H as (raw' & Hraw' & H).
      injection Hraw' as <-.
      apply scanString_escape_states in H
        as [(e & r1 & raw1 & Hr & Hraw & Hesc & H)
           |(k1 & k2 & k3 & k4 & r6 & raw6' & Hr & Hraw & _ & _ & _ & _ & H)].
      * injection Hraw as <- _. discriminate Hesc.
      * injection Hraw as <- <- <- <- <-.
        change (drop_s 6 (String backslash (String "u" (String g1 (String g2 (String g3
                  (String g4 raw6))))))) with raw6.
        eapply IH; [|exact H|].
        -- apply (f_equal String.length) in Hr. simpl in Hr, Hn. lia.
        -- simpl in Hf. lia.
  - destruct (Z.ltb_spec (b2z c) 0x20) as [|Hctl]; [discriminate|].
    apply consumed_Scanned in H as (raw1 & -> & H).
    destruct f as [|f]; [simpl in Hf; lia|]. simpl in Hf.
    assert (Hrec : json.unquote_loop f raw1 <> None) by (eapply IH; [|exact H|]; lia).
    rewrite unquote_loop_S.
    destruct (Ascii.eqb_spec c backslash); [contradiction|].
    destruct (Ascii.eqb_spec c dquote); [contradiction|].
    destruct (Z.ltb_spec (b2z c) 0x20); [lia|]. cbn [orb].
    unfold utf8.RuneSelf.
    destruct (Z.ltb_spec (b2z c) 0x80) as [|Hhigh]; [apply cons_s_Some; exact Hrec|].
    destruct (DecodeRune_chunk c raw1 Hhigh)
      as [HE | (pre & tail & rr & Hs & Hlen & Hdec & Henc & Hrr & Hpre)].
    + rewrite HE. apply app_s_Some. exact Hrec.
    + rewrite Hs, Hdec, drop_s_app. apply app_s_Some.
      pose proof (scanString_text _ _ _ _ H) as Htext.
      assert (Hscan : json.scanString json.stateInString (String c r)
                      = json.Scanned (String c raw1, rest)).
      { rewrite scanString_InString.
        destruct (Ascii.eqb_spec c dquote); [contradiction|].
        destruct (Ascii.eqb_spec c backslash); [contradiction|].
        destruct (Z.ltb_spec (b2z c) 0x20); [lia|].
        rewrite H. reflexivity. }
      rewrite Htext in Hscan. change (String c (raw1 ++ String dquote rest))
        with (String c raw1 ++ String dquote rest) in Hscan.
      rewrite Hs, append_assoc in Hscan.
      apply scanString_high in Hscan as (raw' & Hraw' & Hscan); [|exact Hpre].
      apply String.app_inj in Hraw'. subst raw'.
      eapply IH; [|exact Hscan|].
      * apply (f_equal String.length) in Hs. rewrite length_append in Hs.
        simpl in Hs. rewrite Htext in Hn. rewrite !length_append in *. simpl in *. lia.
      * apply (f_equal String.length) in Hs. rewrite length_append in Hs.
        simpl in Hs. lia.
Qed.

Lemma scanString_unquote (s raw rest : string) :
  json.scanString json.stateInString s = json.Scanned (raw, rest) ->
  json.unquote raw <> None.
Proof.
  intros H. unfold json.unquote.
  apply (scanned_unquotes (String.length s) s raw rest); [lia | exact H | lia].
Qed.

(** ** More fuel changes nothing *)

Lemma sbind_fuel {A B} (m : json.scanres A) (k : A -> json.scanres B) :
  json.sbind m k <> json.ScanFuel -> m <> json.ScanFuel.
Proof. destruct m; simpl; intros H; try discriminate. exfalso. apply H. reflexivity. Qed.

Lemma scan_fuel_le (fuel : nat) :
  (forall fuel' depth s, (fuel <= fuel')%nat -> json.value fuel depth s <> json.ScanFuel ->
     json.value fuel' depth s = json.value fuel depth s) /\
  (forall fuel' depth s, (fuel <= fuel')%nat -> json.members fuel depth s <> json.ScanFuel ->
     json.members fuel' depth s = json.members fuel depth s) /\
  (forall fuel' depth s, (fuel <= fuel')%nat -> json.elements fuel depth s <> json.ScanFuel ->
     json.elements fuel' depth s = json.elements fuel depth s).
Proof.
  induction fuel as [|fuel (IHv & IHm & IHe)].
  { repeat split; intros fuel' depth s _ H; exfalso; apply H; reflexivity. }
  split; [|split]; intros [|fuel'] depth s Hle; try lia;
    assert (Hle' : (fuel <= fuel')%nat) by lia.
  - cbn [json.value].
    destruct (json.skipSpace s) as [|c r]; [reflexivity|].
    destruct (Ascii.eqb c "{").
    { destruct (N.leb _ _); [reflexivity|].
      destruct (json.skipSpace r) as [|c' r']; [reflexivity|].
      destruct (Ascii.eqb c' "}"); [reflexivity|].
      intros H. apply sbind_fuel in H. rewrite (IHm fuel' _ _ Hle' H). reflexivity. }
    destruct (Ascii.eqb c "[").
    { destruct (N.leb _ _); [reflexivity|].
      destruct (json.skipSpace r) as [|c' r']; [reflexivity|].
      destruct (Ascii.eqb c' "]"); [reflexivity|].
      intros H. apply sbind_fuel in H. rewrite (IHe fuel' _ _ Hle' H). reflexivity. }
    reflexivity.
  - cbn [json.members].
    destruct (json.skipSpace s) as [|c r]; [reflexivity|].
    destruct (Ascii.eqb c dquote); [|reflexivity].
    destruct (json.scanString json.stateInString r) as [[raw r1]| | |]; try reflexivity.
    cbn [json.sbind].
    destruct (json.unquote raw) as [key|]; [|reflexivity].
    destruct (json.skipSpace r1) as [|c1 r2]; [reflexivity|].
    destruct (Ascii.eqb c1 ":"); [|reflexivity].
    intros H. rewrite (IHv fuel' _ _ Hle' (sbind_fuel _ _ H)).
    destruct (json.value fuel depth r2) as [[v r3]| | |]; try reflexivity.
    cbn [json.sbind] in H |- *.
    destruct (json.skipSpace r3) as [|c3 r4]; [reflexivity|].
    destruct (Ascii.eqb c3 ","); [|reflexivity].
    rewrite (IHm fuel' _ _ Hle' (sbind_fuel _ _ H)). reflexivity.
  - cbn [json.elements].
    intros H. rewrite (IHv fuel' _ _ Hle' (sbind_fuel _ _ H)).
    destruct (json.value fuel depth s) as [[v r1]| | |]; try reflexivity.
    cbn [json.sbind] in H |- *.
    destruct (json.skipSpace r1) as [|c r2]; [reflexivity|].
    destruct (Ascii.eqb c ","); [|reflexivity].
    rewrite (IHe fuel' _ _ Hle' (sbind_fuel _ _ H)). reflexivity.
Qed.

(** What [value] scans with some fuel, it scans with the fuel that
    [checkValid] and [Decode] give it. *)
Lemma value_any_fuel (fuel : nat) (depth : N) (data : string) (a : json.Value * string) :
  json.value fuel depth data = json.Scanned a ->
  forall data', (String.length data <= String.length data')%nat ->
  json.value (json.fuelFor data') depth data = json.Scanned a.
Proof.
  intros H data' Hlen.
  assert (Hbig : json.value (json.fuelFor data') depth data <> json.ScanFuel).
  { apply (proj1 (scan_fuel (json.fuelFor data'))). unfold json.fuelFor. lia. }
  destruct (Nat.le_ge_cases fuel (json.fuelFor data')) as [Hle|Hle].
  - rewrite (proj1 (scan_fuel_le fuel) _ _ _ Hle); [exact H|]. rewrite H. discriminate.
  - rewrite <- H. symmetry. apply (proj1 (scan_fuel_le _) _ _ _ Hle). exact Hbig.
Qed.

(** ** Scanning what the encoder writes *)

Example topicsBody_example : topicsBody ["a"; "b"] = topicsBody_ab.
Proof. reflexivity. Qed.

Example messagesBody_example : messagesBody [mkMessage "hi"] = messagesBody_hi.
Proof. reflexivity. Qed.

Lemma value_appendString (t : string) (fuel : nat) (depth : N) (rest : string) :
  utf8.ValidString t = true ->
  json.value (S fuel) depth (json.appendString t ++ rest) = json.Scanned (json.Str t, rest).
Proof.
  intros Hvalid. unfold json.appendString, quoted.
  change (String dquote (json.escape t ++ String dquote "") ++ rest)
    with (String dquote ((json.escape t ++ String dquote "") ++ rest)).
  rewrite append_assoc.
  change (String dquote "" ++ rest) with (String dquote rest).
  cbn [json.value]. simpl json.skipSpace. simpl Ascii.eqb. cbv iota.
  rewrite scanString_escape. cbn [json.sbind]. rewrite (unquote_escape t Hvalid). reflexivity.
Qed.

Lemma value_messageJson (message : Message) (fuel : nat) (depth : N) (rest : string) :
  utf8.ValidString (Data message) = true -> (depth < json.maxNestingDepth)%N ->
  json.value (S (S (S fuel))) depth (messageJson message ++ rest)
  = json.Scanned (json.Object [("data", json.Str (Data message))], rest).
Proof.
  intros Hvalid Hdepth. unfold messageJson, json.encodeStruct, json.encodeFields.
  rewrite !append_assoc.
  pose proof (value_appendString (Data message) fuel (depth + 1) ("}" ++ rest) Hvalid) as Hdata.
  remember (json.appendString (Data message) ++ "}" ++ rest) as tail eqn:Htail.
  remember (S fuel) as fuel1 eqn:Hfuel1.
  remember (depth + 1)%N as depth1 eqn:Hdepth1.
  cbn [json.value].
  replace (json.maxNestingDepth <=? depth)%N with false by (symmetry; apply N.leb_gt; exact Hdepth).
  rewrite <- Hdepth1. simpl. rewrite Hdata. reflexivity.
Qed.

Section Arrays.

Context {A : Type} (enc : A -> string) (jv : A -> json.Value) (P : A -> Prop)
  (depth : N) (need : nat).

Hypothesis enc_value : forall a, P a -> forall fuel rest, (need <= fuel)%nat ->
  json.value fuel depth (enc a ++ rest) = json.Scanned (jv a, rest).

Hypothesis enc_head : forall a, P a ->
  exists c r, enc a = String c r /\ json.isSpace c = false /\ c <> "]"%char.

Lemma elements_joinComma (items : list A) (fuel : nat) (rest : string) :
  items <> [] -> Forall P items -> (need + List.length items <= fuel)%nat ->
  json.elements fuel depth (joinComma (map enc items) ++ "]" ++ rest)
  = json.Scanned (map jv items, rest).
Proof.
  revert fuel. induction items as [|a items IH]; intros fuel Hne HP Hfuel; [contradiction|].
  apply Forall_cons in HP as [Ha HP].
  destruct fuel as [|fuel]; [simpl in Hfuel; lia|]. simpl in Hfuel.
  cbn [json.elements].
  destruct items as [|b items].
  - simpl joinComma.
    rewrite enc_value by (assumption || lia). cbn [json.sbind].
    reflexivity.
  - change (joinComma (map enc (a :: b :: items)))
      with (enc a ++ "," ++ joinComma (map enc (b :: items))).
    rewrite !append_assoc.
    rewrite enc_value by (assumption || lia). cbn [json.sbind].
    change ("," ++ joinComma (map enc (b :: items)) ++ "]" ++ rest)
      with (String "," (joinComma (map enc (b :: items)) ++ "]" ++ rest)).
    simpl json.skipSpace. simpl Ascii.eqb. cbv iota.
    rewrite IH; [reflexivity | discriminate | exact HP | simpl in *; lia].
Qed.

Lemma value_array (items : list A) (fuel : nat) (outer : N) (rest : string) :
  depth = (outer + 1)%N -> (outer < json.maxNestingDepth)%N ->
  Forall P items -> (need + List.length items < fuel)%nat ->
  json.value fuel outer ("[" ++ joinComma (map enc items) ++ "]" ++ rest)
  = json.Scanned (json.Array (map jv items), rest).
Proof.
  intros Hdepth Houter HP Hfuel.
  destruct fuel as [|fuel]; [lia|].
  destruct items as [|a items].
  - cbn [json.value].
    replace (json.maxNestingDepth <=? outer)%N with false
      by (symmetry; apply N.leb_gt; exact Houter).
    reflexivity.
  - assert (Helem : json.elements fuel depth (joinComma (map enc (a :: items)) ++ "]" ++ rest)
                    = json.Scanned (map jv (a :: items), rest))
      by (apply elements_joinComma; [discriminate | assumption | lia]).
    apply Forall_cons in HP as [Ha HP].
    destruct (enc_head a Ha) as (c & r & Henc & Hspace & Hc).
    assert (Hjoin : exists r', joinComma (map enc (a :: items)) ++ "]" ++ rest = String c r').
    { destruct items; simpl; rewrite Henc; simpl; eauto. }
    destruct Hjoin as [r' Hr'].
    remember (joinComma (map enc (a :: items)) ++ "]" ++ rest) as tail eqn:Htail.
    assert (Hsk : json.skipSpace tail = String c r')
      by (rewrite Hr'; simpl; rewrite Hspace; reflexivity).
    change ("[" ++ tail) with (String "[" tail).
    cbn [json.value].
    replace (json.maxNestingDepth <=? outer)%N with false
      by (symmetry; apply N.leb_gt; exact Houter).
    rewrite <- Hdepth. simpl. rewrite Hsk.
    destruct (Ascii.eqb_spec c "]"); [contradiction|].
    rewrite Helem. reflexivity.
Qed.

End Arrays.

(** ** Decoding an array into a slice that is nil *)

Lemma arrayLoop_fresh {A} (zero : A) (storeElem : json.decoder A) (jv : A -> json.Value)
    (items : list A) :
  (forall a cur, In a items -> storeElem (jv a) cur = (a, None)) ->
  forall arr,
    json.arrayLoop zero storeElem (map jv items) (List.length arr)
      (json.Slice arr (List.length arr)) None
    = (json.Slice (arr ++ items) (List.length arr + List.length items), None).
Proof.
  induction items as [|a items IH]; intros Hstore arr; simpl.
  - rewrite app_nil_r, Nat.add_0_r. reflexivity.
  - rewrite Nat.leb_refl. rewrite Hstore by (left; reflexivity).
    rewrite insert_app_r_alt by lia. rewrite Nat.sub_diag. simpl.
    specialize (IH (fun a' cur HIn => Hstore a' cur (or_intror HIn)) (arr ++ [a])%list).
    rewrite length_app in IH. simpl in IH. rewrite Nat.add_1_r in IH.
    simpl json.saveError. rewrite IH. rewrite <- app_assoc. simpl.
    rewrite Nat.add_succ_r. reflexivity.
Qed.

Lemma storeSlice_fresh {A} (type_ : string) (zero : A) (storeElem : json.decoder A)
    (jv : A -> json.Value) (items : list A) :
  (forall a cur, In a items -> storeElem (jv a) cur = (a, None)) ->
  exists v, json.storeSlice type_ zero storeElem (json.Array (map jv items)) json.nilSlice
            = (v, None) /\ json.elems v = items.
Proof.
  intros Hstore. unfold json.storeSlice, json.nilSlice.
  pose proof (arrayLoop_fresh zero storeElem jv items Hstore []) as Hloop.
  simpl in Hloop. rewrite Hloop. rewrite length_map, Nat.ltb_irrefl.
  destruct items as [|a items]; simpl.
  - exists (json.Slice [] 0). split; reflexivity.
  - eexists. split; [reflexivity|]. unfold json.elems. simpl. rewrite take_ge by lia. reflexivity.
Qed.

(** ** The bodies of the responses, scanned and decoded *)

Lemma checkValid_value (fuel : nat) (data : string) (jv : json.Value) (rest : string) :
  json.value fuel 0%N data = json.Scanned (jv, rest) ->
  json.skipSpace rest = EmptyString ->
  json.checkValid data = json.Scanned jv.
Proof.
  intros Hvalue Hrest. unfold json.checkValid.
  rewrite (value_any_fuel _ _ _ _ Hvalue data) by lia.
  cbn [json.sbind]. rewrite Hrest. reflexivity.
Qed.

Lemma value_strings (topics : list string) (fuel : nat) (rest : string) :
  Forall (fun t => utf8.ValidString t = true) topics ->
  (1 + List.length topics < fuel)%nat ->
  json.value fuel 1%N ("[" ++ joinComma (map json.appendString topics) ++ "]" ++ rest)
  = json.Scanned (json.Array (map json.Str topics), rest).
Proof.
  intros Hvalid Hfuel.
  apply (value_array json.appendString json.Str (fun t => utf8.ValidString t = true) 2%N 1);
    [| | reflexivity | reflexivity | exact Hvalid | lia].
  - intros a Ha [|f] rest' Hf; [lia|]. apply value_appendString. exact Ha.
  - intros a _. exists dquote. eexists. split; [reflexivity|]. split; [reflexivity|discriminate].
Qed.

Lemma value_topicsBody (topics : list string) :
  Forall (fun t => utf8.ValidString t = true) topics ->
  json.value (4 + List.length topics) 0%N (topicsBody topics)
  = json.Scanned (json.Object [("topics", json.Array (map json.Str topics))], EmptyString).
Proof.
  intros Hvalid.
  pose proof (value_strings topics (2 + List.length topics) "}" Hvalid ltac:(lia)) as Harr.
  change (topicsBody topics)
    with ("{" ++ quoted "topics" ++ ":" ++
          ("[" ++ joinComma (map json.appendString topics) ++ "]" ++ "}")).
  remember ("[" ++ joinComma (map json.appendString topics) ++ "]" ++ "}") as tail eqn:Htail.
  change (4 + List.length topics)%nat with (S (S (2 + List.length topics))).
  remember (2 + List.length topics)%nat as fuel eqn:Hfuel.
  cbn [json.value]. simpl. change (0 + 1)%N with 1%N. rewrite Harr. reflexivity.
Qed.

Lemma value_messages (messages : list Message) (fuel : nat) (rest : string) :
  Forall (fun m => utf8.ValidString (Data m) = true) messages ->
  (3 + List.length messages < fuel)%nat ->
  json.value fuel 1%N ("[" ++ joinComma (map messageJson messages) ++ "]" ++ rest)
  = json.Scanned
      (json.Array (map (fun m => json.Object [("data", json.Str (Data m))]) messages), rest).
Proof.
  intros Hvalid Hfuel.
  apply (value_array messageJson (fun m => json.Object [("data", json.Str (Data m))])
           (fun m => utf8.ValidString (Data m) = true) 2%N 3);
    [| | reflexivity | reflexivity | exact Hvalid | lia].
  - intros a Ha [|[|[|f]]] rest' Hf; try lia. apply value_messageJson; [exact Ha | reflexivity].
  - intros a _. exists "{"%char. eexists. split; [reflexivity|]. split; [reflexivity|discriminate].
Qed.

Lemma value_messagesBody (messages : list Message) :
  Forall (fun m => utf8.ValidString (Data m) = true) messages ->
  json.value (6 + List.length messages) 0%N (messagesBody messages)
  = json.Scanned
      (json.Object [("messages",
         json.Array (map (fun m => json.Object [("data", json.Str (Data m))]) messages))],
       EmptyString).
Proof.
  intros Hvalid.
  pose proof (value_messages messages (4 + List.length messages) "}" Hvalid ltac:(lia)) as Harr.
  change (messagesBody messages)
    with ("{" ++ quoted "messages" ++ ":" ++
          ("[" ++ joinComma (map messageJson messages) ++ "]" ++ "}")).
  remember ("[" ++ joinComma (map messageJson messages) ++ "]" ++ "}") as tail eqn:Htail.
  change (6 + List.length messages)%nat with (S (S (4 + List.length messages))).
  remember (4 + List.length messages)%nat as fuel eqn:Hfuel.
  cbn [json.value]. simpl. change (0 + 1)%N with 1%N. rewrite Harr. reflexivity.
Qed.

Lemma value_pullBody (message : Message) :
  utf8.ValidString (Data message) = true ->
  json.value 5 0%N (pullBody message)
  = json.Scanned
      (json.Object [("message", json.Object [("data", json.Str (Data message))])],
       EmptyString).
Proof.
  intros Hvalid.
  pose proof (value_messageJson message 0 1%N "}" Hvalid eq_refl) as Hmsg.
  change (pullBody message)
    with ("{" ++ quoted "message" ++ ":" ++ (messageJson message ++ "}")).
  remember (messageJson message ++ "}") as tail eqn:Htail.
  change 5%nat with (S (S 3)).
  remember 3%nat as fuel eqn:Hfuel.
  cbn [json.value]. simpl. change (0 + 1)%N with 1%N. rewrite Hmsg. reflexivity.
Qed.

(** ** Decoding the bodies *)

Lemma objectInto_app {S} (fields : list (json.field S))
    (kvs1 kvs2 : list (string * json.Value)) (v : S) (saved : option error) :
  json.objectInto fields (kvs1 ++ kvs2) v saved
  = let '(v1, saved1) := json.objectInto fields kvs1 v saved in
    json.objectInto fields kvs2 v1 saved1.
Proof.
  revert v saved. induction kvs1 as [|[key jv] kvs1 IH]; intros v saved; simpl.
  - reflexivity.
  - destruct (json.lookupField fields key) as [f|]; [|apply IH].
    destruct (json.store f jv v) as [v' e]. apply IH.
Qed.

(** The keys that the decoder takes for the one field of a struct. *)
Lemma lookupField_None {S} (name : string) (store : json.decoder S) (key : string) :
  json.foldName key <> json.foldName name ->
  json.lookupField [json.Field name store] key = None.
Proof.
  intros Hne. unfold json.lookupField. cbv [List.find json.name].
  destruct (String.eqb_spec name key) as [<-|_]; [contradiction|].
  destruct (String.eqb_spec (json.foldName name) (json.foldName key)) as [E|_]; [|reflexivity].
  exfalso. apply Hne. symmetry. exact E.
Qed.

Lemma lookupField_Some {S} (name : string) (store : json.decoder S) (key : string) :
  json.foldName key = json.foldName name ->
  json.lookupField [json.Field name store] key = Some (json.Field name store).
Proof.
  intros Heq. unfold json.lookupField. cbv [List.find json.name].
  destruct (String.eqb_spec name key) as [_|_]; [reflexivity|].
  rewrite Heq, String.eqb_refl. reflexivity.
Qed.

(** An object with one member for the field of a struct with one
    field: the other members are passed over. *)
Lemma objectInto_one {S} (name : string) (store : json.decoder S)
    (before after : list (string * json.Value)) (key : string) (jv : json.Value) (v : S) :
  json.foldName key = json.foldName name ->
  (forall key' jv', In (key', jv') (before ++ after) ->
     json.foldName key' <> json.foldName name) ->
  json.objectInto [json.Field name store] (before ++ (key, jv) :: after) v None
  = store jv v.
Proof.
  intros Hkey Hothers.
  rewrite objectInto_app.
  rewrite objectInto_no_field
    by (intros key' jv' HIn; apply lookupField_None; eapply Hothers; apply in_or_app; eauto).
  simpl. rewrite (lookupField_Some name store key Hkey). simpl.
  destruct (store jv v) as [v' e].
  rewrite objectInto_no_field
    by (intros key' jv' HIn; apply lookupField_None; eapply Hothers; apply in_or_app; eauto).
  destruct e; reflexivity.
Qed.

Lemma decodeMessage_data (message cur : Message) :
  decodeMessage (json.Object [("data", json.Str (Data message))]) cur = (message, None).
Proof. destruct message as [data]. reflexivity. Qed.

(** ** ListTopics: the names come back as the body has them *)

Lemma decodeListTopicsResponse_topics (before after : list (string * json.Value))
    (names : list string) :
  (forall key jv, In (key, jv) (before ++ after) -> json.foldName key <> "TOPICS") ->
  exists topics,
    decodeListTopicsResponse
      (json.Object (before ++ ("topics", json.Array (map json.Str names)) :: after))
      zeroListTopicsResponse
    = (mkListTopicsResponse topics, None) /\ json.elems topics = names.
Proof.
  intros Hothers. unfold decodeListTopicsResponse, json.storeStruct.
  rewrite (objectInto_one "topics") by (reflexivity || exact Hothers).
  destruct (storeSlice_fresh "[]string" EmptyString json.storeString json.Str names)
    as (topics & Hstore & Helems); [reflexivity|].
  change (Topics zeroListTopicsResponse) with (@json.nilSlice string).
  rewrite Hstore. eauto.
Qed.

(** C6. Whatever response the GET of {base}/topics brings: when its
    status code is not 200, ListTopics returns an error. When it is 200
    and the body was read, (a) if the body is {"topics":["a","b"]},
    ListTopics returns the sequence "a", "b", in this order, and no error;
    (b) for every sequence of names that are valid UTF-8, if the body is
    the JSON that json.Marshal writes for a ListTopicsResponse holding
    them, ListTopics returns that sequence: the same names, in the same
    order, each as often as it occurs; (c) so it does for every body that
    is a JSON object with a member "topics" whose value is an array of
    strings, next to members that are not taken for that field, whatever
    the white space and the escapes of the text. *)
Theorem ListTopics_status_and_body `{http.Environment}
    (cli : Client) (st st' : http.State) (resp : http.Response) :
  http.Get (BaseURL cli ++ "/topics") st = (Ok resp, st') ->
  (http.StatusCode resp <> 200 -> exists err, ListTopics cli st = (Err err, st')) /\
  (http.StatusCode resp = 200 ->
   (http.ReadAll resp = Ok topicsBody_ab ->
    exists topics, ListTopics cli st = (Ok topics, st') /\ json.elems topics = ["a"; "b"]) /\
   (forall names,
      Forall (fun name => utf8.ValidString name = true) names ->
      http.ReadAll resp = Ok (topicsBody names) ->
      exists topics, ListTopics cli st = (Ok topics, st') /\ json.elems topics = names) /\
   (forall body before after names,
      http.ReadAll resp = Ok body ->
      json.checkValid body
      = json.Scanned (json.Object
          (before ++ ("topics", json.Array (map json.Str names)) :: after)) ->
      (forall key jv, In (key, jv) (before ++ after) -> json.foldName key <> "TOPICS") ->
      exists topics, ListTopics cli st = (Ok topics, st') /\ json.elems topics = names)).
Proof.
  intros HGet.
  assert (Htree : forall body before after names,
    http.StatusCode resp = 200 ->
    http.ReadAll resp = Ok body ->
    json.checkValid body
    = json.Scanned (json.Object
        (before ++ ("topics", json.Array (map json.Str names)) :: after)) ->
    (forall key jv, In (key, jv) (before ++ after) -> json.foldName key <> "TOPICS") ->
    exists topics, ListTopics cli st = (Ok topics, st') /\ json.elems topics = names).
  { intros body before after names Hstatus HRead Hbody Hothers.
    destruct (decodeListTopicsResponse_topics before after names Hothers)
      as (topics & Hdec & Helems).
    exists topics. split; [|exact Helems].
    unfold ListTopics, http.bind. rewrite HGet, HRead, Hstatus.
    unfold http.ret, http.StatusOK, json.Unmarshal. simpl negb. cbv iota.
    rewrite Hbody, Hdec. reflexivity. }
  assert (Htext : forall names,
    http.StatusCode resp = 200 ->
    Forall (fun name => utf8.ValidString name = true) names ->
    http.ReadAll resp = Ok (topicsBody names) ->
    exists topics, ListTopics cli st = (Ok topics, st') /\ json.elems topics = names).
  { intros names Hstatus Hvalid HRead.
    apply (Htree (topicsBody names) [] [] names Hstatus HRead).
    - apply (checkValid_value _ _ _ _ (value_topicsBody names Hvalid)). reflexivity.
    - intros key jv []. }
  split.
  - intros Hne. unfold ListTopics, http.bind. rewrite HGet. unfold http.ret, http.StatusOK.
    destruct (http.ReadAll resp) as [body|err]; [|eauto].
    destruct (Z.eqb_spec (http.StatusCode resp) 200) as [E|_]; [contradiction|].
    simpl. eauto.
  - intros Hstatus. split; [|split].
    + intros HRead. apply (Htext ["a"; "b"] Hstatus); [|exact HRead].
      repeat constructor.
    + intros names. apply Htext. exact Hstatus.
    + intros body before after names. apply Htree. exact Hstatus.
Qed.

Lemma ListTopics_status_and_body_witness :
  @http.Get scripted (BaseURL localhost ++ "/topics")
    (start [reply 200 (topicsBody ["b"; "a"; "b"])])
  = (reply 200 (topicsBody ["b"; "a"; "b"]),
     @http.mkState scripted [] [listRequest localhost]) /\
  Forall (fun name => utf8.ValidString name = true) ["b"; "a"; "b"] /\
  (exists topics,
     @ListTopics scripted localhost (start [reply 200 (topicsBody ["b"; "a"; "b"])])
     = (Ok topics, @http.mkState scripted [] [listRequest localhost]) /\
     json.elems topics = ["b"; "a"; "b"]) /\
  @http.Get scripted (BaseURL localhost ++ "/topics")
    (start [reply 404 (topicsBody ["b"; "a"; "b"])])
  = (reply 404 (topicsBody ["b"; "a"; "b"]),
     @http.mkState scripted [] [listRequest localhost]) /\
  (exists err,
     @ListTopics scripted localhost (start [reply 404 (topicsBody ["b"; "a"; "b"])])
     = (Err err, @http.mkState scripted [] [listRequest localhost])).
Proof.
  assert (HGet : @http.Get scripted (BaseURL localhost ++ "/topics")
                   (start [reply 200 (topicsBody ["b"; "a"; "b"])])
    = (reply 200 (topicsBody ["b"; "a"; "b"]),
       @http.mkState scripted [] [listRequest localhost]))
    by (vm_compute; reflexivity).
  assert (Hvalid : Forall (fun name => utf8.ValidString name = true) ["b"; "a"; "b"])
    by (repeat constructor).
  assert (HGet' : @http.Get scripted (BaseURL localhost ++ "/topics")
                    (start [reply 404 (topicsBody ["b"; "a"; "b"])])
    = (reply 404 (topicsBody ["b"; "a"; "b"]),
       @http.mkState scripted [] [listRequest localhost]))
    by (vm_compute; reflexivity).
  split; [exact HGet|]. split; [exact Hvalid|]. split; [|split; [exact HGet'|]].
  - destruct (@ListTopics_status_and_body scripted localhost _ _ _ HGet) as [_ H200].
    destruct (H200 eq_refl) as (_ & Htext & _).
    apply (Htext ["b"; "a"; "b"] Hvalid). reflexivity.
  - destruct (@ListTopics_status_and_body scripted localhost _ _ _ HGet') as [H404 _].
    apply H404. discriminate.
Defined.

(** ** GetMessages: the request and what comes back *)

Lemma decodeGetMessagesResponse_messages (messages : list Message) :
  exists v,
    decodeGetMessagesResponse
      (json.Object [("messages",
         json.Array (map (fun m => json.Object [("data", json.Str (Data m))]) messages))])
      zeroGetMessagesResponse
    = (mkGetMessagesResponse v, None) /\ json.elems v = messages.
Proof.
  unfold decodeGetMessagesResponse, json.storeStruct.
  match goal with
  | |- context [json.objectInto [json.Field _ ?s] [(_, ?jv)] ?v None] =>
    pose proof (objectInto_one "messages" s [] [] "messages" jv v eq_refl
                  (fun key jv' (HIn : In (key, jv') []) => match HIn with end)) as Hone
  end.
  simpl app in Hone. rewrite Hone. clear Hone.
  destruct (storeSlice_fresh "[]pubsubclient.Message" zeroMessage decodeMessage
              (fun m => json.Object [("data", json.Str (Data m))]) messages)
    as (v & Hstore & Helems); [intros a cur _; apply decodeMessage_data|].
  change (Messages zeroGetMessagesResponse) with (@json.nilSlice Message).
  rewrite Hstore. eauto.
Qed.

(** The decoder of the stream reads the body that [json.Marshal] writes
    for the messages, whether the body ends well or not after it. *)
Lemma Decode_messagesBody (messages : list Message) (readErr : option error) :
  Forall (fun m => utf8.ValidString (Data m) = true) messages ->
  exists v,
    json.Decode decodeGetMessagesResponse (messagesBody messages) readErr
      zeroGetMessagesResponse
    = (mkGetMessagesResponse v, None) /\ json.elems v = messages.
Proof.
  intros Hvalid.
  destruct (decodeGetMessagesResponse_messages messages) as (v & Hdec & Helems).
  exists v. split; [|exact Helems].
  unfold json.Decode.
  rewrite (value_any_fuel _ _ _ _ (value_messagesBody messages Hvalid) (messagesBody messages))
    by lia.
  destruct readErr; simpl json.endsItself; cbv iota; exact Hdec.
Qed.

(** C7 as stated fails: the line feed is a topic name of length 1, and
    with it no request can be built (the URL has a control byte), so
    GetMessages returns "failed to create request: ..." and hands nothing
    to the HTTP client. *)
Lemma GetMessages_counterexample :
  (1 <= String.length lineFeed <= 255)%nat /\
  @GetMessages scripted localhost lineFeed (start [reply 200 messagesBody_hi])
  = (Err (Errorf_v "failed to create request: "
            (url_Error "parse" (BaseURL localhost ++ "/topics/" ++ lineFeed ++ "/messages"))),
     start [reply 200 messagesBody_hi]) /\
  http.sent (start [reply 200 messagesBody_hi]) = [].
Proof. split; [simpl; lia|]. split; vm_compute; reflexivity. Qed.

(** What GetMessages does once the topic is accepted and the request is
    built. *)
Lemma GetMessages_run `{http.Environment} (cli : Client) (topic : string) (st : http.State) :
  (1 <= String.length topic <= 255)%nat ->
  http.url_Parse (BaseURL cli ++ "/topics/" ++ topic ++ "/messages") = true ->
  GetMessages cli topic st
  = (match fst (http.Do (messagesRequest cli topic) st) with
     | Err err => Err (Errorf_v "failed to send request: " err)
     | Ok resp =>
       if negb (http.StatusCode resp =? http.StatusOK)
       then Err (Errorf_d "failed to get messages, status code: " (http.StatusCode resp))
       else
         match json.Decode decodeGetMessagesResponse (http.RespBody resp)
                 (http.RespBodyErr resp) zeroGetMessagesResponse with
         | (getMessagesResponse, None) => Ok (Messages getMessagesResponse)
         | (_, Some err) => Err (Errorf_v "failed to decode response: " err)
         end
     end, snd (http.Do (messagesRequest cli topic) st)).
Proof.
  intros Hlen Hparse. unfold GetMessages, http.bind, http.MethodGet.
  rewrite (Validate_topic_ok topic Hlen), (NewRequest_parse "GET" _ _ eq_refl Hparse).
  fold (messagesRequest cli topic).
  destruct (http.Do (messagesRequest cli topic) st) as [[resp|err] st1];
    unfold http.ret; simpl; [|reflexivity].
  destruct (negb _); [reflexivity|].
  destruct (json.Decode _ _ _ _) as [g [e|]]; reflexivity.
Qed.

(** C7, as amended. For a topic name of length 1 to 255: if the URL
    {base}/topics/{topic}/messages does not parse, no request can be built,
    and GetMessages returns the error "failed to create request: ..."
    around the parser's error, in the state it started in: nothing was
    handed to the HTTP client. If the URL parses, GetMessages hands exactly
    one request to the HTTP client: a GET of that URL whose Content-Type
    header is application/json. An error of the client comes back as
    "failed to send request: ...". A response whose status code is not 200
    gives the error "failed to get messages, status code: " and the code.
    With status code 200, the body {"messages":[{"data":"hi"}]} gives one
    message, whose data is "hi"; and for every sequence of messages whose
    data are valid UTF-8, the body that json.Marshal writes for a
    GetMessagesResponse holding them gives back that sequence. *)
Theorem GetMessages_request_and_result `{http.Environment}
    (cli : Client) (topic : string) (st : http.State) :
  (1 <= String.length topic <= 255)%nat ->
  (http.url_Parse (BaseURL cli ++ "/topics/" ++ topic ++ "/messages") = false ->
   GetMessages cli topic st
   = (Err (Errorf_v "failed to create request: "
             (url_Error "parse" (BaseURL cli ++ "/topics/" ++ topic ++ "/messages"))),
      st)) /\
  (http.url_Parse (BaseURL cli ++ "/topics/" ++ topic ++ "/messages") = true ->
   http.sent (snd (GetMessages cli topic st))
     = (http.sent st ++ [messagesRequest cli topic])%list /\
   http.Method (messagesRequest cli topic) = "GET" /\
   http.URL (messagesRequest cli topic) = BaseURL cli ++ "/topics/" ++ topic ++ "/messages" /\
   http.Header_Get "Content-Type" (http.Hdr (messagesRequest cli topic)) = "application/json" /\
   match fst (http.Do (messagesRequest cli topic) st) with
   | Err err =>
     fst (GetMessages cli topic st) = Err (Errorf_v "failed to send request: " err)
   | Ok resp =>
     (http.StatusCode resp <> 200 ->
      fst (GetMessages cli topic st)
      = Err (Errorf_d "failed to get messages, status code: " (http.StatusCode resp))) /\
     (http.StatusCode resp = 200 ->
      (http.RespBody resp = messagesBody_hi ->
       exists messages, fst (GetMessages cli topic st) = Ok messages /\
         json.elems messages = [mkMessage "hi"]) /\
      (forall messages,
         Forall (fun m => utf8.ValidString (Data m) = true) messages ->
         http.RespBody resp = messagesBody messages ->
         exists v, fst (GetMessages cli topic st) = Ok v /\ json.elems v = messages))
   end).
Proof.
  intros Hlen. split; intros Hparse.
  - unfold GetMessages, http.NewRequest, http.MethodGet.
    rewrite (Validate_topic_ok topic Hlen), Hparse. reflexivity.
  - rewrite (GetMessages_run cli topic st Hlen Hparse).
    pose proof (Do_sent (messagesRequest cli topic) st) as Hd.
    destruct (http.Do (messagesRequest cli topic) st) as [[resp|err] st1]; simpl in Hd |- *.
    + split; [exact Hd|].
      split; [reflexivity|]. split; [reflexivity|]. split; [reflexivity|].
      unfold http.StatusOK.
      assert (Hbody : forall messages,
        http.StatusCode resp = 200 ->
        Forall (fun m => utf8.ValidString (Data m) = true) messages ->
        http.RespBody resp = messagesBody messages ->
        exists v,
          (if negb (http.StatusCode resp =? 200)
           then Err (Errorf_d "failed to get messages, status code: " (http.StatusCode resp))
           else
             match json.Decode decodeGetMessagesResponse (http.RespBody resp)
                     (http.RespBodyErr resp) zeroGetMessagesResponse with
             | (getMessagesResponse, None) => Ok (Messages getMessagesResponse)
             | (_, Some err) => Err (Errorf_v "failed to decode response: " err)
             end) = Ok v /\ json.elems v = messages).
      { intros messages Hstatus Hvalid Hbody. rewrite Hstatus, Hbody. simpl negb. cbv iota.
        destruct (Decode_messagesBody messages (http.RespBodyErr resp) Hvalid)
          as (v & Hdec & Helems).
        rewrite Hdec. exists v. split; [reflexivity | exact Helems]. }
      split.
      * intros Hne.
        destruct (Z.eqb_spec (http.StatusCode resp) 200) as [E|_]; [contradiction|].
        reflexivity.
      * intros Hstatus. split.
        -- intros Hhi. apply (Hbody [mkMessage "hi"] Hstatus); [|exact Hhi].
           repeat constructor.
        -- intros messages. apply Hbody. exact Hstatus.
    + split; [exact Hd|]. repeat split.
Qed.

Lemma GetMessages_request_and_result_witness :
  (1 <= String.length "x" <= 255)%nat /\
  @http.url_Parse scripted (BaseURL localhost ++ "/topics/" ++ "x" ++ "/messages") = true /\
  http.sent (snd (@GetMessages scripted localhost "x"
                    (start [reply 200 (messagesBody [mkMessage "hi"; mkMessage "hi"])])))
  = ([] ++ [messagesRequest localhost "x"])%list /\
  (exists v,
     fst (@GetMessages scripted localhost "x"
            (start [reply 200 (messagesBody [mkMessage "hi"; mkMessage "hi"])])) = Ok v /\
     json.elems v = [mkMessage "hi"; mkMessage "hi"]) /\
  (1 <= String.length lineFeed <= 255)%nat /\
  @http.url_Parse scripted (BaseURL localhost ++ "/topics/" ++ lineFeed ++ "/messages") = false /\
  @GetMessages scripted localhost lineFeed (start [reply 200 messagesBody_hi])
  = (Err (Errorf_v "failed to create request: "
            (url_Error "parse" (BaseURL localhost ++ "/topics/" ++ lineFeed ++ "/messages"))),
     start [reply 200 messagesBody_hi]).
Proof.
  assert (Hlen : (1 <= String.length "x" <= 255)%nat) by (simpl; lia).
  assert (Hparse : @http.url_Parse scripted (BaseURL localhost ++ "/topics/" ++ "x" ++ "/messages")
                   = true) by reflexivity.
  assert (Hlen' : (1 <= String.length lineFeed <= 255)%nat) by (simpl; lia).
  assert (Hparse' : @http.url_Parse scripted
                      (BaseURL localhost ++ "/topics/" ++ lineFeed ++ "/messages")
                    = false) by reflexivity.
  pose proof (proj2 (@GetMessages_request_and_result scripted localhost "x"
                       (start [reply 200 (messagesBody [mkMessage "hi"; mkMessage "hi"])]) Hlen)
                Hparse) as (Hsent & _ & _ & _ & Hresult).
  split; [exact Hlen|]. split; [exact Hparse|]. split; [exact Hsent|].
  split.
  { change (fst (http.Do (messagesRequest localhost "x")
                   (start [reply 200 (messagesBody [mkMessage "hi"; mkMessage "hi"])])))
      with (reply 200 (messagesBody [mkMessage "hi"; mkMessage "hi"])) in Hresult.
    destruct Hresult as [_ H200]. destruct (H200 eq_refl) as [_ Hbody].
    apply Hbody; [repeat constructor | reflexivity]. }
  split; [exact Hlen'|]. split; [exact Hparse'|].
  exact (proj1 (@GetMessages_request_and_result scripted localhost lineFeed
                  (start [reply 200 messagesBody_hi]) Hlen') Hparse').
Defined.

(** ** PullMessage: bodies that are not a PullResponse *)

(** C10 as stated fails: a body can be valid JSON without a "message"
    key and give an error (the array []), or give a message that is not
    empty (the key "MESSAGE" is taken for the field). Both under status
    500. *)
Lemma PullMessage_without_message_counterexample :
  json.checkValid "[]" = json.Scanned (json.Array []) /\
  fst (@PullMessage scripted localhost "s" (start [reply 500 "[]"]))
    = Err (UnmarshalTypeError "array" "pubsubclient.PullResponse") /\
  json.checkValid upperCaseBody
    = json.Scanned (json.Object [("MESSAGE", json.Object [("data", json.Str "x")])]) /\
  fst (@PullMessage scripted localhost "s" (start [reply 500 upperCaseBody]))
    = Ok (mkMessage "x").
Proof. repeat split; vm_compute; reflexivity. Qed.

(** C10, as amended. Whatever the status code of the response to the
    pull, once the body was read and is valid JSON: if it is null or an
    object none of whose keys is "message" up to case folding (the empty
    object is one), PullMessage returns the zero Message, whose data is the
    empty string, and no error; if it is an array, a string, a number or a
    boolean, PullMessage returns the decoder's type error for that kind of
    value; and if it is an object with one key that is "message" up to
    case folding, such as "MESSAGE", the value of that key is decoded as
    the message. *)
Theorem PullMessage_without_message `{http.Environment}
    (cli : Client) (subscriptionName : string) (st st' : http.State)
    (resp : http.Response) (body : string) :
  http.Get (pullURL cli subscriptionName) st = (Ok resp, st') ->
  http.ReadAll resp = Ok body ->
  ((json.checkValid body = json.Scanned json.Null \/
    exists kvs, json.checkValid body = json.Scanned (json.Object kvs) /\
      forall key jv, In (key, jv) kvs -> json.foldName key <> "MESSAGE") ->
   PullMessage cli subscriptionName st = (Ok (mkMessage EmptyString), st')) /\
  (forall vals, json.checkValid body = json.Scanned (json.Array vals) ->
   PullMessage cli subscriptionName st
   = (Err (UnmarshalTypeError "array" "pubsubclient.PullResponse"), st')) /\
  (forall s, json.checkValid body = json.Scanned (json.Str s) ->
   PullMessage cli subscriptionName st
   = (Err (UnmarshalTypeError "string" "pubsubclient.PullResponse"), st')) /\
  (forall lit, json.checkValid body = json.Scanned (json.Number lit) ->
   PullMessage cli subscriptionName st
   = (Err (UnmarshalTypeError "number" "pubsubclient.PullResponse"), st')) /\
  (forall b, json.checkValid body = json.Scanned (json.Bool b) ->
   PullMessage cli subscriptionName st
   = (Err (UnmarshalTypeError "bool" "pubsubclient.PullResponse"), st')) /\
  (forall before after key jv,
     json.checkValid body = json.Scanned (json.Object (before ++ (key, jv) :: after)) ->
     json.foldName key = "MESSAGE" ->
     (forall key' jv', In (key', jv') (before ++ after) -> json.foldName key' <> "MESSAGE") ->
     PullMessage cli subscriptionName st
     = (match decodeMessage jv zeroMessage with
        | (message, None) => Ok message
        | (_, Some err) => Err err
        end, st')).
Proof.
  intros HGet HRead.
  assert (Hrun : PullMessage cli subscriptionName st
    = (let '(pullResponse, err) := json.Unmarshal decodePullResponse body zeroPullResponse in
       match err with
       | Some err => Err err
       | None => Ok (Message_ pullResponse)
       end, st')).
  { unfold PullMessage, http.bind. fold (pullURL cli subscriptionName).
    rewrite HGet, HRead. unfold http.ret.
    destruct (json.Unmarshal _ _ _) as [p [e|]]; reflexivity. }
  rewrite Hrun. unfold json.Unmarshal.
  split; [|split; [|split; [|split; [|split]]]].
  - intros [-> | [kvs [-> Hkeys]]].
    + reflexivity.
    + unfold decodePullResponse, json.storeStruct.
      rewrite objectInto_no_field; [reflexivity|].
      intros key jv HIn. apply lookupField_message_None. eauto.
  - intros vals ->. reflexivity.
  - intros s ->. reflexivity.
  - intros lit ->. reflexivity.
  - intros b ->. reflexivity.
  - intros before after key jv -> Hkey Hothers.
    unfold decodePullResponse, json.storeStruct.
    rewrite (objectInto_one "message") by (exact Hkey || exact Hothers).
    change (Message_ zeroPullResponse) with zeroMessage.
    destruct (decodeMessage jv zeroMessage) as [m [e|]]; reflexivity.
Qed.

Lemma PullMessage_without_message_witness :
  json.checkValid ("{" ++ quoted "other" ++ ":1}")
  = json.Scanned (json.Object [("other", json.Number "1")]) /\
  json.foldName "other" <> "MESSAGE" /\
  @PullMessage scripted localhost "s" (start [reply 500 ("{" ++ quoted "other" ++ ":1}")])
  = (Ok (mkMessage EmptyString),
     @http.mkState scripted [] [http.mkRequest "GET" (pullURL localhost "s") ∅ None]) /\
  json.checkValid "7" = json.Scanned (json.Number "7") /\
  @PullMessage scripted localhost "s" (start [reply 500 "7"])
  = (Err (UnmarshalTypeError "number" "pubsubclient.PullResponse"),
     @http.mkState scripted [] [http.mkRequest "GET" (pullURL localhost "s") ∅ None]) /\
  json.checkValid ("{" ++ quoted "other" ++ ":1," ++ quoted "Message" ++ ":{"
                       ++ quoted "data" ++ ":" ++ quoted "x" ++ "}}")
  = json.Scanned (json.Object ([("other", json.Number "1")]
      ++ ("Message", json.Object [("data", json.Str "x")]) :: [])) /\
  json.foldName "Message" = "MESSAGE" /\
  @PullMessage scripted localhost "s"
    (start [reply 500 ("{" ++ quoted "other" ++ ":1," ++ quoted "Message" ++ ":{"
                           ++ quoted "data" ++ ":" ++ quoted "x" ++ "}}")])
  = (Ok (mkMessage "x"),
     @http.mkState scripted [] [http.mkRequest "GET" (pullURL localhost "s") ∅ None]).
Proof.
  assert (HGet : forall body,
    @http.Get scripted (pullURL localhost "s") (start [reply 500 body])
    = (reply 500 body,
       @http.mkState scripted [] [http.mkRequest "GET" (pullURL localhost "s") ∅ None]))
    by (intros body; reflexivity).
  assert (Hother : json.foldName "other" <> "MESSAGE") by (vm_compute; discriminate).
  assert (Hothers : forall key jv,
            In (key, jv) [("other", json.Number "1")] -> json.foldName key <> "MESSAGE")
    by (intros key jv [[= <- <-]|[]]; exact Hother).
  split; [reflexivity|]. split; [exact Hother|]. split; [|split; [reflexivity|split]].
  - apply (proj1 (@PullMessage_without_message scripted localhost "s" _ _ _ _
                    (HGet _) eq_refl)).
    right. exists [("other", json.Number "1")]. split; [reflexivity | exact Hothers].
  - apply (proj1 (proj2 (proj2 (proj2
             (@PullMessage_without_message scripted localhost "s" _ _ _ _
                (HGet _) eq_refl)))) "7").
    reflexivity.
  - split; [reflexivity|]. split; [reflexivity|].
    apply (proj2 (proj2 (proj2 (proj2 (proj2
             (@PullMessage_without_message scripted localhost "s" _ _ _ _
                (HGet _) eq_refl)))))
             [("other", json.Number "1")] [] "Message" (json.Object [("data", json.Str "x")])).
    + reflexivity.
    + reflexivity.
    + exact Hothers.
Defined.

(** ** What follows a value does not change how it is scanned *)

Lemma skipSpace_app (s x : string) (c : ascii) (r : string) :
  json.skipSpace s = String c r -> json.skipSpace (s ++ x) = String c (r ++ x).
Proof.
  induction s as [|a s IH]; simpl; [discriminate|].
  destruct (json.isSpace a); [exact IH|]. intros [= -> ->]. reflexivity.
Qed.

Lemma skipSpace_app_nil (s x : string) :
  json.skipSpace s = EmptyString -> json.skipSpace (s ++ x) = json.skipSpace x.
Proof.
  induction s as [|a s IH]; simpl; [reflexivity|].
  destruct (json.isSpace a); [exact IH | discriminate].
Qed.

Lemma scanString_app (st : json.stringState) (s x raw r : string) :
  json.scanString st s = json.Scanned (raw, r) ->
  json.scanString st (s ++ x) = json.Scanned (raw, r ++ x).
Proof.
  revert st raw. induction s as [|c s IH]; intros st raw; [discriminate|].
  destruct st; simpl;
    repeat match goal with
    | |- context [if ?b then _ else _] => destruct b
    end; try discriminate;
    try (intros [= <- <-]; reflexivity);
    intros H; apply consumed_Scanned in H as (lit' & -> & H);
    rewrite (IH _ _ H); reflexivity.
Qed.

Lemma scanNumber_app (st : json.numberState) (s x lit r : string) :
  json.scanNumber st s = json.Scanned (lit, r) -> r <> EmptyString ->
  json.scanNumber st (s ++ x) = json.Scanned (lit, r ++ x).
Proof.
  revert st lit. induction s as [|c s IH]; intros st lit.
  - destruct st; simpl; try discriminate; intros [= <- <-] Hr; contradiction.
  - destruct st; simpl;
      repeat match goal with
      | |- context [if ?b then _ else _] => destruct b
      end; try discriminate;
      try (intros [= <- <-] _; reflexivity);
      intros H Hr; apply consumed_Scanned in H as (lit' & -> & H);
      rewrite (IH _ _ H Hr); reflexivity.
Qed.

Lemma scanLiteral_app (lit s x r : string) :
  json.scanLiteral lit s = json.Scanned r ->
  json.scanLiteral lit (s ++ x) = json.Scanned (r ++ x).
Proof.
  revert s. induction lit as [|l lit IH]; intros s; simpl.
  - intros [= <-]. reflexivity.
  - destruct s as [|c s]; [discriminate|]. simpl.
    destruct (Ascii.eqb c l); [apply IH | discriminate].
Qed.

Lemma sbind_inv {A B} (m : json.scanres A) (k : A -> json.scanres B) (b : B) :
  json.sbind m k = json.Scanned b -> exists a, m = json.Scanned a /\ k a = json.Scanned b.
Proof. destruct m as [a| | |]; simpl; try discriminate. eauto. Qed.

(** A number ends where a byte shows that cannot continue it; every
    other value ends with a byte of its own. *)
Lemma scan_app (fuel : nat) (x : string) :
  (forall depth s v r, json.value fuel depth s = json.Scanned (v, r) ->
     (r = EmptyString -> forall lit, v <> json.Number lit) ->
     json.value fuel depth (s ++ x) = json.Scanned (v, r ++ x)) /\
  (forall depth s kvs r, json.members fuel depth s = json.Scanned (kvs, r) ->
     json.members fuel depth (s ++ x) = json.Scanned (kvs, r ++ x)) /\
  (forall depth s vs r, json.elements fuel depth s = json.Scanned (vs, r) ->
     json.elements fuel depth (s ++ x) = json.Scanned (vs, r ++ x)).
Proof.
  induction fuel as [|fuel (IHv & IHm & IHe)].
  { repeat split; intros; discriminate. }
  split; [|split]; intros depth s.
  - intros v r. cbn [json.value].
    destruct (json.skipSpace s) as [|c s1] eqn:Hs; [discriminate|].
    rewrite (skipSpace_app _ x _ _ Hs).
    destruct (Ascii.eqb c "{").
    { destruct (N.leb _ _); [discriminate|].
      destruct (json.skipSpace s1) as [|c' s2] eqn:Hs1; [discriminate|].
      rewrite (skipSpace_app _ x _ _ Hs1).
      destruct (Ascii.eqb c' "}"); [intros [= <- <-] _; reflexivity|].
      intros H _. apply sbind_inv in H as ([kvs rest] & Hm & [= <- <-]).
      rewrite (IHm _ _ _ _ Hm). reflexivity. }
    destruct (Ascii.eqb c "[").
    { destruct (N.leb _ _); [discriminate|].
      destruct (json.skipSpace s1) as [|c' s2] eqn:Hs1; [discriminate|].
      rewrite (skipSpace_app _ x _ _ Hs1).
      destruct (Ascii.eqb c' "]"); [intros [= <- <-] _; reflexivity|].
      intros H _. apply sbind_inv in H as ([vs rest] & Hm & [= <- <-]).
      rewrite (IHe _ _ _ _ Hm). reflexivity. }
    destruct (Ascii.eqb c dquote).
    { intros H _. apply sbind_inv in H as ([raw rest] & Hm & Hk).
      rewrite (scanString_app _ _ x _ _ Hm). cbn [json.sbind].
      destruct (json.unquote raw); [|discriminate].
      injection Hk as <- <-. reflexivity. }
    assert (Hnum : forall st,
      json.sbind (json.scanNumber st s1)
        (fun '(lit, rest) => json.Scanned (json.Number (String c lit), rest))
      = json.Scanned (v, r) ->
      (r = EmptyString -> forall lit, v <> json.Number lit) ->
      json.sbind (json.scanNumber st (s1 ++ x))
        (fun '(lit, rest) => json.Scanned (json.Number (String c lit), rest))
      = json.Scanned (v, r ++ x)).
    { intros st H Hr. apply sbind_inv in H as ([lit rest] & Hm & [= <- <-]).
      rewrite (scanNumber_app _ _ x _ _ Hm); [reflexivity|].
      intros ->. exact (Hr eq_refl _ eq_refl). }
    assert (Hlit : forall l (w : json.Value),
      json.sbind (json.scanLiteral l s1) (fun rest => json.Scanned (w, rest))
      = json.Scanned (v, r) ->
      json.sbind (json.scanLiteral l (s1 ++ x)) (fun rest => json.Scanned (w, rest))
      = json.Scanned (v, r ++ x)).
    { intros l w H. apply sbind_inv in H as (rest & Hm & [= <- <-]).
      rewrite (scanLiteral_app _ _ x _ Hm). reflexivity. }
    repeat match goal with
    | |- context [if ?b then _ else _] => destruct b
    end; auto; discriminate.
  - intros kvs r. cbn [json.members].
    destruct (json.skipSpace s) as [|c s1] eqn:Hs; [discriminate|].
    rewrite (skipSpace_app _ x _ _ Hs).
    destruct (Ascii.eqb c dquote); [|discriminate].
    intros H. apply sbind_inv in H as ([raw r1] & Hm & Hk).
    rewrite (scanString_app _ _ x _ _ Hm). cbn [json.sbind].
    destruct (json.unquote raw) as [key|]; [|discriminate].
    destruct (json.skipSpace r1) as [|c1 r2] eqn:Hr1; [discriminate|].
    rewrite (skipSpace_app _ x _ _ Hr1).
    destruct (Ascii.eqb c1 ":"); [|discriminate].
    apply sbind_inv in Hk as ([v r3] & Hv & Hk).
    destruct (json.skipSpace r3) as [|c3 r4] eqn:Hr3; [discriminate|].
    rewrite (IHv _ _ _ _ Hv) by (intros ->; discriminate Hr3).
    cbn [json.sbind]. rewrite (skipSpace_app _ x _ _ Hr3).
    destruct (Ascii.eqb c3 ",").
    { apply sbind_inv in Hk as ([kvs' r5] & Hm' & [= <- <-]).
      rewrite (IHm _ _ _ _ Hm'). reflexivity. }
    destruct (Ascii.eqb c3 "}"); [|discriminate].
    injection Hk as <- <-. reflexivity.
  - intros vs r. cbn [json.elements].
    intros H. apply sbind_inv in H as ([v r1] & Hv & Hk).
    destruct (json.skipSpace r1) as [|c r2] eqn:Hr1; [discriminate|].
    rewrite (IHv _ _ _ _ Hv) by (intros ->; discriminate Hr1).
    cbn [json.sbind]. rewrite (skipSpace_app _ x _ _ Hr1).
    destruct (Ascii.eqb c ",").
    { apply sbind_inv in Hk as ([vs' r3] & Hm' & [= <- <-]).
      rewrite (IHe _ _ _ _ Hm'). reflexivity. }
    destruct (Ascii.eqb c "]"); [|discriminate].
    injection Hk as <- <-. reflexivity.
Qed.

(** ** CreateSubscription *)

(** The result of an operation that wants the status code 201. *)
Lemma created_or_error (prefix : string) (code : Z) :
  (((if negb (code =? http.StatusCreated) then Some (Errorf_d prefix code) else None) = None
    <-> code = 201) /\
   (code <> 201 ->
    exists err,
      (if negb (code =? http.StatusCreated) then Some (Errorf_d prefix code) else None)
      = Some err /\
      Error_ err = Some (prefix ++ itoa code))).
Proof.
  unfold http.StatusCreated.
  destruct (Z.eqb_spec code 201) as [E|NE]; simpl.
  - split; [tauto|]. intros; contradiction.
  - split; [split; [discriminate | contradiction]|].
    intros _. eexists. split; reflexivity.
Qed.

(** X1. When the URL {base}/topics/{topicName}/subscriptions parses,
    CreateSubscription hands exactly one request to the HTTP client: the
    POST to that URL whose Content-Type is application/json and whose body
    is {"name":...,"type":...} with the two fields of the subscription as
    JSON strings; the topic name is not validated. An error of the client
    is returned as it is. On a response, the result is nil exactly when the
    status code is 201; for any other code it is the error "error creating
    subscription: expected status code 201, got " followed by the code. *)
Theorem CreateSubscription_request_and_status `{http.Environment}
    (cli : Client) (topicName : string) (subscription : Subscription) (st : http.State) :
  http.url_Parse (BaseURL cli ++ "/topics/" ++ topicName ++ "/subscriptions") = true ->
  exists body,
    Marshal_Subscription subscription = Ok body /\
    body = "{" ++ quoted "name" ++ ":" ++ json.appendString (SubName subscription) ++ ","
               ++ quoted "type" ++ ":" ++ json.appendString (SubType subscription) ++ "}" /\
    http.sent (snd (CreateSubscription cli topicName subscription st))
    = (http.sent st ++ [subscriptionRequest cli topicName body])%list /\
    http.Method (subscriptionRequest cli topicName body) = "POST" /\
    http.Header_Get "Content-Type" (http.Hdr (subscriptionRequest cli topicName body))
    = "application/json" /\
    http.Body (subscriptionRequest cli topicName body) = Some body /\
    match fst (http.Do (subscriptionRequest cli topicName body) st) with
    | Err err => fst (CreateSubscription cli topicName subscription st) = Some err
    | Ok resp =>
      (fst (CreateSubscription cli topicName subscription st) = None
       <-> http.StatusCode resp = 201) /\
      (http.StatusCode resp <> 201 ->
       exists err, fst (CreateSubscription cli topicName subscription st) = Some err /\
         Error_ err = Some ("error creating subscription: expected status code 201, got "
                            ++ itoa (http.StatusCode resp)))
    end.
Proof.
  intros Hparse. eexists. split; [reflexivity|].
  split; [unfold json.encodeStruct, json.encodeFields; rewrite !append_assoc; reflexivity|].
  unfold CreateSubscription, Marshal_Subscription, http.bind, http.Post.
  rewrite (NewRequest_parse "POST" _ _ eq_refl Hparse).
  match goal with
  | |- context [http.Do ?r st] =>
    change r with (subscriptionRequest cli topicName
      (json.encodeStruct [("name", json.appendString (SubName subscription));
                          ("type", json.appendString (SubType subscription))]))
  end.
  set (req := subscriptionRequest cli topicName _).
  pose proof (Do_sent req st) as Hd.
  destruct (http.Do req st) as [[resp|err] st1]; simpl in Hd; unfold http.ret.
  - split; [destruct (negb _); exact Hd|].
    split; [reflexivity|]. split; [reflexivity|]. split; [reflexivity|].
    simpl fst at 1.
    pose proof (created_or_error
                  "error creating subscription: expected status code 201, got "
                  (http.StatusCode resp)) as [Hiff Herr].
    destruct (negb (http.StatusCode resp =? http.StatusCreated)); exact (conj Hiff Herr).
  - split; [exact Hd|]. repeat split.
Qed.

Lemma CreateSubscription_request_and_status_witness :
  @http.url_Parse scripted (BaseURL localhost ++ "/topics/" ++ "t" ++ "/subscriptions") = true /\
  http.sent (snd (@CreateSubscription scripted localhost "t" (mkSubscription "s" "pull")
                    (start [reply 409 ""])))
  = [subscriptionRequest localhost "t"
       ("{" ++ quoted "name" ++ ":" ++ quoted "s" ++ "," ++ quoted "type" ++ ":"
            ++ quoted "pull" ++ "}")] /\
  exists err,
    fst (@CreateSubscription scripted localhost "t" (mkSubscription "s" "pull")
           (start [reply 409 ""])) = Some err /\
    Error_ err = Some "error creating subscription: expected status code 201, got 409".
Proof.
  assert (Hparse : @http.url_Parse scripted
                     (BaseURL localhost ++ "/topics/" ++ "t" ++ "/subscriptions") = true)
    by reflexivity.
  split; [exact Hparse|].
  destruct (@CreateSubscription_request_and_status scripted localhost "t"
              (mkSubscription "s" "pull") (start [reply 409 ""]) Hparse)
    as (body & _ & Hbody & Hsent & _ & _ & _ & Hresult).
  rewrite Hbody in Hsent, Hresult. split; [exact Hsent|].
  apply (proj2 Hresult). discriminate.
Defined.

(** ** PublishMessage: the status code *)

(** What PublishMessage does once the request is built. *)
Lemma PublishMessage_run `{http.Environment} (cli : Client) (topicName : string)
    (message : Message) (headers : list (string * string)) (st : http.State) :
  http.url_Parse (publishURL cli topicName) = true ->
  PublishMessage cli topicName message headers st
  = (match fst (http.Do (publishRequest cli topicName message headers) st) with
     | Err err => Some err
     | Ok resp =>
       if negb (http.StatusCode resp =? http.StatusCreated)
       then Some (Errorf_d "error publishing message: expected status code 201, got "
                    (http.StatusCode resp))
       else None
     end, snd (http.Do (publishRequest cli topicName message headers) st)).
Proof.
  intros Hparse. unfold PublishMessage, Marshal_Message, http.bind.
  fold (publishURL cli topicName).
  rewrite (NewRequest_parse "POST" _ _ eq_refl Hparse).
  fold (publishRequest cli topicName message headers).
  destruct (http.Do (publishRequest cli topicName message headers) st) as [[resp|err] st1];
    unfold http.ret; simpl; [|reflexivity].
  destruct (negb _); reflexivity.
Qed.

Lemma PublishMessage_plain_run `{http.Environment} (cli : Client) (topicName : string)
    (message : Message) (st : http.State) :
  http.url_Parse (publishURL cli topicName) = true ->
  PublishMessage_plain cli topicName message st
  = (match fst (http.Do (publishRequest_plain cli topicName message) st) with
     | Err err => Some err
     | Ok resp =>
       if negb (http.StatusCode resp =? http.StatusCreated)
       then Some (Errorf_d "error publishing message: expected status code 201, got "
                    (http.StatusCode resp))
       else None
     end, snd (http.Do (publishRequest_plain cli topicName message) st)).
Proof.
  intros Hparse. unfold PublishMessage_plain, Marshal_Message, http.bind, http.Post.
  fold (publishURL cli topicName).
  rewrite (NewRequest_parse "POST" _ _ eq_refl Hparse).
  fold (messageJson message). fold (publishRequest_plain cli topicName message).
  destruct (http.Do (publishRequest_plain cli topicName message) st) as [[resp|err] st1];
    unfold http.ret; simpl; [|reflexivity].
  destruct (negb _); reflexivity.
Qed.

(** X2. When the request of the header-carrying PublishMessage can be
    built: an error of the HTTP client is returned as it is; on a
    response, the result is nil exactly when the status code is 201, and
    for any other code it is the error "error publishing message: expected
    status code 201, got " followed by the code. *)
Theorem PublishMessage_status `{http.Environment}
    (cli : Client) (topicName : string) (message : Message)
    (headers : list (string * string)) (st : http.State) :
  http.url_Parse (publishURL cli topicName) = true ->
  snd (PublishMessage cli topicName message headers st)
  = snd (http.Do (publishRequest cli topicName message headers) st) /\
  match fst (http.Do (publishRequest cli topicName message headers) st) with
  | Err err => fst (PublishMessage cli topicName message headers st) = Some err
  | Ok resp =>
    (fst (PublishMessage cli topicName message headers st) = None
     <-> http.StatusCode resp = 201) /\
    (http.StatusCode resp <> 201 ->
     exists err, fst (PublishMessage cli topicName message headers st) = Some err /\
       Error_ err = Some ("error publishing message: expected status code 201, got "
                          ++ itoa (http.StatusCode resp)))
  end.
Proof.
  intros Hparse. rewrite (PublishMessage_run cli topicName message headers st Hparse).
  split; [reflexivity|].
  destruct (fst (http.Do (publishRequest cli topicName message headers) st)) as [resp|err];
    [|reflexivity].
  exact (created_or_error "error publishing message: expected status code 201, got "
           (http.StatusCode resp)).
Qed.

Lemma PublishMessage_status_witness :
  @http.url_Parse scripted (publishURL localhost "t") = true /\
  fst (@PublishMessage scripted localhost "t" (mkMessage "m") [("X-Trace", "1")]
         (start [reply 201 "ignored"])) = None /\
  exists err,
    fst (@PublishMessage scripted localhost "t" (mkMessage "m") [("X-Trace", "1")]
           (start [reply 200 "ignored"])) = Some err /\
    Error_ err = Some "error publishing message: expected status code 201, got 200".
Proof.
  assert (Hparse : @http.url_Parse scripted (publishURL localhost "t") = true) by reflexivity.
  split; [exact Hparse|]. split.
  - apply (proj1 (proj2 (@PublishMessage_status scripted localhost "t" (mkMessage "m")
                           [("X-Trace", "1")] (start [reply 201 "ignored"]) Hparse))).
    reflexivity.
  - apply (proj2 (proj2 (@PublishMessage_status scripted localhost "t" (mkMessage "m")
                           [("X-Trace", "1")] (start [reply 200 "ignored"]) Hparse))).
    discriminate.
Defined.

(** ** PublishMessage: the Content-Type header in the two files *)

Lemma PublishMessage_sent `{http.Environment} (cli : Client) (topicName : string)
    (message : Message) (headers : list (string * string)) (st : http.State) :
  http.url_Parse (publishURL cli topicName) = true ->
  http.sent (snd (PublishMessage cli topicName message headers st))
  = (http.sent st ++ [publishRequest cli topicName message headers])%list.
Proof.
  intros Hparse. rewrite (PublishMessage_run cli topicName message headers st Hparse).
  apply Do_sent.
Qed.

(** X3. The PublishMessage of the first file, which builds its request
    with http.NewRequest, sets no Content-Type of its own: when the request
    can be built and no key of the header map has the canonical form
    Content-Type, the request handed to the HTTP client has no Content-Type
    header; with an empty map it has no header at all. *)
Theorem PublishMessage_no_content_type `{http.Environment}
    (cli : Client) (topicName : string) (message : Message)
    (headers : list (string * string)) (st : http.State) :
  http.url_Parse (publishURL cli topicName) = true ->
  (forall key value, In (key, value) headers ->
     http.CanonicalMIMEHeaderKey key <> "Content-Type") ->
  http.sent (snd (PublishMessage cli topicName message headers st))
  = (http.sent st ++ [publishRequest cli topicName message headers])%list /\
  http.Hdr (publishRequest cli topicName message headers) !! "Content-Type" = None /\
  http.Header_Get "Content-Type" (http.Hdr (publishRequest cli topicName message headers))
  = EmptyString /\
  (headers = [] -> http.Hdr (publishRequest cli topicName message headers) = ∅).
Proof.
  intros Hparse Hkeys.
  split; [apply PublishMessage_sent; exact Hparse|].
  assert (Hnone : http.Hdr (publishRequest cli topicName message headers) !! "Content-Type"
                  = None).
  { unfold publishRequest. rewrite setHeaders_other by exact Hkeys. apply lookup_empty. }
  split; [exact Hnone|]. split.
  - unfold http.Header_Get.
    change (http.CanonicalMIMEHeaderKey "Content-Type") with "Content-Type".
    rewrite Hnone. reflexivity.
  - intros ->. reflexivity.
Qed.

Lemma PublishMessage_no_content_type_witness :
  @http.url_Parse scripted (publishURL localhost "t") = true /\
  (forall key value, In (key, value) [("x-trace", "1")] ->
     http.CanonicalMIMEHeaderKey key <> "Content-Type") /\
  http.sent (snd (@PublishMessage scripted localhost "t" (mkMessage "m") [("x-trace", "1")]
                    (start [reply 201 ""])))
  = ([] ++ [publishRequest localhost "t" (mkMessage "m") [("x-trace", "1")]])%list /\
  http.Header_Get "Content-Type"
    (http.Hdr (publishRequest localhost "t" (mkMessage "m") [("x-trace", "1")]))
  = EmptyString.
Proof.
  assert (Hparse : @http.url_Parse scripted (publishURL localhost "t") = true) by reflexivity.
  assert (Hkeys : forall key value, In (key, value) [("x-trace", "1")] ->
                    http.CanonicalMIMEHeaderKey key <> "Content-Type")
    by (intros key value [[= <- <-]|[]]; vm_compute; discriminate).
  split; [exact Hparse|]. split; [exact Hkeys|].
  destruct (@PublishMessage_no_content_type scripted localhost "t" (mkMessage "m")
              [("x-trace", "1")] (start [reply 201 ""]) Hparse Hkeys)
    as (Hsent & _ & Hget & _).
  split; [exact Hsent | exact Hget].
Defined.

(** X4. The PublishMessage of the second file, which goes through Post:
    when the URL {base}/topics/{topicName}/publish parses, it hands exactly
    one request to the HTTP client, the POST to that URL with the JSON of
    the message as its body and the Content-Type application/json; the
    result is that of the first file's function: the client's error as it
    is, nil exactly for the status code 201, and the error "error
    publishing message: expected status code 201, got " with the code
    otherwise. *)
Theorem PublishMessage_plain_request_and_status `{http.Environment}
    (cli : Client) (topicName : string) (message : Message) (st : http.State) :
  http.url_Parse (publishURL cli topicName) = true ->
  http.sent (snd (PublishMessage_plain cli topicName message st))
  = (http.sent st ++ [publishRequest_plain cli topicName message])%list /\
  http.Method (publishRequest_plain cli topicName message) = "POST" /\
  http.URL (publishRequest_plain cli topicName message)
  = BaseURL cli ++ "/topics/" ++ topicName ++ "/publish" /\
  http.Header_Get "Content-Type" (http.Hdr (publishRequest_plain cli topicName message))
  = "application/json" /\
  Marshal_Message message = Ok (messageJson message) /\
  http.Body (publishRequest_plain cli topicName message) = Some (messageJson message) /\
  match fst (http.Do (publishRequest_plain cli topicName message) st) with
  | Err err => fst (PublishMessage_plain cli topicName message st) = Some err
  | Ok resp =>
    (fst (PublishMessage_plain cli topicName message st) = None
     <-> http.StatusCode resp = 201) /\
    (http.StatusCode resp <> 201 ->
     exists err, fst (PublishMessage_plain cli topicName message st) = Some err /\
       Error_ err = Some ("error publishing message: expected status code 201, got "
                          ++ itoa (http.StatusCode resp)))
  end.
Proof.
  intros Hparse. rewrite (PublishMessage_plain_run cli topicName message st Hparse).
  split; [apply Do_sent|].
  split; [reflexivity|]. split; [reflexivity|]. split; [reflexivity|].
  split; [reflexivity|]. split; [reflexivity|].
  destruct (fst (http.Do (publishRequest_plain cli topicName message) st)) as [resp|err];
    [|reflexivity].
  exact (created_or_error "error publishing message: expected status code 201, got "
           (http.StatusCode resp)).
Qed.

Lemma PublishMessage_plain_request_and_status_witness :
  @http.url_Parse scripted (publishURL localhost "t") = true /\
  http.sent (snd (@PublishMessage_plain scripted localhost "t" (mkMessage "m")
                    (start [reply 201 ""])))
  = ([] ++ [publishRequest_plain localhost "t" (mkMessage "m")])%list /\
  fst (@PublishMessage_plain scripted localhost "t" (mkMessage "m") (start [reply 201 ""]))
  = None.
Proof.
  assert (Hparse : @http.url_Parse scripted (publishURL localhost "t") = true) by reflexivity.
  split; [exact Hparse|].
  destruct (@PublishMessage_plain_request_and_status scripted localhost "t" (mkMessage "m")
              (start [reply 201 ""]) Hparse) as (Hsent & _ & _ & _ & _ & _ & Hresult).
  split; [exact Hsent|]. apply (proj1 Hresult). reflexivity.
Defined.

(** X5. The two PublishMessage functions agree when the header map of
    the first holds the one pair that Post sets: for every spelling of the
    key whose canonical form is Content-Type, the call with the map
    {key: "application/json"} hands the same request to the HTTP client and
    returns the same result as the function of the second file. *)
Theorem PublishMessage_variants_agree `{http.Environment}
    (cli : Client) (topicName : string) (message : Message) (key : string)
    (st : http.State) :
  http.CanonicalMIMEHeaderKey key = "Content-Type" ->
  publishRequest cli topicName message [(key, "application/json")]
  = publishRequest_plain cli topicName message /\
  PublishMessage cli topicName message [(key, "application/json")] st
  = PublishMessage_plain cli topicName message st.
Proof.
  intros Hkey.
  assert (Hreq : forall req, http.Set_Header key "application/json" req
                             = http.Set_Header "Content-Type" "application/json" req).
  { intros req. unfold http.Set_Header, http.Header_Set. rewrite Hkey. reflexivity. }
  split.
  - unfold publishRequest, publishRequest_plain, setHeaders. simpl. apply Hreq.
  - unfold PublishMessage, PublishMessage_plain, http.Post, http.bind, setHeaders.
    destruct (Marshal_Message message) as [messageJson|err]; [|reflexivity].
    destruct (http.NewRequest "POST" _ (Some messageJson)) as [req|err]; [|reflexivity].
    simpl fold_left. rewrite Hreq. reflexivity.
Qed.

Lemma PublishMessage_variants_agree_witness :
  http.CanonicalMIMEHeaderKey "content-type" = "Content-Type" /\
  @PublishMessage scripted localhost "t" (mkMessage "m")
    [("content-type", "application/json")] (start [reply 201 ""])
  = @PublishMessage_plain scripted localhost "t" (mkMessage "m") (start [reply 201 ""]).
Proof.
  split; [reflexivity|].
  apply (@PublishMessage_variants_agree scripted localhost "t" (mkMessage "m") "content-type"
           (start [reply 201 ""])).
  reflexivity.
Defined.

(** ** GetMessages: validation comes first *)

(** X6. For a topic name of length 0 or of length above 255 (in bytes),
    GetMessages returns the error "invalid topic: ..." that wraps the
    validation error, "cannot be blank" for the empty name and "the length
    must be between 1 and 255" for a long one, and the state is the one it
    started in: no request was built or handed to the HTTP client. *)
Theorem GetMessages_invalid_topic `{http.Environment}
    (cli : Client) (topic : string) (st : http.State) :
  String.length topic = 0%nat \/ (255 < String.length topic)%nat ->
  exists msg,
    (String.length topic = 0%nat -> msg = "cannot be blank") /\
    ((255 < String.length topic)%nat -> msg = "the length must be between 1 and 255") /\
    GetMessages cli topic st = (Err (Errorf_v "invalid topic: " (errors_New msg)), st) /\
    Error_ (Errorf_v "invalid topic: " (errors_New msg)) = Some ("invalid topic: " ++ msg).
Proof.
  intros Hlen.
  assert (Hv : exists msg,
    validation.Validate topic topicRules = Some (errors_New msg) /\
    (String.length topic = 0%nat -> msg = "cannot be blank") /\
    ((255 < String.length topic)%nat -> msg = "the length must be between 1 and 255")).
  { unfold topicRules, validation.Length_1_255, validation.Validate,
      validation.validateRule, validation.IsEmpty.
    destruct Hlen as [H0|Hbig].
    - rewrite H0. simpl. eexists. split; [reflexivity|]. split; [reflexivity | lia].
    - destruct (Nat.eqb_spec (String.length topic) 0) as [E|_]; [lia|].
      replace (255 <? Z.of_nat (String.length topic)) with true
        by (symmetry; apply Z.ltb_lt; lia).
      rewrite orb_true_r. eexists. split; [reflexivity|]. split; [lia | reflexivity]. }
  destruct Hv as (msg & Hv & H0 & Hbig).
  exists msg. split; [exact H0|]. split; [exact Hbig|].
  unfold GetMessages. rewrite Hv. split; reflexivity.
Qed.

Lemma GetMessages_invalid_topic_witness :
  (255 < String.length (string_of_list_ascii (repeat "a"%char 256)))%nat /\
  @GetMessages scripted localhost (string_of_list_ascii (repeat "a"%char 256))
    (start [reply 200 messagesBody_hi])
  = (Err (Errorf_v "invalid topic: " (errors_New "the length must be between 1 and 255")),
     start [reply 200 messagesBody_hi]).
Proof.
  assert (Hlen : (255 < String.length (string_of_list_ascii (repeat "a"%char 256)))%nat)
    by (vm_compute; lia).
  split; [exact Hlen|].
  destruct (@GetMessages_invalid_topic scripted localhost
              (string_of_list_ascii (repeat "a"%char 256))
              (start [reply 200 messagesBody_hi]) (or_intror Hlen))
    as (msg & _ & Hmsg & Hrun & _).
  rewrite (Hmsg Hlen) in Hrun. exact Hrun.
Defined.

(** ** ListTopics: which error comes back *)

(** What ListTopics does with the outcome of its GET. *)
Lemma ListTopics_run `{http.Environment} (cli : Client) (st : http.State) :
  ListTopics cli st
  = (match fst (http.Get (BaseURL cli ++ "/topics") st) with
     | Err err => Err err
     | Ok resp =>
       match http.ReadAll resp with
       | Err err => Err err
       | Ok body =>
         if negb (http.StatusCode resp =? http.StatusOK)
         then Err (Errorf_d "failed to list topics, status code: " (http.StatusCode resp))
         else
           match json.Unmarshal decodeListTopicsResponse body zeroListTopicsResponse with
           | (listTopicsResponse, None) => Ok (Topics listTopicsResponse)
           | (_, Some err) => Err err
           end
       end
     end, snd (http.Get (BaseURL cli ++ "/topics") st)).
Proof.
  unfold ListTopics, http.bind.
  destruct (http.Get (BaseURL cli ++ "/topics") st) as [[resp|err] st1];
    unfold http.ret; simpl; [|reflexivity].
  destruct (http.ReadAll resp) as [body|err]; [|reflexivity].
  destruct (negb _); [reflexivity|].
  destruct (json.Unmarshal _ _ _) as [l [e|]]; reflexivity.
Qed.

Lemma decodeListTopicsResponse_decodeErrors : decodeErrors decodeListTopicsResponse.
Proof.
  apply storeStruct_decodeErrors. constructor; [|constructor].
  intros jv l e. simpl.
  destruct jv as [| b | lit | s | vals | kvs]; simpl; try discriminate;
    try (intros [= <-]; right; eauto).
  assert (Hloop : forall vals i v saved x,
    (forall y, saved = Some y -> decodeError y) ->
    snd (json.arrayLoop EmptyString json.storeString vals i v saved) = Some x ->
    decodeError x).
  { clear. induction vals as [|jv vals IH]; simpl; intros i v saved x Hsaved Hx.
    - apply Hsaved. exact Hx.
    - destruct (json.storeString jv _) as [y e] eqn:Hstore.
      eapply IH; [|exact Hx].
      intros z Hz. eapply saveError_decodeError; [exact Hsaved | | exact Hz].
      intros w ->.
      match type of Hstore with
      | json.storeString _ ?cur = _ => apply (storeString_decodeErrors jv cur w)
      end.
      rewrite Hstore. reflexivity. }
  specialize (Hloop vals 0%nat (Topics l) None e).
  destruct (json.arrayLoop _ _ vals 0 (Topics l) None) as [v1 e1]. simpl in Hloop.
  destruct (List.length vals =? 0)%nat; simpl; intros ->; apply Hloop;
    (discriminate || reflexivity).
Qed.

(** X7. The order of the checks in ListTopics. An error of the GET is
    returned as it is. On a response, the body is read to its end before
    the status code is looked at: if reading fails, that error is returned,
    whatever the status code. With the body read, a status code other than
    200 gives the error "failed to list topics, status code: " followed by
    the code, whatever the body; and with the status code 200, a body that
    does not decode gives the decoder's error, a syntax error or a type
    mismatch, as it is. *)
Theorem ListTopics_errors `{http.Environment}
    (cli : Client) (st : http.State) :
  snd (ListTopics cli st) = snd (http.Get (BaseURL cli ++ "/topics") st) /\
  match fst (http.Get (BaseURL cli ++ "/topics") st) with
  | Err err => fst (ListTopics cli st) = Err err
  | Ok resp =>
    (forall err, http.RespBodyErr resp = Some err -> fst (ListTopics cli st) = Err err) /\
    (forall body, http.ReadAll resp = Ok body -> http.StatusCode resp <> 200 ->
       fst (ListTopics cli st)
       = Err (Errorf_d "failed to list topics, status code: " (http.StatusCode resp)) /\
       Error_ (Errorf_d "failed to list topics, status code: " (http.StatusCode resp))
       = Some ("failed to list topics, status code: " ++ itoa (http.StatusCode resp))) /\
    (forall body err, http.ReadAll resp = Ok body -> http.StatusCode resp = 200 ->
       snd (json.Unmarshal decodeListTopicsResponse body zeroListTopicsResponse) = Some err ->
       fst (ListTopics cli st) = Err err /\ decodeError err)
  end.
Proof.
  rewrite ListTopics_run. split; [reflexivity|]. simpl fst.
  destruct (fst (http.Get (BaseURL cli ++ "/topics") st)) as [resp|err]; [|reflexivity].
  split; [|split].
  - intros err Herr. unfold http.ReadAll. rewrite Herr. reflexivity.
  - intros body -> Hne. unfold http.StatusOK.
    destruct (Z.eqb_spec (http.StatusCode resp) 200) as [E|_]; [contradiction|].
    split; reflexivity.
  - intros body err -> Hstatus Herr. rewrite Hstatus. simpl negb. cbv iota.
    split.
    + destruct (json.Unmarshal _ _ _) as [l [e|]]; simpl in Herr; [|discriminate].
      injection Herr as ->. reflexivity.
    + eapply Unmarshal_decodeError; [apply decodeListTopicsResponse_decodeErrors | exact Herr].
Qed.

Lemma ListTopics_errors_witness :
  fst (@ListTopics scripted localhost
         (start [Ok (http.mkResponse 500 topicsBody_ab (Some io_ErrUnexpectedEOF))]))
  = Err io_ErrUnexpectedEOF /\
  fst (@ListTopics scripted localhost (start [reply 500 topicsBody_ab]))
  = Err (Errorf_d "failed to list topics, status code: " 500) /\
  fst (@ListTopics scripted localhost (start [reply 200 "[]"]))
  = Err (UnmarshalTypeError "array" "pubsubclient.ListTopicsResponse").
Proof.
  split; [|split].
  - pose proof (@ListTopics_errors scripted localhost
                  (start [Ok (http.mkResponse 500 topicsBody_ab (Some io_ErrUnexpectedEOF))]))
      as [_ Hresult].
    apply (proj1 Hresult). reflexivity.
  - pose proof (@ListTopics_errors scripted localhost (start [reply 500 topicsBody_ab]))
      as [_ Hresult].
    apply (proj1 (proj2 Hresult) topicsBody_ab); [reflexivity | discriminate].
  - pose proof (@ListTopics_errors scripted localhost (start [reply 200 "[]"]))
      as [_ Hresult].
    apply (proj2 (proj2 Hresult) "[]"); reflexivity.
Defined.

(** ** ListTopics and TopicExists on the body of a Go server *)

(** ListTopics on a response with status 200 whose body is an object with
    the names under "topics". *)
Lemma ListTopics_tree `{http.Environment} (cli : Client) (st st' : http.State)
    (resp : http.Response) (body : string) (before after : list (string * json.Value))
    (names : list string) :
  http.Get (BaseURL cli ++ "/topics") st = (Ok resp, st') ->
  http.StatusCode resp = 200 ->
  http.ReadAll resp = Ok body ->
  json.checkValid body
  = json.Scanned (json.Object
      (before ++ ("topics", json.Array (map json.Str names)) :: after)) ->
  (forall key jv, In (key, jv) (before ++ after) -> json.foldName key <> "TOPICS") ->
  exists topics, ListTopics cli st = (Ok topics, st') /\ json.elems topics = names.
Proof.
  intros HGet Hstatus HRead Hbody Hothers.
  destruct (decodeListTopicsResponse_topics before after names Hothers)
    as (topics & Hdec & Helems).
  exists topics. split; [|exact Helems].
  rewrite ListTopics_run, HGet. cbn [fst snd]. rewrite HRead, Hstatus.
  unfold json.Unmarshal. rewrite Hbody, Hdec. reflexivity.
Qed.

Lemma ListTopics_text `{http.Environment} (cli : Client) (st st' : http.State)
    (resp : http.Response) (names : list string) :
  http.Get (BaseURL cli ++ "/topics") st = (Ok resp, st') ->
  http.StatusCode resp = 200 ->
  http.ReadAll resp = Ok (topicsBody names) ->
  Forall (fun name => utf8.ValidString name = true) names ->
  exists topics, ListTopics cli st = (Ok topics, st') /\ json.elems topics = names.
Proof.
  intros HGet Hstatus HRead Hvalid.
  apply (ListTopics_tree cli st st' resp (topicsBody names) [] [] names HGet Hstatus HRead).
  - apply (checkValid_value _ _ _ _ (value_topicsBody names Hvalid)). reflexivity.
  - intros key jv [].
Qed.

(** X8. TopicExists looks for the name among the names of the body, byte
    for byte. For a topic name of length 1 to 255 and a response to the
    GET of {base}/topics with status 200 whose body is the JSON that
    json.Marshal writes for a ListTopicsResponse holding names that are
    valid UTF-8: TopicExists returns no error and the boolean that says
    whether the topic is one of these names, and it made the one request
    of ListTopics. *)
Theorem TopicExists_membership `{http.Environment}
    (cli : Client) (topic : string) (st st' : http.State) (resp : http.Response)
    (names : list string) :
  (1 <= String.length topic <= 255)%nat ->
  http.Get (BaseURL cli ++ "/topics") st = (Ok resp, st') ->
  http.StatusCode resp = 200 ->
  http.ReadAll resp = Ok (topicsBody names) ->
  Forall (fun name => utf8.ValidString name = true) names ->
  exists found,
    TopicExists cli topic st = (Ok found, st') /\
    (found = true <-> In topic names) /\
    http.sent st' = (http.sent st ++ [listRequest cli])%list.
Proof.
  intros Hlen HGet Hstatus HRead Hvalid.
  destruct (ListTopics_text cli st st' resp names HGet Hstatus HRead Hvalid)
    as (topics & HList & Helems).
  exists (rangeTopics (json.elems topics) topic). split; [|split].
  - unfold TopicExists, http.bind. rewrite (Validate_topic_ok topic Hlen), HList. reflexivity.
  - rewrite rangeTopics_In, Helems. tauto.
  - apply (ListTopics_Ok cli st st' topics HList).
Qed.

Lemma TopicExists_membership_witness :
  (1 <= String.length "b" <= 255)%nat /\
  @http.Get scripted (BaseURL localhost ++ "/topics") (start [reply 200 (topicsBody ["a"; "b"])])
  = (reply 200 (topicsBody ["a"; "b"]), @http.mkState scripted [] [listRequest localhost]) /\
  Forall (fun name => utf8.ValidString name = true) ["a"; "b"] /\
  @TopicExists scripted localhost "b" (start [reply 200 (topicsBody ["a"; "b"])])
  = (Ok true, @http.mkState scripted [] [listRequest localhost]) /\
  @TopicExists scripted localhost "B" (start [reply 200 (topicsBody ["a"; "b"])])
  = (Ok false, @http.mkState scripted [] [listRequest localhost]).
Proof.
  assert (Hlen : (1 <= String.length "b" <= 255)%nat) by (simpl; lia).
  assert (HGet : @http.Get scripted (BaseURL localhost ++ "/topics")
                   (start [reply 200 (topicsBody ["a"; "b"])])
    = (reply 200 (topicsBody ["a"; "b"]), @http.mkState scripted [] [listRequest localhost]))
    by (vm_compute; reflexivity).
  assert (Hvalid : Forall (fun name => utf8.ValidString name = true) ["a"; "b"])
    by (repeat constructor).
  split; [exact Hlen|]. split; [exact HGet|]. split; [exact Hvalid|]. split.
  - destruct (@TopicExists_membership scripted localhost "b" _ _ _ ["a"; "b"]
                Hlen HGet eq_refl eq_refl Hvalid) as (found & Hrun & Hiff & _).
    replace found with true in Hrun; [exact Hrun|].
    symmetry. apply Hiff. simpl. auto.
  - destruct (@TopicExists_membership scripted localhost "B" _ _ _ ["a"; "b"]
                Hlen HGet eq_refl eq_refl Hvalid) as (found & Hrun & Hiff & _).
    replace found with false in Hrun; [exact Hrun|].
    destruct found; [|reflexivity].
    destruct (proj1 Hiff eq_refl) as [E|[E|[]]]; discriminate.
Defined.

(** X9. A body without the topics. When the response to the GET of
    {base}/topics has status 200 and its body is the JSON null, or a JSON
    object none of whose keys is "topics" up to case folding (the empty
    object is one), ListTopics returns the nil slice and no error: a
    missing list reads as an empty one. *)
Theorem ListTopics_without_topics `{http.Environment}
    (cli : Client) (st st' : http.State) (resp : http.Response) (body : string) :
  http.Get (BaseURL cli ++ "/topics") st = (Ok resp, st') ->
  http.StatusCode resp = 200 ->
  http.ReadAll resp = Ok body ->
  (json.checkValid body = json.Scanned json.Null \/
   exists kvs, json.checkValid body = json.Scanned (json.Object kvs) /\
     forall key jv, In (key, jv) kvs -> json.foldName key <> "TOPICS") ->
  ListTopics cli st = (Ok json.nilSlice, st') /\
  json.elems (@json.nilSlice string) = [].
Proof.
  intros HGet Hstatus HRead Hbody. split; [|reflexivity].
  rewrite ListTopics_run, HGet. cbn [fst snd]. rewrite HRead, Hstatus.
  unfold json.Unmarshal.
  destruct Hbody as [-> | [kvs [-> Hkeys]]].
  - reflexivity.
  - unfold decodeListTopicsResponse, json.storeStruct.
    rewrite objectInto_no_field; [reflexivity|].
    intros key jv HIn. apply lookupField_None. exact (Hkeys key jv HIn).
Qed.

Lemma ListTopics_without_topics_witness :
  json.checkValid ("{" ++ quoted "count" ++ ":0}")
  = json.Scanned (json.Object [("count", json.Number "0")]) /\
  json.foldName "count" <> "TOPICS" /\
  @ListTopics scripted localhost (start [reply 200 ("{" ++ quoted "count" ++ ":0}")])
  = (Ok json.nilSlice, @http.mkState scripted [] [listRequest localhost]).
Proof.
  assert (Hcount : json.foldName "count" <> "TOPICS") by (vm_compute; discriminate).
  split; [reflexivity|]. split; [exact Hcount|].
  apply (@ListTopics_without_topics scripted localhost
           (start [reply 200 ("{" ++ quoted "count" ++ ":0}")])
           (@http.mkState scripted [] [listRequest localhost])
           (http.mkResponse 200 ("{" ++ quoted "count" ++ ":0}") None)
           ("{" ++ quoted "count" ++ ":0}")); try reflexivity.
  right. exists [("count", json.Number "0")]. split; [reflexivity|].
  intros key jv [[= <- <-]|[]]. exact Hcount.
Defined.

(** ** EnsureTopicExists: errors *)

(** X10. When listing fails, EnsureTopicExists creates nothing. For a
    topic name of length 1 to 255: if ListTopics, run in the same state,
    returns an error, EnsureTopicExists returns that error behind the text
    "failed to list topics: " (the text TopicExists puts in front; it adds
    none of its own) and ends in the state ListTopics ends in, so that no
    request to create the topic was made. *)
Theorem EnsureTopicExists_list_failure `{http.Environment}
    (cli : Client) (t : string) (st st' : http.State) (err : error) :
  (1 <= String.length t <= 255)%nat ->
  ListTopics cli st = (Err err, st') ->
  EnsureTopicExists cli t st = (Some (Errorf_v "failed to list topics: " err), st') /\
  TopicExists cli t st = (Err (Errorf_v "failed to list topics: " err), st') /\
  (http.sent st' = http.sent st \/ http.sent st' = (http.sent st ++ [listRequest cli])%list).
Proof.
  intros Hlen HList.
  split; [|split].
  - unfold EnsureTopicExists, TopicExists, http.bind.
    rewrite (Validate_topic_ok t Hlen), HList. reflexivity.
  - unfold TopicExists, http.bind. rewrite (Validate_topic_ok t Hlen), HList. reflexivity.
  - rewrite ListTopics_run in HList. injection HList as _ Hst. subst st'.
    unfold http.Get.
    destruct (http.NewRequest "GET" (BaseURL cli ++ "/topics") None) as [req|e] eqn:Hreq.
    + apply NewRequest_Ok in Hreq as [-> _]; [|discriminate].
      right. apply Do_sent.
    + left. reflexivity.
Qed.

Lemma EnsureTopicExists_list_failure_witness :
  (1 <= String.length "t" <= 255)%nat /\
  @ListTopics scripted localhost (start [reply 503 ""; reply 201 ""])
  = (Err (Errorf_d "failed to list topics, status code: " 503),
     @http.mkState scripted [reply 201 ""] [listRequest localhost]) /\
  @EnsureTopicExists scripted localhost "t" (start [reply 503 ""; reply 201 ""])
  = (Some (Errorf_v "failed to list topics: "
             (Errorf_d "failed to list topics, status code: " 503)),
     @http.mkState scripted [reply 201 ""] [listRequest localhost]).
Proof.
  assert (Hlen : (1 <= String.length "t" <= 255)%nat) by (simpl; lia).
  assert (HList : @ListTopics scripted localhost (start [reply 503 ""; reply 201 ""])
    = (Err (Errorf_d "failed to list topics, status code: " 503),
       @http.mkState scripted [reply 201 ""] [listRequest localhost]))
    by (vm_compute; reflexivity).
  split; [exact Hlen|]. split; [exact HList|].
  exact (proj1 (@EnsureTopicExists_list_failure scripted localhost "t" _ _ _ Hlen HList)).
Defined.

(** X11. The result of EnsureTopicExists when it creates the topic. For
    a topic name t of length 1 to 255 that is not in the list ListTopics
    returns: the POST of {"name":t,"type":""} to {base}/topics is handed to
    the HTTP client, and the result is nil exactly when the response has
    the status code 201. An error of the client e comes back as "failed to
    create topic: " followed by e, and any other status code as "failed to
    create topic: error creating topic: expected status code 201, got "
    followed by the code. *)
Theorem EnsureTopicExists_create_result `{http.Environment}
    (cli : Client) (t : string) (st st1 : http.State) (topics : json.slice string) :
  (1 <= String.length t <= 255)%nat ->
  ListTopics cli st = (Ok topics, st1) ->
  ~ In t (json.elems topics) ->
  exists body,
    Marshal_Topic (mkTopic t EmptyString) = Ok body /\
    snd (EnsureTopicExists cli t st) = snd (http.Do (createRequest cli body) st1) /\
    match fst (http.Do (createRequest cli body) st1) with
    | Err err =>
      fst (EnsureTopicExists cli t st) = Some (Errorf_v "failed to create topic: " err)
    | Ok resp =>
      (fst (EnsureTopicExists cli t st) = None <-> http.StatusCode resp = 201) /\
      (http.StatusCode resp <> 201 ->
       exists err, fst (EnsureTopicExists cli t st) = Some err /\
         Error_ err
         = Some ("failed to create topic: error creating topic: expected status code 201, got "
                 ++ itoa (http.StatusCode resp)))
    end.
Proof.
  intros Hlen HList HNotIn.
  eexists. split; [reflexivity|].
  destruct (ListTopics_Ok cli st st1 topics HList) as [Hparse _].
  unfold EnsureTopicExists, TopicExists, http.bind.
  rewrite (Validate_topic_ok t Hlen), HList. unfold http.ret.
  destruct (rangeTopics (json.elems topics) t) eqn:Hr.
  { apply rangeTopics_In in Hr. contradiction. }
  change (negb false) with true. cbv beta iota.
  unfold CreateTopic, Marshal_Topic, http.bind, http.Post.
  rewrite (NewRequest_parse "POST" _ _ eq_refl Hparse).
  match goal with
  | |- context [http.Do ?r st1] =>
    change r with (createRequest cli (json.encodeStruct
      [("name", json.appendString (Name (mkTopic t EmptyString)));
       ("type", json.appendString (Type_ (mkTopic t EmptyString)))]))
  end.
  set (req := createRequest cli _).
  destruct (http.Do req st1) as [[resp|err] st2]; unfold http.ret; simpl.
  - split; [destruct (negb _); reflexivity|].
    unfold http.StatusCreated.
    destruct (Z.eqb_spec (http.StatusCode resp) 201) as [E|NE]; simpl.
    + split; [tauto|]. intros; contradiction.
    + split; [split; [discriminate | contradiction]|].
      intros _. eexists. split; reflexivity.
  - split; reflexivity.
Qed.

Lemma EnsureTopicExists_create_result_witness :
  (1 <= String.length "c" <= 255)%nat /\
  @ListTopics scripted localhost (start [reply 200 topicsBody_ab; reply 500 ""])
  = (Ok (json.Slice ["a"; "b"] 2),
     @http.mkState scripted [reply 500 ""] [listRequest localhost]) /\
  ~ In "c" (json.elems (json.Slice ["a"; "b"] 2)) /\
  exists err,
    fst (@EnsureTopicExists scripted localhost "c"
           (start [reply 200 topicsBody_ab; reply 500 ""])) = Some err /\
    Error_ err
    = Some "failed to create topic: error creating topic: expected status code 201, got 500".
Proof.
  assert (Hlen : (1 <= String.length "c" <= 255)%nat) by (simpl; lia).
  assert (HList : @ListTopics scripted localhost (start [reply 200 topicsBody_ab; reply 500 ""])
    = (Ok (json.Slice ["a"; "b"] 2),
       @http.mkState scripted [reply 500 ""] [listRequest localhost]))
    by (vm_compute; reflexivity).
  assert (HNotIn : ~ In "c" (json.elems (json.Slice ["a"; "b"] 2)))
    by (simpl; intros [E|[E|[]]]; discriminate).
  split; [exact Hlen|]. split; [exact HList|]. split; [exact HNotIn|].
  destruct (@EnsureTopicExists_create_result scripted localhost "c" _ _ _ Hlen HList HNotIn)
    as (body & Hbody & _ & Hresult).
  injection Hbody as <-.
  apply (proj2 Hresult). discriminate.
Defined.

(** ** PullMessage on the body of a Go server *)

(** What PullMessage does with the outcome of its GET. *)
Lemma PullMessage_run `{http.Environment} (cli : Client) (subscriptionName : string)
    (st : http.State) :
  PullMessage cli subscriptionName st
  = (match fst (http.Get (pullURL cli subscriptionName) st) with
     | Err err => Err err
     | Ok resp =>
       match http.ReadAll resp with
       | Err err => Err err
       | Ok body =>
         match json.Unmarshal decodePullResponse body zeroPullResponse with
         | (pullResponse, None) => Ok (Message_ pullResponse)
         | (_, Some err) => Err err
         end
       end
     end, snd (http.Get (pullURL cli subscriptionName) st)).
Proof.
  unfold PullMessage, http.bind. fold (pullURL cli subscriptionName).
  destruct (http.Get (pullURL cli subscriptionName) st) as [[resp|err] st1];
    unfold http.ret; simpl; [|reflexivity].
  destruct (http.ReadAll resp) as [body|err]; [|reflexivity].
  destruct (json.Unmarshal _ _ _) as [p [e|]]; reflexivity.
Qed.

(** X12. PullMessage gives back the message of the body. Whatever the
    status code of the response to the GET of
    {base}/subscriptions/{name}/pull: if the body was read and is the JSON
    that json.Marshal writes for a PullResponse whose message has valid
    UTF-8 data, PullMessage returns that message and no error, after its
    one request. *)
Theorem PullMessage_returns_message `{http.Environment}
    (cli : Client) (subscriptionName : string) (st st' : http.State)
    (resp : http.Response) (message : Message) :
  http.Get (pullURL cli subscriptionName) st = (Ok resp, st') ->
  http.ReadAll resp = Ok (pullBody message) ->
  utf8.ValidString (Data message) = true ->
  PullMessage cli subscriptionName st = (Ok message, st').
Proof.
  intros HGet HRead Hvalid.
  rewrite PullMessage_run, HGet. cbn [fst snd]. rewrite HRead.
  unfold json.Unmarshal.
  rewrite (checkValid_value _ _ _ _ (value_pullBody message Hvalid) eq_refl).
  unfold decodePullResponse, json.storeStruct.
  match goal with
  | |- context [json.objectInto [json.Field _ ?s] [(_, ?jv)] ?v None] =>
    pose proof (objectInto_one "message" s [] [] "message" jv v eq_refl
                  (fun key jv' (HIn : In (key, jv') []) => match HIn with end)) as Hone
  end.
  simpl app in Hone. rewrite Hone. clear Hone.
  rewrite decodeMessage_data. reflexivity.
Qed.

Lemma PullMessage_returns_message_witness :
  @http.Get scripted (pullURL localhost "s")
    (start [reply 404 (pullBody (mkMessage "a<b"))])
  = (reply 404 (pullBody (mkMessage "a<b")),
     @http.mkState scripted [] [http.mkRequest "GET" (pullURL localhost "s") ∅ None]) /\
  utf8.ValidString "a<b" = true /\
  @PullMessage scripted localhost "s" (start [reply 404 (pullBody (mkMessage "a<b"))])
  = (Ok (mkMessage "a<b"),
     @http.mkState scripted [] [http.mkRequest "GET" (pullURL localhost "s") ∅ None]).
Proof.
  assert (HGet : @http.Get scripted (pullURL localhost "s")
                   (start [reply 404 (pullBody (mkMessage "a<b"))])
    = (reply 404 (pullBody (mkMessage "a<b")),
       @http.mkState scripted [] [http.mkRequest "GET" (pullURL localhost "s") ∅ None]))
    by (vm_compute; reflexivity).
  split; [exact HGet|]. split; [reflexivity|].
  exact (@PullMessage_returns_message scripted localhost "s" _ _ _ (mkMessage "a<b")
           HGet eq_refl eq_refl).
Defined.

(** ** What follows the first JSON value of the body *)

Lemma value_checkValid (data : string) (jv : json.Value) :
  json.checkValid data = json.Scanned jv ->
  exists rest, json.value (json.fuelFor data) 0%N data = json.Scanned (jv, rest) /\
               json.skipSpace rest = EmptyString.
Proof.
  unfold json.checkValid.
  destruct (json.value _ _ _) as [[v rest]| | |]; simpl; try discriminate.
  destruct (json.skipSpace rest) eqn:Hrest; [|discriminate].
  intros [= ->]. eauto.
Qed.

(** An array or an object at the start of the input is scanned alike
    whatever follows it. *)
Lemma value_then (data rest : string) (jv : json.Value) :
  json.checkValid data = json.Scanned jv ->
  json.endsItself jv = true ->
  exists space,
    json.value (json.fuelFor (data ++ rest)) 0%N (data ++ rest)
    = json.Scanned (jv, space ++ rest) /\
    json.skipSpace space = EmptyString.
Proof.
  intros Hvalid Hends.
  destruct (value_checkValid data jv Hvalid) as (space & Hvalue & Hspace).
  exists space. split; [|exact Hspace].
  apply (value_any_fuel (json.fuelFor data)); [|lia].
  apply (proj1 (scan_app (json.fuelFor data) rest)); [exact Hvalue|].
  intros _ lit ->. discriminate Hends.
Qed.

Lemma Decode_first_value {T} (dec : json.decoder T) (data rest : string)
    (readErr : option error) (jv : json.Value) (v : T) :
  json.checkValid data = json.Scanned jv ->
  json.endsItself jv = true ->
  json.Decode dec (data ++ rest) readErr v = dec jv v.
Proof.
  intros Hvalid Hends.
  destruct (value_then data rest jv Hvalid Hends) as (space & Hvalue & _).
  unfold json.Decode. rewrite Hvalue, Hends.
  destruct (space ++ rest); destruct readErr; reflexivity.
Qed.

Lemma checkValid_then (data rest : string) (jv : json.Value) :
  json.checkValid data = json.Scanned jv ->
  json.endsItself jv = true ->
  json.nonSpace rest = true ->
  json.checkValid (data ++ rest) = json.ScanError.
Proof.
  intros Hvalid Hends Hrest.
  destruct (value_then data rest jv Hvalid Hends) as (space & Hvalue & Hspace).
  unfold json.checkValid. rewrite Hvalue. cbn [json.sbind].
  rewrite (skipSpace_app_nil space rest Hspace).
  unfold json.nonSpace in Hrest. destruct (json.skipSpace rest); [discriminate | reflexivity].
Qed.

Lemma checkValid_topicsBody (names : list string) :
  Forall (fun name => utf8.ValidString name = true) names ->
  json.checkValid (topicsBody names)
  = json.Scanned (json.Object [("topics", json.Array (map json.Str names))]).
Proof.
  intros Hvalid. apply (checkValid_value _ _ _ _ (value_topicsBody names Hvalid)). reflexivity.
Qed.

Lemma checkValid_messagesBody (messages : list Message) :
  Forall (fun m => utf8.ValidString (Data m) = true) messages ->
  json.checkValid (messagesBody messages)
  = json.Scanned (json.Object [("messages",
      json.Array (map (fun m => json.Object [("data", json.Str (Data m))]) messages))]).
Proof.
  intros Hvalid.
  apply (checkValid_value _ _ _ _ (value_messagesBody messages Hvalid)). reflexivity.
Qed.

(** X13. GetMessages reads one JSON value from the body and leaves the
    rest. For a topic name of length 1 to 255 whose URL parses and a
    response with status 200: if the body starts with the JSON that
    json.Marshal writes for a GetMessagesResponse holding messages with
    valid UTF-8 data, GetMessages returns these messages and no error,
    whatever bytes follow that JSON in the body and whether the body ends
    well or with a read error after them. *)
Theorem GetMessages_first_value_only `{http.Environment}
    (cli : Client) (topic : string) (st st1 : http.State) (resp : http.Response)
    (messages : list Message) (rest : string) :
  (1 <= String.length topic <= 255)%nat ->
  http.url_Parse (BaseURL cli ++ "/topics/" ++ topic ++ "/messages") = true ->
  http.Do (messagesRequest cli topic) st = (Ok resp, st1) ->
  http.StatusCode resp = 200 ->
  http.RespBody resp = messagesBody messages ++ rest ->
  Forall (fun m => utf8.ValidString (Data m) = true) messages ->
  exists v, GetMessages cli topic st = (Ok v, st1) /\ json.elems v = messages.
Proof.
  intros Hlen Hparse HDo Hstatus Hbody Hvalid.
  destruct (decodeGetMessagesResponse_messages messages) as (v & Hdec & Helems).
  exists v. split; [|exact Helems].
  rewrite (GetMessages_run cli topic st Hlen Hparse), HDo. cbn [fst snd].
  rewrite Hstatus, Hbody.
  rewrite (Decode_first_value _ _ _ _ _ _ (checkValid_messagesBody messages Hvalid) eq_refl).
  rewrite Hdec. reflexivity.
Qed.

Lemma GetMessages_first_value_only_witness :
  (1 <= String.length "x" <= 255)%nat /\
  @http.url_Parse scripted (BaseURL localhost ++ "/topics/" ++ "x" ++ "/messages") = true /\
  @http.Do scripted (messagesRequest localhost "x")
    (start [Ok (http.mkResponse 200 (messagesBody [mkMessage "hi"] ++ "}garbage")
                  (Some io_ErrUnexpectedEOF))])
  = (Ok (http.mkResponse 200 (messagesBody [mkMessage "hi"] ++ "}garbage")
           (Some io_ErrUnexpectedEOF)),
     @http.mkState scripted [] [messagesRequest localhost "x"]) /\
  exists v,
    @GetMessages scripted localhost "x"
      (start [Ok (http.mkResponse 200 (messagesBody [mkMessage "hi"] ++ "}garbage")
                    (Some io_ErrUnexpectedEOF))])
    = (Ok v, @http.mkState scripted [] [messagesRequest localhost "x"]) /\
    json.elems v = [mkMessage "hi"].
Proof.
  assert (Hlen : (1 <= String.length "x" <= 255)%nat) by (simpl; lia).
  assert (Hparse : @http.url_Parse scripted (BaseURL localhost ++ "/topics/" ++ "x" ++ "/messages")
                   = true) by reflexivity.
  assert (HDo : @http.Do scripted (messagesRequest localhost "x")
    (start [Ok (http.mkResponse 200 (messagesBody [mkMessage "hi"] ++ "}garbage")
                  (Some io_ErrUnexpectedEOF))])
    = (Ok (http.mkResponse 200 (messagesBody [mkMessage "hi"] ++ "}garbage")
             (Some io_ErrUnexpectedEOF)),
       @http.mkState scripted [] [messagesRequest localhost "x"])) by reflexivity.
  split; [exact Hlen|]. split; [exact Hparse|]. split; [exact HDo|].
  apply (@GetMessages_first_value_only scripted localhost "x" _ _ _ [mkMessage "hi"] "}garbage"
           Hlen Hparse HDo eq_refl eq_refl).
  repeat constructor.
Defined.

(** X14. ListTopics wants the whole body to be one JSON value. When the
    response to the GET of {base}/topics has status 200 and the body that
    was read is the JSON of a ListTopicsResponse followed by anything but
    white space, ListTopics returns a syntax error and no names, where
    GetMessages would have read the value and stopped. *)
Theorem ListTopics_trailing_data `{http.Environment}
    (cli : Client) (st st' : http.State) (resp : http.Response)
    (names : list string) (rest : string) :
  http.Get (BaseURL cli ++ "/topics") st = (Ok resp, st') ->
  http.StatusCode resp = 200 ->
  http.ReadAll resp = Ok (topicsBody names ++ rest) ->
  Forall (fun name => utf8.ValidString name = true) names ->
  json.nonSpace rest = true ->
  ListTopics cli st = (Err SyntaxError, st').
Proof.
  intros HGet Hstatus HRead Hvalid Hrest.
  rewrite ListTopics_run, HGet. cbn [fst snd]. rewrite HRead, Hstatus.
  unfold json.Unmarshal.
  rewrite (checkValid_then _ _ _ (checkValid_topicsBody names Hvalid) eq_refl Hrest).
  reflexivity.
Qed.

Lemma ListTopics_trailing_data_witness :
  @http.Get scripted (BaseURL localhost ++ "/topics")
    (start [reply 200 (topicsBody ["a"] ++ "}garbage")])
  = (reply 200 (topicsBody ["a"] ++ "}garbage"),
     @http.mkState scripted [] [listRequest localhost]) /\
  json.nonSpace "}garbage" = true /\
  @ListTopics scripted localhost (start [reply 200 (topicsBody ["a"] ++ "}garbage")])
  = (Err SyntaxError, @http.mkState scripted [] [listRequest localhost]).
Proof.
  assert (HGet : @http.Get scripted (BaseURL localhost ++ "/topics")
                   (start [reply 200 (topicsBody ["a"] ++ "}garbage")])
    = (reply 200 (topicsBody ["a"] ++ "}garbage"),
       @http.mkState scripted [] [listRequest localhost]))
    by (vm_compute; reflexivity).
  split; [exact HGet|]. split; [reflexivity|].
  apply (@ListTopics_trailing_data scripted localhost _ _ _ ["a"] "}garbage"
           HGet eq_refl eq_refl); [repeat constructor | reflexivity].
Defined.

(** X15. GetMessages on a body without a value. For a topic name of
    length 1 to 255 whose URL parses and a response with status 200 whose
    body holds nothing but white space and ends without a read error (the
    empty body is one), GetMessages returns the error "failed to decode
    response: EOF"; it returns no empty list. *)
Theorem GetMessages_empty_body `{http.Environment}
    (cli : Client) (topic : string) (st st1 : http.State) (resp : http.Response) :
  (1 <= String.length topic <= 255)%nat ->
  http.url_Parse (BaseURL cli ++ "/topics/" ++ topic ++ "/messages") = true ->
  http.Do (messagesRequest cli topic) st = (Ok resp, st1) ->
  http.StatusCode resp = 200 ->
  json.skipSpace (http.RespBody resp) = EmptyString ->
  http.RespBodyErr resp = None ->
  GetMessages cli topic st = (Err (Errorf_v "failed to decode response: " io_EOF), st1) /\
  Error_ (Errorf_v "failed to decode response: " io_EOF)
  = Some "failed to decode response: EOF".
Proof.
  intros Hlen Hparse HDo Hstatus Hspace Hend. split; [|reflexivity].
  rewrite (GetMessages_run cli topic st Hlen Hparse), HDo. cbn [fst snd].
  rewrite Hstatus, Hend. unfold json.Decode, json.fuelFor, json.nonSpace.
  cbn [json.value]. rewrite Hspace. reflexivity.
Qed.

Lemma GetMessages_empty_body_witness :
  (1 <= String.length "x" <= 255)%nat /\
  @http.url_Parse scripted (BaseURL localhost ++ "/topics/" ++ "x" ++ "/messages") = true /\
  json.skipSpace "" = EmptyString /\
  @GetMessages scripted localhost "x" (start [reply 200 ""])
  = (Err (Errorf_v "failed to decode response: " io_EOF),
     @http.mkState scripted [] [messagesRequest localhost "x"]).
Proof.
  assert (Hlen : (1 <= String.length "x" <= 255)%nat) by (simpl; lia).
  assert (Hparse : @http.url_Parse scripted (BaseURL localhost ++ "/topics/" ++ "x" ++ "/messages")
                   = true) by reflexivity.
  split; [exact Hlen|]. split; [exact Hparse|]. split; [reflexivity|].
  exact (proj1 (@GetMessages_empty_body scripted localhost "x" (start [reply 200 ""]) _ _
                  Hlen Hparse eq_refl eq_refl eq_refl eq_refl)).
Defined.

(** ** The bodies that CreateTopic and CreateSubscription send *)

Lemma value_nameTypeJson (name type_ : string) (fuel : nat) :
  utf8.ValidString name = true -> utf8.ValidString type_ = true ->
  json.value (S (S (S (S fuel)))) 0%N (nameTypeJson name type_)
  = json.Scanned (json.Object [("name", json.Str name); ("type", json.Str type_)], EmptyString).
Proof.
  intros Hname Htype. unfold nameTypeJson, json.encodeStruct, json.encodeFields.
  rewrite !append_assoc.
  pose proof (value_appendString type_ fuel 1%N "}" Htype) as Hvalue2.
  remember (json.appendString type_ ++ "}") as tail2 eqn:Htail2.
  pose proof (value_appendString name (S fuel) 1%N
                ("," ++ quoted "type" ++ ":" ++ tail2) Hname) as Hvalue1.
  remember (json.appendString name ++ "," ++ quoted "type" ++ ":" ++ tail2) as tail1 eqn:Htail1.
  remember (S fuel) as fuel2 eqn:Hfuel2.
  remember (S fuel2) as fuel1 eqn:Hfuel1.
  cbn [json.value]. simpl. change (0 + 1)%N with 1%N. rewrite Hvalue1.
  subst fuel1. simpl. rewrite Hvalue2. reflexivity.
Qed.

(** X16. The body of CreateTopic and of CreateSubscription is one JSON
    object with the two members "name" and "type", in this order, whose
    values are the fields of the topic or subscription, for all strings
    that are valid UTF-8: quotes, backslashes, braces or control
    characters in a name are escaped, so that no name can add or change a
    member. *)
Theorem create_bodies_are_objects (name type_ : string) :
  utf8.ValidString name = true ->
  utf8.ValidString type_ = true ->
  exists body,
    Marshal_Topic (mkTopic name type_) = Ok body /\
    Marshal_Subscription (mkSubscription name type_) = Ok body /\
    json.checkValid body
    = json.Scanned (json.Object [("name", json.Str name); ("type", json.Str type_)]).
Proof.
  intros Hname Htype. exists (nameTypeJson name type_).
  split; [reflexivity|]. split; [reflexivity|].
  apply (checkValid_value _ _ _ _ (value_nameTypeJson name type_ 0 Hname Htype)). reflexivity.
Qed.

Lemma create_bodies_are_objects_witness :
  utf8.ValidString (quoted "," ++ "}") = true /\
  exists body,
    Marshal_Topic (mkTopic (quoted "," ++ "}") "x") = Ok body /\
    Marshal_Subscription (mkSubscription (quoted "," ++ "}") "x") = Ok body /\
    json.checkValid body
    = json.Scanned (json.Object [("name", json.Str (quoted "," ++ "}")); ("type", json.Str "x")]).
Proof.
  split; [reflexivity|].
  apply (create_bodies_are_objects (quoted "," ++ "}") "x"); reflexivity.
Defined.

(** ** How many requests an operation makes *)

Lemma NewRequest_unparsed `{http.Environment} (method url : string) (body : option string) :
  http.validMethod method = true -> http.url_Parse url = false ->
  http.NewRequest method url body = Err (url_Error "parse" url).
Proof.
  unfold http.NewRequest. intros Hvalid Hparse.
  destruct (String.eqb_spec method EmptyString) as [->|_]; [discriminate Hvalid|].
  rewrite Hvalid, Hparse. reflexivity.
Qed.

Lemma Get_cases `{http.Environment} (url : string) (st : http.State) :
  (http.url_Parse url = false /\
   http.Get url st = (Err (url_Error "parse" url), st)) \/
  (http.url_Parse url = true /\
   http.Get url st = http.Do (http.mkRequest "GET" url ∅ None) st).
Proof.
  unfold http.Get.
  destruct (http.url_Parse url) eqn:Hparse; [right | left]; (split; [reflexivity|]).
  - rewrite (NewRequest_parse "GET" _ _ eq_refl Hparse). reflexivity.
  - rewrite (NewRequest_unparsed "GET" _ _ eq_refl Hparse). reflexivity.
Qed.

Lemma Post_cases `{http.Environment} (url contentType body : string) (st : http.State) :
  (http.url_Parse url = false /\
   http.Post url contentType body st = (Err (url_Error "parse" url), st)) \/
  (http.url_Parse url = true /\
   http.Post url contentType body st
   = http.Do (http.Set_Header "Content-Type" contentType
                (http.mkRequest "POST" url ∅ (Some body))) st).
Proof.
  unfold http.Post.
  destruct (http.url_Parse url) eqn:Hparse; [right | left]; (split; [reflexivity|]).
  - rewrite (NewRequest_parse "POST" _ _ eq_refl Hparse). reflexivity.
  - rewrite (NewRequest_unparsed "POST" _ _ eq_refl Hparse). reflexivity.
Qed.

(** X17. A URL that does not parse stops an operation before the HTTP
    client is used. For each of CreateTopic, CreateSubscription, the two
    PublishMessage functions, PullMessage and ListTopics: if the URL it
    builds from the base URL and its argument does not parse (a topic or
    subscription name with a control byte makes one), it returns the
    parser's error as it is and the state it started in. TopicExists and
    EnsureTopicExists, for a topic name of length 1 to 255, return that
    error behind "failed to list topics: ". *)
Theorem unparsed_url_sends_nothing `{http.Environment} (cli : Client) (st : http.State) :
  (forall topic,
     http.url_Parse (BaseURL cli ++ "/topics") = false ->
     CreateTopic cli topic st = (Some (url_Error "parse" (BaseURL cli ++ "/topics")), st)) /\
  (forall topicName subscription,
     http.url_Parse (BaseURL cli ++ "/topics/" ++ topicName ++ "/subscriptions") = false ->
     CreateSubscription cli topicName subscription st
     = (Some (url_Error "parse" (BaseURL cli ++ "/topics/" ++ topicName ++ "/subscriptions")),
        st)) /\
  (forall topicName message headers,
     http.url_Parse (publishURL cli topicName) = false ->
     PublishMessage cli topicName message headers st
     = (Some (url_Error "parse" (publishURL cli topicName)), st)) /\
  (forall topicName message,
     http.url_Parse (publishURL cli topicName) = false ->
     PublishMessage_plain cli topicName message st
     = (Some (url_Error "parse" (publishURL cli topicName)), st)) /\
  (forall subscriptionName,
     http.url_Parse (pullURL cli subscriptionName) = false ->
     PullMessage cli subscriptionName st
     = (Err (url_Error "parse" (pullURL cli subscriptionName)), st)) /\
  (http.url_Parse (BaseURL cli ++ "/topics") = false ->
   ListTopics cli st = (Err (url_Error "parse" (BaseURL cli ++ "/topics")), st) /\
   forall topic, (1 <= String.length topic <= 255)%nat ->
     TopicExists cli topic st
     = (Err (Errorf_v "failed to list topics: "
               (url_Error "parse" (BaseURL cli ++ "/topics"))), st) /\
     EnsureTopicExists cli topic st
     = (Some (Errorf_v "failed to list topics: "
                (url_Error "parse" (BaseURL cli ++ "/topics"))), st)).
Proof.
  repeat split.
  - intros topic Hparse. unfold CreateTopic, Marshal_Topic, http.bind.
    destruct (Post_cases (BaseURL cli ++ "/topics") "application/json"
                (json.encodeStruct [("name", json.appendString (Name topic));
                                    ("type", json.appendString (Type_ topic))]) st)
      as [[_ ->]|[Habs _]]; [reflexivity | congruence].
  - intros topicName subscription Hparse. unfold CreateSubscription, Marshal_Subscription, http.bind.
    destruct (Post_cases (BaseURL cli ++ "/topics/" ++ topicName ++ "/subscriptions")
                "application/json"
                (json.encodeStruct [("name", json.appendString (SubName subscription));
                                    ("type", json.appendString (SubType subscription))]) st)
      as [[_ ->]|[Habs _]]; [reflexivity | congruence].
  - intros topicName message headers Hparse.
    unfold PublishMessage, Marshal_Message. fold (publishURL cli topicName).
    rewrite (NewRequest_unparsed "POST" _ _ eq_refl Hparse). reflexivity.
  - intros topicName message Hparse.
    unfold PublishMessage_plain, Marshal_Message, http.bind. fold (publishURL cli topicName).
    destruct (Post_cases (publishURL cli topicName) "application/json"
                (json.encodeStruct [("data", json.appendString (Data message))]) st)
      as [[_ ->]|[Habs _]]; [reflexivity | congruence].
  - intros subscriptionName Hparse. rewrite PullMessage_run.
    destruct (Get_cases (pullURL cli subscriptionName) st) as [[_ ->]|[Habs _]];
      [reflexivity | congruence].
  - rewrite ListTopics_run.
    destruct (Get_cases (BaseURL cli ++ "/topics") st) as [[_ ->]|[Habs _]];
      [reflexivity | congruence].
  - unfold TopicExists, http.bind. rewrite (Validate_topic_ok topic) by assumption.
    rewrite ListTopics_run.
    destruct (Get_cases (BaseURL cli ++ "/topics") st) as [[_ ->]|[Habs _]];
      [reflexivity | congruence].
  - unfold EnsureTopicExists, TopicExists, http.bind.
    rewrite (Validate_topic_ok topic) by assumption.
    rewrite ListTopics_run.
    destruct (Get_cases (BaseURL cli ++ "/topics") st) as [[_ ->]|[Habs _]];
      [reflexivity | congruence].
Qed.

Lemma unparsed_url_sends_nothing_witness :
  @http.url_Parse scripted (BaseURL localhost ++ "/topics/" ++ lineFeed ++ "/subscriptions")
  = false /\
  @CreateSubscription scripted localhost lineFeed (mkSubscription "s" "") (start [reply 201 ""])
  = (Some (url_Error "parse" (BaseURL localhost ++ "/topics/" ++ lineFeed ++ "/subscriptions")),
     start [reply 201 ""]) /\
  @http.url_Parse scripted (pullURL localhost lineFeed) = false /\
  @PullMessage scripted localhost lineFeed (start [reply 200 "{}"])
  = (Err (url_Error "parse" (pullURL localhost lineFeed)), start [reply 200 "{}"]).
Proof.
  pose proof (@unparsed_url_sends_nothing scripted localhost (start [reply 201 ""]))
    as (_ & Hsub & _).
  pose proof (@unparsed_url_sends_nothing scripted localhost (start [reply 200 "{}"]))
    as (_ & _ & _ & _ & Hpull & _).
  split; [reflexivity|]. split; [apply Hsub; reflexivity|].
  split; [reflexivity|]. apply Hpull. reflexivity.
Defined.

(** The log after ListTopics: nothing when the URL does not parse, else
    the request of the list. *)
Lemma ListTopics_sent `{http.Environment} (cli : Client) (st : http.State) :
  (http.url_Parse (BaseURL cli ++ "/topics") = false /\
   exists err, ListTopics cli st = (Err err, st)) \/
  (http.url_Parse (BaseURL cli ++ "/topics") = true /\
   http.sent (snd (ListTopics cli st)) = (http.sent st ++ [listRequest cli])%list).
Proof.
  rewrite ListTopics_run.
  destruct (Get_cases (BaseURL cli ++ "/topics") st) as [[Hparse ->]|[Hparse ->]].
  - left. split; [exact Hparse|]. eexists. reflexivity.
  - right. split; [exact Hparse|]. apply Do_sent.
Qed.

(** X18. EnsureTopicExists never makes more than two requests, and none
    to create a topic that was not preceded by the request of the list.
    For every topic name and every state, what it adds to the log of the
    requests handed to the HTTP client is nothing, or the GET of
    {base}/topics, or that GET followed by the POST of the JSON of
    Topic{Name: topic} to {base}/topics; requests made before are kept. *)
Theorem EnsureTopicExists_requests `{http.Environment}
    (cli : Client) (topic : string) (st : http.State) :
  exists added,
    http.sent (snd (EnsureTopicExists cli topic st)) = (http.sent st ++ added)%list /\
    (added = [] \/
     added = [listRequest cli] \/
     added = [listRequest cli; createRequest cli (nameTypeJson topic EmptyString)]).
Proof.
  unfold EnsureTopicExists, TopicExists, http.bind, http.ret.
  destruct (validation.Validate topic topicRules) as [err|].
  { exists []. split; [simpl; rewrite app_nil_r; reflexivity | auto]. }
  destruct (ListTopics_sent cli st) as [[_ [err HList]]|[Hparse Hsent]].
  { rewrite HList. exists []. split; [simpl; rewrite app_nil_r; reflexivity | auto]. }
  destruct (ListTopics cli st) as [[topics|err] st1]; simpl in Hsent.
  - destruct (rangeTopics (json.elems topics) topic); simpl.
    + exists [listRequest cli]. auto.
    + exists [listRequest cli; createRequest cli (nameTypeJson topic EmptyString)].
      split; [|auto].
      pose proof (CreateTopic_sent cli (mkTopic topic EmptyString) st1
                    (nameTypeJson topic EmptyString) Hparse eq_refl) as Hc.
      destruct (CreateTopic cli (mkTopic topic EmptyString) st1) as [[err|] st2];
        simpl in Hc |- *; rewrite Hc, Hsent, <- app_assoc; reflexivity.
  - exists [listRequest cli]. auto.
Qed.

(** X19. Every other operation makes one request at most, and it is the
    request of that operation. For every state and all arguments, the log
    of the requests handed to the HTTP client after CreateTopic,
    CreateSubscription, either PublishMessage, PullMessage, ListTopics,
    TopicExists or GetMessages is the log before, or the log before with
    the one request of the operation added at its end. *)
Theorem one_request_at_most `{http.Environment} (cli : Client) (st : http.State) :
  (forall topic,
     let after := http.sent (snd (CreateTopic cli topic st)) in
     after = http.sent st \/
     after = (http.sent st
              ++ [createRequest cli (nameTypeJson (Name topic) (Type_ topic))])%list) /\
  (forall topicName subscription,
     let after := http.sent (snd (CreateSubscription cli topicName subscription st)) in
     after = http.sent st \/
     after = (http.sent st
              ++ [subscriptionRequest cli topicName
                    (nameTypeJson (SubName subscription) (SubType subscription))])%list) /\
  (forall topicName message headers,
     let after := http.sent (snd (PublishMessage cli topicName message headers st)) in
     after = http.sent st \/
     after = (http.sent st ++ [publishRequest cli topicName message headers])%list) /\
  (forall topicName message,
     let after := http.sent (snd (PublishMessage_plain cli topicName message st)) in
     after = http.sent st \/
     after = (http.sent st ++ [publishRequest_plain cli topicName message])%list) /\
  (forall subscriptionName,
     let after := http.sent (snd (PullMessage cli subscriptionName st)) in
     after = http.sent st \/
     after = (http.sent st ++ [pullRequest cli subscriptionName])%list) /\
  (let after := http.sent (snd (ListTopics cli st)) in
   after = http.sent st \/ after = (http.sent st ++ [listRequest cli])%list) /\
  (forall topic,
     let after := http.sent (snd (TopicExists cli topic st)) in
     after = http.sent st \/ after = (http.sent st ++ [listRequest cli])%list) /\
  (forall topic,
     let after := http.sent (snd (GetMessages cli topic st)) in
     after = http.sent st \/
     after = (http.sent st ++ [messagesRequest cli topic])%list).
Proof.
  assert (HList : http.sent (snd (ListTopics cli st)) = http.sent st \/
                  http.sent (snd (ListTopics cli st))
                  = (http.sent st ++ [listRequest cli])%list).
  { destruct (ListTopics_sent cli st) as [[_ [err ->]]|[_ Hsent]]; auto. }
  split; [|split; [|split; [|split; [|split; [|split; [|split]]]]]]; cbv zeta.
  - intros topic. unfold CreateTopic, Marshal_Topic, http.bind.
    fold (nameTypeJson (Name topic) (Type_ topic)).
    destruct (Post_cases (BaseURL cli ++ "/topics") "application/json"
                (nameTypeJson (Name topic) (Type_ topic)) st) as [[_ ->]|[_ ->]];
      [left; reflexivity|].
    fold (createRequest cli (nameTypeJson (Name topic) (Type_ topic))).
    pose proof (Do_sent (createRequest cli (nameTypeJson (Name topic) (Type_ topic))) st) as Hd.
    destruct (http.Do _ st) as [[resp|err] st1]; simpl in Hd |- *;
      [destruct (negb _)|]; right; exact Hd.
  - intros topicName subscription. unfold CreateSubscription, Marshal_Subscription, http.bind.
    fold (nameTypeJson (SubName subscription) (SubType subscription)).
    destruct (Post_cases (BaseURL cli ++ "/topics/" ++ topicName ++ "/subscriptions")
                "application/json"
                (nameTypeJson (SubName subscription) (SubType subscription)) st)
      as [[_ ->]|[_ ->]]; [left; reflexivity|].
    fold (subscriptionRequest cli topicName
            (nameTypeJson (SubName subscription) (SubType subscription))).
    pose proof (Do_sent (subscriptionRequest cli topicName
                           (nameTypeJson (SubName subscription) (SubType subscription))) st)
      as Hd.
    destruct (http.Do _ st) as [[resp|err] st1]; simpl in Hd |- *;
      [destruct (negb _)|]; right; exact Hd.
  - intros topicName message headers.
    destruct (http.url_Parse (publishURL cli topicName)) eqn:Hparse.
    + right. apply PublishMessage_sent. exact Hparse.
    + left. unfold PublishMessage, Marshal_Message. fold (publishURL cli topicName).
      rewrite (NewRequest_unparsed "POST" _ _ eq_refl Hparse). reflexivity.
  - intros topicName message.
    destruct (http.url_Parse (publishURL cli topicName)) eqn:Hparse.
    + right. rewrite (PublishMessage_plain_run cli topicName message st Hparse). apply Do_sent.
    + left. unfold PublishMessage_plain, Marshal_Message, http.bind.
      fold (publishURL cli topicName).
      destruct (Post_cases (publishURL cli topicName) "application/json"
                  (json.encodeStruct [("data", json.appendString (Data message))]) st)
        as [[_ ->]|[Habs _]]; [reflexivity | congruence].
  - intros subscriptionName. rewrite PullMessage_run. cbn [snd].
    destruct (Get_cases (pullURL cli subscriptionName) st) as [[_ ->]|[_ ->]];
      [left; reflexivity | right; apply Do_sent].
  - exact HList.
  - intros topic. unfold TopicExists, http.bind.
    destruct (validation.Validate topic topicRules); [left; reflexivity|].
    destruct (ListTopics cli st) as [[topics|err] st1]; exact HList.
  - intros topic.
    destruct (validation.Validate topic topicRules) as [err|] eqn:Hv.
    { left. unfold GetMessages. rewrite Hv. reflexivity. }
    destruct (http.url_Parse (BaseURL cli ++ "/topics/" ++ topic ++ "/messages")) eqn:Hparse.
    + right. unfold GetMessages, http.bind, http.MethodGet.
      rewrite Hv, (NewRequest_parse "GET" _ _ eq_refl Hparse).
      fold (messagesRequest cli topic).
      pose proof (Do_sent (messagesRequest cli topic) st) as Hd.
      destruct (http.Do (messagesRequest cli topic) st) as [[resp|err] st1];
        simpl in Hd |- *; unfold http.ret; [|exact Hd].
      destruct (negb _); [exact Hd|].
      destruct (json.Decode _ _ _ _) as [g [e|]]; exact Hd.
    + left. unfold GetMessages, http.MethodGet.
      rewrite Hv, (NewRequest_unparsed "GET" _ _ eq_refl Hparse). reflexivity.
Qed.
